(** * Revenue forecasting: feature engineering and statistical inference

    A shallow embedding of the forecasting-and-inference engine of the
    repository:
      - [src/data_processing.py]     ([engineer_features], [split_train_test]),
      - [src/statistical_analysis.py] (confidence intervals, two-group tests,
        correlation screening, forecast intervals),
      - [scripts/app.py]             (the baseline predictor and the scenario
        transform).

    Numbers.  The code computes on numpy [float64].  The embedding keeps the
    special values of that type ([nan], [+inf], [-inf]) and their
    propagation rules, and takes every finite result to be the exact real
    number: rounding, overflow and the sign of zero are outside the model.
    A pandas cell is such a number, [nan] being the missing value.

    Library functions whose value is a quantile or a p-value
    ([scipy.stats.t.ppf], [scipy.stats.norm.ppf], [scipy.stats.ttest_ind],
    the p-value of [scipy.stats.pearsonr]) are parameters of the functions
    that call them. *)

From Stdlib Require Import String Ascii.
From Stdlib Require Import Reals Lra Lia ZArith Bool Arith List.
From Stdlib Require Import Sorting.Sorted Sorting.Permutation.
Import ListNotations.

Open Scope string_scope.
Open Scope list_scope.
Open Scope R_scope.

(* ================================================================== *)
(** * Numbers: float64 with exact finite arithmetic *)
(* ================================================================== *)

Inductive num : Type :=
| Fin (r : R)
| PInf
| NInf
| NaN.

Definition Rltb (x y : R) : bool := if Rlt_dec x y then true else false.
Definition Reqb (x y : R) : bool := if Req_dec_T x y then true else false.

Definition isnan (x : num) : bool :=
  match x with NaN => true | _ => false end.

Definition notna (x : num) : bool := negb (isnan x).

Definition isfinite (x : num) : bool :=
  match x with Fin _ => true | _ => false end.

Definition fneg (x : num) : num :=
  match x with
  | Fin r => Fin (- r)
  | PInf => NInf
  | NInf => PInf
  | NaN => NaN
  end.

Definition fadd (x y : num) : num :=
  match x, y with
  | NaN, _ | _, NaN => NaN
  | PInf, NInf | NInf, PInf => NaN
  | PInf, _ | _, PInf => PInf
  | NInf, _ | _, NInf => NInf
  | Fin a, Fin b => Fin (a + b)
  end.

Definition fsub (x y : num) : num := fadd x (fneg y).

(** An infinity scaled by a finite factor: its sign follows the factor,
    and [inf * 0] is [nan]. *)
Definition scale_inf (positive : bool) (r : R) : num :=
  if Rltb 0 r then (if positive then PInf else NInf)
  else if Rltb r 0 then (if positive then NInf else PInf)
  else NaN.

Definition fmul (x y : num) : num :=
  match x, y with
  | NaN, _ | _, NaN => NaN
  | Fin a, Fin b => Fin (a * b)
  | PInf, Fin b | Fin b, PInf => scale_inf true b
  | NInf, Fin b | Fin b, NInf => scale_inf false b
  | PInf, PInf | NInf, NInf => PInf
  | PInf, NInf | NInf, PInf => NInf
  end.

(** Division as numpy does it on float64 scalars and arrays: dividing by
    zero raises nothing, it yields an infinity, or [nan] for [0/0]. *)
Definition fdiv (x y : num) : num :=
  match x, y with
  | NaN, _ | _, NaN => NaN
  | Fin a, Fin b =>
      if Reqb b 0 then scale_inf true a else Fin (a / b)
  | Fin _, (PInf | NInf) => Fin 0
  | (PInf | NInf), (PInf | NInf) => NaN
  | PInf, Fin b => if Rltb b 0 then NInf else PInf
  | NInf, Fin b => if Rltb b 0 then PInf else NInf
  end.

Definition fsqrt (x : num) : num :=
  match x with
  | Fin r => if Rltb r 0 then NaN else Fin (sqrt r)
  | PInf => PInf
  | NInf | NaN => NaN
  end.

Definition fabs (x : num) : num :=
  match x with
  | Fin r => Fin (Rabs r)
  | PInf | NInf => PInf
  | NaN => NaN
  end.

Definition fsquare (x : num) : num := fmul x x.

(** Comparisons: every comparison with [nan] is false. *)
Definition fltb (x y : num) : bool :=
  match x, y with
  | NaN, _ | _, NaN => false
  | Fin a, Fin b => Rltb a b
  | NInf, (Fin _ | PInf) => true
  | Fin _, PInf => true
  | _, _ => false
  end.

Definition fgtb (x y : num) : bool := fltb y x.

Definition feqb (x y : num) : bool :=
  match x, y with
  | Fin a, Fin b => Reqb a b
  | PInf, PInf | NInf, NInf => true
  | _, _ => false
  end.

Definition fleb (x y : num) : bool := fltb x y || feqb x y.
Definition fgeb (x y : num) : bool := fleb y x.

Definition of_nat (n : nat) : num := Fin (INR n).
Definition of_Z (z : Z) : num := Fin (IZR z).
Definition of_bool (b : bool) : num := if b then Fin 1 else Fin 0.

(** ** numpy and pandas reductions *)

Definition np_sum (xs : list num) : num := fold_left fadd xs (Fin 0).

Definition np_mean (xs : list num) : num :=
  fdiv (np_sum xs) (of_nat (length xs)).

(** [np.var(xs, ddof)]: the divisor is [max(n - ddof, 0)]. *)
Definition np_var (ddof : nat) (xs : list num) : num :=
  let m := np_mean xs in
  fdiv (np_sum (map (fun x => fsquare (fsub x m)) xs))
       (of_nat (length xs - ddof)).

Definition np_std (ddof : nat) (xs : list num) : num :=
  fsqrt (np_var ddof xs).

Definition dropna (xs : list num) : list num := filter notna xs.

(** [Series.mean()] and [Series.std()] skip missing values; [std] has
    [ddof = 1]. *)
Definition series_mean (xs : list num) : num := np_mean (dropna xs).
Definition series_std (xs : list num) : num := np_std 1 (dropna xs).

(** [scipy.stats.sem]: sample standard deviation over [sqrt n]. *)
Definition stats_sem (xs : list num) : num :=
  fdiv (np_std 1 xs) (fsqrt (of_nat (length xs))).

(* ================================================================== *)
(** * Exceptions *)
(* ================================================================== *)

(** The Python exceptions the modelled code can raise. *)
Inductive exn : Type :=
| KeyError (key : string)
| ValueError (msg : string).

Inductive result (A : Type) : Type :=
| Return (a : A)
| Raise (e : exn).

Arguments Return {A} a.
Arguments Raise {A} e.

Definition bind {A B : Type} (m : result A) (k : A -> result B) : result B :=
  match m with
  | Return a => k a
  | Raise e => Raise e
  end.

Notation "x <- m ;; k" := (bind m (fun x => k))
  (at level 61, m at next level, right associativity).

(* ================================================================== *)
(** * Data frames *)
(* ================================================================== *)

(** A date is a day number (days since 1970-01-01).  A frame is its date
    index and its columns in their order; every column of a frame built by
    the code has one cell per index entry. *)
Record DataFrame : Type := mkDF {
  index : list Z;
  columns : list (string * list num)
}.

Definition nrows (df : DataFrame) : nat := length (index df).

Definition column_names (df : DataFrame) : list string := map fst (columns df).

Fixpoint lookup (name : string) (cols : list (string * list num))
  : option (list num) :=
  match cols with
  | [] => None
  | (n, v) :: rest => if String.eqb n name then Some v else lookup name rest
  end.

(** [df[name]] read: a missing column is a [KeyError]. *)
Definition getcol (name : string) (df : DataFrame) : result (list num) :=
  match lookup name (columns df) with
  | Some v => Return v
  | None => Raise (KeyError name)
  end.

(** [df[name] = v]: an existing column is replaced where it stands, a new
    one is appended. *)
Fixpoint assign (name : string) (v : list num) (cols : list (string * list num))
  : list (string * list num) :=
  match cols with
  | [] => [(name, v)]
  | (n, w) :: rest =>
      if String.eqb n name then (n, v) :: rest
      else (n, w) :: assign name v rest
  end.

Definition setcol (name : string) (v : list num) (df : DataFrame) : DataFrame :=
  mkDF (index df) (assign name v (columns df)).

(** The column as a plain list, empty when the frame has no such column
    (used in statements only). *)
Definition col (df : DataFrame) (name : string) : list num :=
  match lookup name (columns df) with
  | Some v => v
  | None => []
  end.

(** Cell [i] of a column; [nan] past its end. *)
Definition cell (v : list num) (i : nat) : num := nth i v NaN.

(** Rows, for statements about whole rows: the date and the cells in
    column order. *)
Definition row_at (df : DataFrame) (i : nat) : Z * list num :=
  (nth i (index df) 0%Z, map (fun c => cell (snd c) i) (columns df)).

Definition rows (df : DataFrame) : list (Z * list num) :=
  map (row_at df) (seq 0 (nrows df)).

(** [df.iloc[positions]]: the rows at the given positions, in that order. *)
Definition take_rows (positions : list nat) (df : DataFrame) : DataFrame :=
  mkDF (map (fun i => nth i (index df) 0%Z) positions)
       (map (fun c => (fst c, map (cell (snd c)) positions)) (columns df)).

(** [df[names]]: the named columns, in the order asked. *)
Fixpoint select_columns (names : list string) (df : DataFrame)
  : result (list (string * list num)) :=
  match names with
  | [] => Return []
  | n :: rest =>
      v <- getcol n df ;;
      vs <- select_columns rest df ;;
      Return ((n, v) :: vs)
  end.

Definition select (names : list string) (df : DataFrame) : result DataFrame :=
  cs <- select_columns names df ;;
  Return (mkDF (index df) cs).

Definition well_formed (df : DataFrame) : Prop :=
  Forall (fun c => length (snd c) = nrows df) (columns df).

(** ** Series operations *)

(** [Series.shift(k)] for [k >= 0]: [k] missing cells, then the series
    without its last [k] cells. *)
Definition shift (k : nat) (xs : list num) : list num :=
  repeat NaN (Nat.min k (length xs)) ++ firstn (length xs - k) xs.

(** [Series.bfill()]: a missing cell takes the next valid one. *)
Fixpoint bfill (xs : list num) : list num :=
  match xs with
  | [] => []
  | x :: rest =>
      let rest' := bfill rest in
      (if isnan x then match rest' with y :: _ => y | [] => NaN end else x)
        :: rest'
  end.

(** [Series.ffill()]: a missing cell takes the last valid one. *)
Fixpoint ffill_from (last : num) (xs : list num) : list num :=
  match xs with
  | [] => []
  | x :: rest =>
      let x' := if isnan x then last else x in
      x' :: ffill_from x' rest
  end.

Definition ffill (xs : list num) : list num := ffill_from NaN xs.

Definition fillna (v : num) (xs : list num) : list num :=
  map (fun x => if isnan x then v else x) xs.

(** The window of [k] cells ending at position [i]. *)
Definition window (k i : nat) (xs : list num) : list num :=
  firstn k (skipn (i + 1 - k) xs).

(** [Series.rolling(k).agg()]: [min_periods] is the window size, so a cell
    is defined only from position [k - 1] on and only when the window holds
    [k] valid cells; pandas takes an infinity in a window as missing. *)
Definition rolling (k : nat) (agg : list num -> num) (xs : list num)
  : list num :=
  map (fun i =>
         if (k <=? i + 1)%nat && forallb isfinite (window k i xs)
         then agg (window k i xs) else NaN)
      (seq 0 (length xs)).

Definition rolling_mean (k : nat) : list num -> list num := rolling k np_mean.
Definition rolling_std (k : nat) : list num -> list num := rolling k (np_std 1).

(** Frame-wide versions act on every column and leave the index alone. *)
Definition map_columns (f : list num -> list num) (df : DataFrame) : DataFrame :=
  mkDF (index df) (map (fun c => (fst c, f (snd c))) (columns df)).

Definition df_bfill : DataFrame -> DataFrame := map_columns bfill.
Definition df_ffill : DataFrame -> DataFrame := map_columns ffill.
Definition df_fillna (v : num) : DataFrame -> DataFrame := map_columns (fillna v).

(* ================================================================== *)
(** * Calendar fields of a date *)
(* ================================================================== *)

(** Year, month and day of a day number, in the proleptic Gregorian
    calendar (what [DatetimeIndex.year], [.month] and [.day] return). *)
Definition civil_from_days (z : Z) : Z * Z * Z :=
  (let z := z + 719468 in
   let era := z / 146097 in
   let doe := z - era * 146097 in
   let yoe := (doe - doe / 1460 + doe / 36524 - doe / 146096) / 365 in
   let doy := doe - (365 * yoe + yoe / 4 - yoe / 100) in
   let mp := (5 * doy + 2) / 153 in
   let d := doy - (153 * mp + 2) / 5 + 1 in
   let m := if mp <? 10 then mp + 3 else mp - 9 in
   let y := yoe + era * 400 in
   (if m <=? 2 then y + 1 else y, m, d))%Z.

Definition year_of (z : Z) : Z := fst (fst (civil_from_days z)).
Definition month_of (z : Z) : Z := snd (fst (civil_from_days z)).
Definition day_of (z : Z) : Z := snd (civil_from_days z).

(** Monday is 0; 1970-01-01 was a Thursday. *)
Definition dayofweek_of (z : Z) : Z := ((z + 3) mod 7)%Z.
Definition quarter_of (z : Z) : Z := ((month_of z - 1) / 3 + 1)%Z.

(* ================================================================== *)
(** * data_processing.py *)
(* ================================================================== *)

(** The raw inputs, with the columns the code reads.  A numeric CSV cell
    is a finite number or missing. *)
Record SaleRecord : Type := mkSale {
  sale_date : Z;
  sale_amount : option R;
  onpromotion : option R
}.

Record OilRecord : Type := mkOil {
  oil_date : Z;
  dcoilwtico : option R
}.

(** ** [groupby("date")[c].sum().reset_index()] *)

Fixpoint insert_key (d : Z) (ks : list Z) : list Z :=
  match ks with
  | [] => [d]
  | k :: rest =>
      if (d <? k)%Z then d :: ks
      else if (d =? k)%Z then ks
      else k :: insert_key d rest
  end.

(** The group keys: the distinct dates, ascending. *)
Definition group_keys (ds : list Z) : list Z := fold_right insert_key [] ds.

(** The sum of a group skips missing cells. *)
Definition sum_present (vs : list (option R)) : R :=
  fold_left (fun acc v => match v with Some r => acc + r | None => acc end) vs 0.

Definition groupby_sum (recs : list (Z * option R)) : list (Z * R) :=
  map (fun d =>
         (d, sum_present (map snd (filter (fun r => (fst r =? d)%Z) recs))))
      (group_keys (map fst recs)).

(** ** [left.merge(right, on="date", how="left")]: the left rows in their
    order, each once per matching right row, or once with a missing cell. *)
Definition merge_left {A B : Type} (l : list (Z * A)) (r : list (Z * B))
  : list (Z * A * option B) :=
  flat_map
    (fun la =>
       match filter (fun rb => (fst rb =? fst la)%Z) r with
       | [] => [(fst la, snd la, None)]
       | ms => map (fun rb => (fst la, snd la, Some (snd rb))) ms
       end)
    l.

(** A row of the merged daily table (lines 48-57). *)
Record DailyRow : Type := mkDaily {
  day : Z;
  day_sales : R;
  day_promo_count : R;
  day_dcoilwtico : num;
  day_oil_price : num
}.

Definition num_of_cell (c : option R) : num :=
  match c with Some r => Fin r | None => NaN end.

Definition merge_inputs (sales_raw : list SaleRecord) (oil : list OilRecord)
  : list DailyRow :=
  let daily_sales :=
    groupby_sum (map (fun s => (sale_date s, sale_amount s)) sales_raw) in
  let promo :=
    groupby_sum (map (fun s => (sale_date s, onpromotion s)) sales_raw) in
  (* daily_sales.merge(promo, on="date", how="left"); promo_count.fillna(0) *)
  let df :=
    map (fun '(d, sales, promo_count) =>
           (d, (sales, match promo_count with Some p => p | None => 0 end)))
        (merge_left daily_sales promo) in
  (* df.merge(oil, on="date", how="left") *)
  let df := merge_left df (map (fun o => (oil_date o, dcoilwtico o)) oil) in
  let raw_oil :=
    map (fun '(_, _, c) => match c with Some c => num_of_cell c | None => NaN end)
        df in
  (* df["dcoilwtico"].ffill().bfill() *)
  let oil_price := bfill (ffill raw_oil) in
  map (fun '(d, (sales, promo_count), _, raw, price) =>
         mkDaily d sales promo_count raw price)
      (combine (combine df raw_oil) oil_price).

(** ** [df.sort_values("date")]

    Rows with equal dates keep their order here; numpy's default sort does
    not promise that.  The merged table is in date order already, so this
    sort returns it as it is, and row positions below are those of the
    merged table; whether pandas may swap the rows of one date is outside
    the model. *)
Fixpoint insert_row (r : DailyRow) (rs : list DailyRow) : list DailyRow :=
  match rs with
  | [] => [r]
  | s :: rest =>
      if (day r <=? day s)%Z then r :: rs else s :: insert_row r rest
  end.

Definition sort_values_date (rs : list DailyRow) : list DailyRow :=
  fold_right insert_row [] rs.

(** ** Derived columns (lines 60-87) *)

Definition zip_with {A B C : Type} (f : A -> B -> C) (xs : list A) (ys : list B)
  : list C :=
  map (fun p => f (fst p) (snd p)) (combine xs ys).

Definition isin (d : Z) (ds : list Z) : bool := existsb (Z.eqb d) ds.

(** [holidays["date"].dropna()]: the dates present in the calendar. *)
Fixpoint dropna_dates (ds : list (option Z)) : list Z :=
  match ds with
  | [] => []
  | Some d :: rest => d :: dropna_dates rest
  | None :: rest => dropna_dates rest
  end.

Definition derive_features (daily : list DailyRow) (holidays : list (option Z))
  : DataFrame :=
  let idx := map day daily in
  let sales := map (fun r => Fin (day_sales r)) daily in
  let holiday_dates := dropna_dates holidays in
  let yoy_sales := shift 365 sales in
  mkDF idx
    [ ("sales", sales);
      ("promo_count", map (fun r => Fin (day_promo_count r)) daily);
      ("dcoilwtico", map day_dcoilwtico daily);
      ("oil_price", map day_oil_price daily);
      ("year", map (fun d => of_Z (year_of d)) idx);
      ("month", map (fun d => of_Z (month_of d)) idx);
      ("day_of_week", map (fun d => of_Z (dayofweek_of d)) idx);
      ("day_of_month", map (fun d => of_Z (day_of d)) idx);
      ("is_weekend", map (fun d => of_bool (5 <=? dayofweek_of d)%Z) idx);
      ("quarter", map (fun d => of_Z (quarter_of d)) idx);
      ("lag_1", shift 1 sales);
      ("lag_7", shift 7 sales);
      ("lag_30", shift 30 sales);
      ("roll_mean_7", rolling_mean 7 (shift 1 sales));
      ("roll_mean_30", rolling_mean 30 (shift 1 sales));
      ("roll_std_7", rolling_std 7 (shift 1 sales));
      ("roll_std_30", rolling_std 30 (shift 1 sales));
      ("is_holiday", map (fun d => of_bool (isin d holiday_dates)) idx);
      ("yoy_sales", yoy_sales);
      ("yoy_growth",
       zip_with (fun s y => fdiv (fsub s y) (fadd y (Fin 1))) sales yoy_sales) ].

(** The daily table the derived columns are computed on. *)
Definition daily_table (sales_raw : list SaleRecord) (oil : list OilRecord)
  : list DailyRow :=
  sort_values_date (merge_inputs sales_raw oil).

Definition engineer_features (sales_raw : list SaleRecord)
  (oil : list OilRecord) (holidays : list (option Z)) : DataFrame :=
  let df := derive_features (daily_table sales_raw oil) holidays in
  (* df.bfill().ffill().fillna(0) *)
  df_fillna (Fin 0) (df_ffill (df_bfill df)).

Definition get_feature_columns : list string :=
  [ "oil_price"; "promo_count"; "is_holiday"; "is_weekend";
    "year"; "month"; "day_of_week"; "quarter";
    "lag_1"; "lag_7"; "lag_30";
    "roll_mean_7"; "roll_mean_30";
    "roll_std_7"; "roll_std_30" ].

(** ** [split_train_test]

    [df.loc[:split_date]] and [df.loc[split_date:]] on a date index, the
    bound being a date string (pandas 2).  On an ascending index pandas
    finds both ends by binary search.  On any other index it keeps the rows
    whose date passes the comparison, and raises [KeyError] when the bound
    is not an entry of the index: a start bound is the first instant of its
    day, which is the date itself; an end bound is the last instant of its
    day, which no date of the index equals. *)

Fixpoint is_monotonic_increasing (idx : list Z) : bool :=
  match idx with
  | [] => true
  | x :: rest =>
      match rest with
      | [] => true
      | y :: _ => (x <=? y)%Z && is_monotonic_increasing rest
      end
  end.

(** Length of the longest prefix whose dates all satisfy [p]: on an
    ascending index, the insertion point of the binary search. *)
Fixpoint count_while (p : Z -> bool) (idx : list Z) : nat :=
  match idx with
  | [] => 0
  | x :: rest => if p x then S (count_while p rest) else 0
  end.

Definition searchsorted_left (idx : list Z) (d : Z) : nat :=
  count_while (fun x => (x <? d)%Z) idx.

Definition searchsorted_right (idx : list Z) (d : Z) : nat :=
  count_while (fun x => (x <=? d)%Z) idx.

Definition positions_where (p : Z -> bool) (idx : list Z) : list nat :=
  filter (fun i => p (nth i idx 0%Z)) (seq 0 (length idx)).

Definition non_monotonic_msg : string :=
  "Value based partial slicing on non-monotonic DatetimeIndexes with non-existing keys is not allowed.".

Definition loc_until (split_date : Z) (df : DataFrame) : result DataFrame :=
  let idx := index df in
  if is_monotonic_increasing idx then
    Return (take_rows (seq 0 (searchsorted_right idx split_date)) df)
  else Raise (KeyError non_monotonic_msg).

Definition loc_from (split_date : Z) (df : DataFrame) : result DataFrame :=
  let idx := index df in
  if is_monotonic_increasing idx then
    let start := searchsorted_left idx split_date in
    Return (take_rows (seq start (length idx - start)) df)
  else if isin split_date idx then
    Return (take_rows (positions_where (fun d => (split_date <=? d)%Z) idx) df)
  else Raise (KeyError non_monotonic_msg).

Definition split_train_test (df : DataFrame) (split_date : Z)
  : result (DataFrame * DataFrame) :=
  train <- loc_until split_date df ;;
  test <- loc_from split_date df ;;
  Return (train, test).

(* ================================================================== *)
(** * statistical_analysis.py *)
(* ================================================================== *)

(** Values of the result dictionaries. *)
Inductive pyval : Type :=
| VNum (x : num)
| VBool (b : bool)
| VStr (s : string).

Definition dict : Type := list (string * pyval).

Fixpoint dict_get (key : string) (d : dict) : option pyval :=
  match d with
  | [] => None
  | (k, v) :: rest => if String.eqb k key then Some v else dict_get key rest
  end.

Definition has_key (key : string) (d : dict) : bool :=
  match dict_get key d with Some _ => true | None => false end.

(** A result is error-tagged when it carries the key ["error"]. *)
Definition error_tagged (d : dict) : bool := has_key "error" d.

(** [df[mask][c]]: the cells of [c] in the rows where the mask holds. *)
Definition mask_select (mask : list bool) (xs : list num) : list num :=
  map snd (filter fst (combine mask xs)).

Definition len (xs : list num) : Z := Z.of_nat (length xs).

Definition effect_size_label (cohens_d : num) : string :=
  if fgtb (fabs cohens_d) (Fin 0.8) then "large"
  else if fgtb (fabs cohens_d) (Fin 0.5) then "medium"
  else "small".

Section Statistics.

(** [scipy.stats.t.ppf(q, df)]. *)
Variable t_ppf : num -> Z -> num.
(** [scipy.stats.ttest_ind(a, b)]: the statistic and the p-value. *)
Variable ttest_ind : list num -> list num -> num * num.

Definition calculate_confidence_interval (values : list num) (confidence : num)
  : num * num * num * num :=
  let mean := np_mean values in
  let std_err := stats_sem values in
  let h := fmul std_err
                (t_ppf (fdiv (fadd (Fin 1) confidence) (Fin 2)) (len values - 1)) in
  (fsub mean h, fadd mean h, mean, std_err).

Definition test_promotion_impact (df : DataFrame) : result dict :=
  promo_count <- getcol "promo_count" df ;;
  sales <- getcol "sales" df ;;
  let promo_days := mask_select (map (fun c => fgtb c (Fin 0)) promo_count) sales in
  let no_promo_days := mask_select (map (fun c => feqb c (Fin 0)) promo_count) sales in
  if (length promo_days =? 0)%nat || (length no_promo_days =? 0)%nat then
    Return [("error", VStr "Insufficient data for comparison")]
  else
    let '(t_stat, p_value) := ttest_ind promo_days no_promo_days in
    let pooled_std :=
      fsqrt (fdiv (fadd (fmul (of_Z (len promo_days - 1))
                              (fsquare (series_std promo_days)))
                        (fmul (of_Z (len no_promo_days - 1))
                              (fsquare (series_std no_promo_days))))
                  (of_Z (len promo_days + len no_promo_days - 2))) in
    let cohens_d :=
      fdiv (fsub (series_mean promo_days) (series_mean no_promo_days)) pooled_std in
    let promo_mean := series_mean promo_days in
    let no_promo_mean := series_mean no_promo_days in
    let lift := fmul (fdiv (fsub promo_mean no_promo_mean) no_promo_mean) (Fin 100) in
    Return [ ("t_statistic", VNum t_stat);
             ("p_value", VNum p_value);
             ("significant", VBool (fltb p_value (Fin 0.05)));
             ("promo_mean", VNum promo_mean);
             ("no_promo_mean", VNum no_promo_mean);
             ("lift_percentage", VNum lift);
             ("cohens_d", VNum cohens_d);
             ("effect_size", VStr (effect_size_label cohens_d)) ].

Definition test_holiday_impact (df : DataFrame) : result dict :=
  is_holiday <- getcol "is_holiday" df ;;
  sales <- getcol "sales" df ;;
  let holiday_days := mask_select (map (fun c => feqb c (Fin 1)) is_holiday) sales in
  let regular_days := mask_select (map (fun c => feqb c (Fin 0)) is_holiday) sales in
  if (length holiday_days =? 0)%nat then
    Return [("error", VStr "No holiday data available")]
  else
    let '(t_stat, p_value) := ttest_ind holiday_days regular_days in
    let holiday_mean := series_mean holiday_days in
    let regular_mean := series_mean regular_days in
    let lift :=
      if fgtb regular_mean (Fin 0)
      then fmul (fdiv (fsub holiday_mean regular_mean) regular_mean) (Fin 100)
      else Fin 0 in
    Return [ ("t_statistic", VNum t_stat);
             ("p_value", VNum p_value);
             ("significant", VBool (fltb p_value (Fin 0.05)));
             ("holiday_mean", VNum holiday_mean);
             ("regular_mean", VNum regular_mean);
             ("lift_percentage", VNum lift) ].

End Statistics.

(** ** Correlation screening *)

(** The coefficient of [scipy.stats.pearsonr]: the normalised dot product
    of the centred samples; a constant sample gives [nan]. *)
Definition pearson_r (x y : list num) : num :=
  let xm := map (fun a => fsub a (np_mean x)) x in
  let ym := map (fun b => fsub b (np_mean y)) y in
  fdiv (np_sum (zip_with fmul xm ym))
       (fmul (fsqrt (np_sum (map fsquare xm))) (fsqrt (np_sum (map fsquare ym)))).

Definition pearsonr (pearson_pvalue : num -> nat -> num) (x y : list num)
  : result (num * num) :=
  if negb (length x =? length y)%nat then
    Raise (ValueError "x and y must have the same length.")
  else if (length x <? 2)%nat then
    Raise (ValueError "x and y must have length at least 2.")
  else
    let r := pearson_r x y in
    Return (r, pearson_pvalue r (length x)).

(** A row of the table [calculate_correlations] returns. *)
Record CorrRow : Type := mkCorr {
  Feature : string;
  Correlation : num;
  P_Value : num;
  Significant : bool;
  Strength : num
}.

(** [sort_values("Strength", ascending=False)]: descending.  pandas
    reverses the column, sorts it ascending and reverses the outcome, so
    under a stable sort rows of equal strength stay in their original
    order; numpy's default sort is stable on arrays of up to 16 entries,
    which it sorts by insertion.  [Strength] is never missing. *)
Fixpoint insert_desc (r : CorrRow) (rs : list CorrRow) : list CorrRow :=
  match rs with
  | [] => [r]
  | s :: rest =>
      if fgeb (Strength r) (Strength s) then r :: rs
      else s :: insert_desc r rest
  end.

Definition sort_by_strength (rs : list CorrRow) : list CorrRow :=
  fold_right insert_desc [] rs.

(** The loop over the numeric columns (lines 145-152). *)
Fixpoint correlate (pearson_pvalue : num -> nat -> num) (df : DataFrame)
  (target_col : string) (numeric_cols : list string)
  : result (list (num * num)) :=
  match numeric_cols with
  | [] => Return []
  | c :: rest =>
      v <- getcol c df ;;
      cp <- (if (10 <? length (filter notna v))%nat then
               target <- getcol target_col df ;;
               pearsonr pearson_pvalue (dropna target) (dropna v)
             else Return (NaN, NaN)) ;;
      cps <- correlate pearson_pvalue df target_col rest ;;
      Return (cp :: cps)
  end.

Definition calculate_correlations (pearson_pvalue : num -> nat -> num)
  (df : DataFrame) (target_col : string) (top_n : nat)
  : result (list CorrRow) :=
  let numeric_cols :=
    filter (fun c => negb (String.eqb c target_col)) (column_names df) in
  cps <- correlate pearson_pvalue df target_col numeric_cols ;;
  let corr_df :=
    zip_with (fun c cp =>
                mkCorr c (fst cp) (snd cp)
                       (fltb (snd cp) (Fin 0.05))
                       (if negb (isnan (fst cp)) then fabs (fst cp) else Fin 0))
             numeric_cols cps in
  Return (firstn top_n (sort_by_strength corr_df)).

(** ** Forecast intervals *)

Definition range_index (n : nat) : list Z := map Z.of_nat (seq 0 n).

Definition forecast_confidence_intervals (norm_ppf : num -> num)
  (forecasts historical_errors : list num) (confidence : num) : DataFrame :=
  let error_std := np_std 0 historical_errors in
  let error_mean := np_mean historical_errors in
  let z_score := norm_ppf (fdiv (fadd (Fin 1) confidence) (Fin 2)) in
  let margin := fmul z_score error_std in
  mkDF (range_index (length forecasts))
       [ ("forecast", forecasts);
         ("lower_bound", map (fun f => fsub f margin) forecasts);
         ("upper_bound", map (fun f => fadd f margin) forecasts);
         ("confidence_level", map (fun _ => confidence) forecasts) ].

(* ================================================================== *)
(** * scripts/app.py *)
(* ================================================================== *)

(** ** The baseline predictor of [get_trained_models] *)

(** [xs[-k:]] for [k >= 0]: the last [k] cells, the whole array when
    [k = 0] or [k] exceeds its length. *)
Definition last_cells (k : nat) (xs : list num) : list num :=
  if (k =? 0)%nat then xs else skipn (length xs - k) xs.

(** [np.pad(xs, (0, k), mode="edge")]: numpy refuses to extend an empty
    array by its edge. *)
Definition np_pad_edge (k : nat) (xs : list num) : result (list num) :=
  match xs with
  | [] =>
      if (k =? 0)%nat then Return []
      else Raise (ValueError "can't extend empty axis 0 using modes other than 'constant' or 'empty'")
  | _ => Return (xs ++ repeat (last xs NaN) k)
  end.

Definition baseline_pred (X_train : DataFrame) (test_size : nat)
  : result (list num) :=
  lag_1 <- getcol "lag_1" X_train ;;
  let pred := last_cells test_size lag_1 in
  pred <- (if (length pred <? test_size)%nat
           then np_pad_edge (Nat.max 0 (test_size - length pred)) pred
           else Return pred) ;;
  Return (firstn test_size pred).

(** ** The scenario transform (forecasting page) *)

Definition scale_by (pct : R) (xs : list num) : list num :=
  map (fun x => fmul x (Fin (1 + pct / 100))) xs.

Definition scenario_df (X_test : DataFrame) (promo_change oil_change : R)
  : result DataFrame :=
  promo_count <- getcol "promo_count" X_test ;;
  let df := setcol "promo_count" (scale_by promo_change promo_count) X_test in
  oil_price <- getcol "oil_price" df ;;
  Return (setcol "oil_price" (scale_by oil_change oil_price) df).

(* ================================================================== *)
(** * Specification-side definitions and example inputs *)
(* ================================================================== *)

(** The sum of a list of reals. *)
Fixpoint Rsum (rs : list R) : R :=
  match rs with
  | [] => 0
  | r :: rest => r + Rsum rest
  end.

(** A training frame whose [lag_1] history has two cells. *)
Definition short_history : DataFrame :=
  mkDF [0; 1]%Z [("lag_1", [Fin 1; Fin 2])].

(** A two-row feature frame with one column besides the two the scenario
    transform touches. *)
Definition small_features : DataFrame :=
  mkDF [17167; 17168]%Z
       [ ("oil_price", [Fin 50; Fin 52]);
         ("promo_count", [Fin 10; Fin 0]);
         ("lag_1", [Fin 100; Fin 120]) ].

(** The two groups of each test, as the code selects them. *)
Definition promo_group (promo_count sales : list num) : list num :=
  mask_select (map (fun c => fgtb c (Fin 0)) promo_count) sales.

Definition no_promo_group (promo_count sales : list num) : list num :=
  mask_select (map (fun c => feqb c (Fin 0)) promo_count) sales.

Definition holiday_group (is_holiday sales : list num) : list num :=
  mask_select (map (fun c => feqb c (Fin 1)) is_holiday) sales.

Definition regular_group (is_holiday sales : list num) : list num :=
  mask_select (map (fun c => feqb c (Fin 0)) is_holiday) sales.

(** The pooled standard deviation and Cohen's d of two samples (lines
    63-66). *)
Definition pooled_std_of (a b : list num) : num :=
  fsqrt (fdiv (fadd (fmul (of_Z (len a - 1)) (fsquare (series_std a)))
                    (fmul (of_Z (len b - 1)) (fsquare (series_std b))))
              (of_Z (len a + len b - 2))).

Definition cohens_d_of (a b : list num) : num :=
  fdiv (fsub (series_mean a) (series_mean b)) (pooled_std_of a b).

(** Percentage lift of group [a] over group [b]. *)
Definition lift_of (a b : list num) : num :=
  fmul (fdiv (fsub (series_mean a) (series_mean b)) (series_mean b)) (Fin 100).

(** One holiday with sales 5, one regular day with sales 0: both groups
    are non-empty and the mean of the regular days is zero. *)
Definition zero_regular_mean : DataFrame :=
  mkDF [0; 1]%Z
       [ ("sales", [Fin 5; Fin 0]);
         ("promo_count", [Fin 1; Fin 0]);
         ("is_holiday", [Fin 1; Fin 0]) ].

(** Holidays only: the regular-day group is empty. *)
Definition holidays_only : DataFrame :=
  mkDF [0; 1]%Z
       [ ("sales", [Fin 5; Fin 7]);
         ("promo_count", [Fin 1; Fin 0]);
         ("is_holiday", [Fin 1; Fin 1]) ].

(** Two promotion days with sales 4 and 14, two plain days with sales 5:
    the means are 9 and 5, the pooled standard deviation is 5, Cohen's d
    is exactly 0.8. *)
Definition cohen_boundary : DataFrame :=
  mkDF [0; 1; 2; 3]%Z
       [ ("sales", [Fin 4; Fin 14; Fin 5; Fin 5]);
         ("promo_count", [Fin 1; Fin 1; Fin 0; Fin 0]);
         ("is_holiday", [Fin 0; Fin 0; Fin 1; Fin 0]) ].

(** A shuffled three-row frame: its index is not ascending. *)
Definition shuffled_frame : DataFrame :=
  mkDF [3; 1; 2]%Z [("sales", [Fin 30; Fin 10; Fin 20])].

(** A four-row frame in date order. *)
Definition ordered_frame : DataFrame :=
  mkDF [1; 2; 3; 4]%Z [("sales", [Fin 10; Fin 20; Fin 30; Fin 40])].

(** The final pass on one column: [bfill], then [ffill], then zero. *)
Definition impute (v : list num) : list num :=
  fillna (Fin 0) (ffill (bfill v)).

(** The cells [start .. start + k - 1] of a column. *)
Definition cells_from (start k : nat) (v : list num) : list num :=
  firstn k (skipn start v).

(** The daily sales the derived columns are computed from. *)
Definition sales_of_table (daily : list DailyRow) : list num :=
  map (fun r => Fin (day_sales r)) daily.

(** One row per calendar day: each date is the day after the one before. *)
Definition consecutive_days (idx : list Z) : Prop :=
  forall j, (S j < length idx)%nat -> nth (S j) idx 0%Z = (nth j idx 0%Z + 1)%Z.

(** The 20 columns of the table, in the order the code creates them. *)
Definition table_columns : list string :=
  [ "sales"; "promo_count"; "dcoilwtico"; "oil_price";
    "year"; "month"; "day_of_week"; "day_of_month"; "is_weekend"; "quarter";
    "lag_1"; "lag_7"; "lag_30";
    "roll_mean_7"; "roll_mean_30"; "roll_std_7"; "roll_std_30";
    "is_holiday"; "yoy_sales"; "yoy_growth" ].

(** 366 days of sales from 2016-01-01 on, one record a day, no oil
    prices and no holidays. *)
Definition leap_year_sales : list SaleRecord :=
  map (fun n => mkSale (16801 + Z.of_nat n) (Some 1) (Some 0)) (seq 0 366).

(** Three days of sales, two stores on the first day, with oil prices for
    the last two days. *)
Definition three_days_sales : list SaleRecord :=
  [ mkSale 17167 (Some 10) (Some 1);
    mkSale 17167 (Some 5) (Some 0);
    mkSale 17168 (Some 20) (Some 0);
    mkSale 17169 (Some 40) None ].

Definition three_days_oil : list OilRecord :=
  [ mkOil 17168 (Some 50); mkOil 17169 None ].

(** The order of the non-missing numbers. *)
Definition num_le (x y : num) : Prop :=
  match x, y with
  | NaN, _ | _, NaN => False
  | NInf, _ | _, PInf => True
  | Fin a, Fin b => a <= b
  | _, _ => False
  end.

(** Row [a] is at least as strong as row [b]. *)
Definition stronger_eq (a b : CorrRow) : Prop :=
  num_le (Strength b) (Strength a).

(** The rows of the correlation table before sorting, given the list of
    (coefficient, p-value) pairs of the loop. *)
Definition corr_rows (numeric_cols : list string) (cps : list (num * num))
  : list CorrRow :=
  zip_with (fun c cp =>
              mkCorr c (fst cp) (snd cp)
                     (fltb (snd cp) (Fin 0.05))
                     (if negb (isnan (fst cp)) then fabs (fst cp) else Fin 0))
           numeric_cols cps.

(** What the loop computes for one column. *)
Definition screened (pearson_pvalue : num -> nat -> num) (df : DataFrame)
  (target_col c : string) (cp : num * num) : Prop :=
  c <> target_col /\
  In c (column_names df) /\
  ((10 < length (dropna (col df c)))%nat ->
   pearsonr pearson_pvalue (dropna (col df target_col)) (dropna (col df c)) = Return cp) /\
  ((length (dropna (col df c)) <= 10)%nat -> cp = (NaN, NaN)).

(** The screening goes through when the target is a column and every
    column with more than 10 valid cells has as many valid cells as the
    target. *)
Definition screenable (df : DataFrame) (target_col : string) : Prop :=
  forall c, In c (column_names df) -> c <> target_col ->
    (10 < length (dropna (col df c)))%nat ->
    In target_col (column_names df) /\
    length (dropna (col df target_col)) = length (dropna (col df c)).

(** Eleven rows; column [a] has ten valid cells, column [b] eleven, and
    the products of the centred cells of [sales] and [b] are all zero. *)
Definition tie_at_zero : DataFrame :=
  mkDF (range_index 11)
       [ ("sales", [Fin 1; Fin (-1); Fin 0; Fin 0; Fin 0; Fin 0; Fin 0; Fin 0; Fin 0; Fin 0; Fin 0]);
         ("a", [NaN; Fin 1; Fin 2; Fin 3; Fin 4; Fin 5; Fin 6; Fin 7; Fin 8; Fin 9; Fin 10]);
         ("b", [Fin 0; Fin 0; Fin 1; Fin (-1); Fin 0; Fin 0; Fin 0; Fin 0; Fin 0; Fin 0; Fin 0]) ].

(** The margin of a forecast interval: the normal quantile times the
    standard deviation of the historical errors (lines 218-223). *)
Definition interval_margin (norm_ppf : num -> num)
  (historical_errors : list num) (confidence : num) : num :=
  fmul (norm_ppf (fdiv (fadd (Fin 1) confidence) (Fin 2)))
       (np_std 0 historical_errors).

(** The columns that are screened: all but the target (lines 139-140). *)
Definition numeric_columns (df : DataFrame) (target_col : string) : list string :=
  filter (fun c => negb (String.eqb c target_col)) (column_names df).

(** Stand-ins for the library functions in closed examples.  Nothing
    proved at an example depends on their values: each example is an
    instance of a lemma that holds for every such function. *)
Definition example_ttest_ind : list num -> list num -> num * num :=
  fun _ _ => (NaN, NaN).
Definition example_t_ppf : num -> Z -> num := fun _ _ => Fin 2.
Definition example_norm_ppf : num -> num := fun _ => Fin 2.
Definition example_pearson_pvalue : num -> nat -> num := fun _ _ => Fin 1.

(** The frames of the dashboard (lines 113-118 of the script): the split
    of the feature table at [split_date], restricted to the feature
    columns. *)
Definition dashboard_frames (df : DataFrame) (split_date : Z)
  : result (DataFrame * DataFrame) :=
  tt <- split_train_test df split_date ;;
  X_train <- select get_feature_columns (fst tt) ;;
  X_test <- select get_feature_columns (snd tt) ;;
  Return (X_train, X_test).

(** Three days of sales with a missing day between the last two. *)
Definition gap_sales : list SaleRecord :=
  [ mkSale 17167 (Some 10) None;
    mkSale 17168 (Some 20) None;
    mkSale 17170 (Some 40) None ].

(** ** Further specification-side definitions *)

(** The raw amounts of one date, in file order, and their total. *)
Definition amounts_on (d : Z) (sales_raw : list SaleRecord) : list (option R) :=
  map sale_amount (filter (fun s => (sale_date s =? d)%Z) sales_raw).

Definition promotions_on (d : Z) (sales_raw : list SaleRecord) : list (option R) :=
  map onpromotion (filter (fun s => (sale_date s =? d)%Z) sales_raw).

(** The oil records of one date. *)
Definition oil_on (d : Z) (oil : list OilRecord) : list OilRecord :=
  filter (fun o => (oil_date o =? d)%Z) oil.

(** The last valid cell of a series and the first one; [nan] when there
    is none. *)
Definition last_valid (xs : list num) : num :=
  fold_left (fun acc x => if isnan x then acc else x) xs NaN.

Definition first_valid (xs : list num) : num := hd NaN (filter notna xs).

(** Neither infinity: a finite number or a missing cell. *)
Definition no_inf (x : num) : bool :=
  match x with PInf | NInf => false | _ => true end.

(** The oil cells a sale date is merged with: one per oil record of the
    date, a single missing cell when the date has no oil record. *)
Definition oil_cells (d : Z) (oil : list OilRecord) : list num :=
  match oil_on d oil with
  | [] => [NaN]
  | ms => map (fun o => num_of_cell (dcoilwtico o)) ms
  end.

(** The dates and raw oil cells of the merged table, row by row. *)
Definition merged_dates (sales_raw : list SaleRecord) (oil : list OilRecord)
  : list (Z * num) :=
  flat_map (fun d => map (fun c => (d, c)) (oil_cells d oil))
           (group_keys (map sale_date sales_raw)).

(** How many rows of an index carry a date. *)
Definition rows_dated (d : Z) (idx : list Z) : nat :=
  length (filter (fun x => (x =? d)%Z) idx).

(** One step of carrying the last valid cell forward. *)
Definition carry (acc x : num) : num := if isnan x then acc else x.


(** [p] holds on the [n] integers from [start] on. *)
Fixpoint holds_from (p : Z -> bool) (start : Z) (n : nat) : bool :=
  match n with
  | O => true
  | S n' => p start && holds_from p (start + 1)%Z n'
  end.

(** The day number of a civil date (the inverse of [civil_from_days]):
    what [pd.Timestamp(year, month, day)] is, counted in days since
    1970-01-01. *)
Definition days_from_civil (y m d : Z) : Z :=
  (let y := if m <=? 2 then y - 1 else y in
   let era := y / 400 in
   let yoe := y - era * 400 in
   let doy := (153 * (if 2 <? m then m - 3 else m + 9) + 2) / 5 + d - 1 in
   let doe := yoe * 365 + yoe / 4 - yoe / 100 + doy in
   era * 146097 + doe - 719468)%Z.

(** For the day at offset [doe] of the era that starts on 0000-03-01:
    month and day lie in the calendar's ranges, and the fields give the
    day back. *)
Definition civil_checked (doe : Z) : bool :=
  (let z := doe - 719468 in
   let '(y, m, d) := civil_from_days z in
   (1 <=? m) && (m <=? 12) && (1 <=? d) && (d <=? 31)
   && (days_from_civil y m d =? z))%Z.

(** 366 rows from 2016-01-01 on with no record for 2016-12-16: the days
    from 2016-12-17 to 2017-01-01 are one row earlier than their day
    count.  Every day sells 1, except 2016-12-02, which sells 2. *)
Definition gap_year_sales : list SaleRecord :=
  map (fun n => mkSale (16801 + Z.of_nat (if (n <? 350)%nat then n else S n))
                       (Some (if (n =? 336)%nat then 2 else 1)) (Some 0))
      (seq 0 366).

(* ================================================================== *)
(** * Properties *)
(* ================================================================== *)

(** ** Arithmetic on [num] *)

Lemma Rltb_true (x y : R) : x < y -> Rltb x y = true.
Proof. intros H; unfold Rltb; destruct (Rlt_dec x y); [reflexivity | contradiction]. Qed.

Lemma Rltb_false (x y : R) : y <= x -> Rltb x y = false.
Proof. intros H; unfold Rltb; destruct (Rlt_dec x y); [lra | reflexivity]. Qed.

Lemma Rltb_iff (x y : R) : Rltb x y = true <-> x < y.
Proof.
  unfold Rltb; destruct (Rlt_dec x y); split; intros; try assumption;
    try reflexivity; try discriminate; contradiction.
Qed.

Lemma Reqb_true (x y : R) : x = y -> Reqb x y = true.
Proof. intros H; unfold Reqb; destruct (Req_dec_T x y); [reflexivity | contradiction]. Qed.

Lemma Reqb_false (x y : R) : x <> y -> Reqb x y = false.
Proof. intros H; unfold Reqb; destruct (Req_dec_T x y); [contradiction | reflexivity]. Qed.

Lemma Reqb_iff (x y : R) : Reqb x y = true <-> x = y.
Proof.
  unfold Reqb; destruct (Req_dec_T x y); split; intros; try assumption;
    try reflexivity; try discriminate; contradiction.
Qed.

Lemma fdiv_fin (a b : R) : b <> 0 -> fdiv (Fin a) (Fin b) = Fin (a / b).
Proof. intros H; simpl; rewrite Reqb_false by assumption; reflexivity. Qed.

Lemma fdiv_zero_zero : fdiv (Fin 0) (Fin 0) = NaN.
Proof.
  simpl. rewrite Reqb_true by reflexivity. unfold scale_inf.
  rewrite !Rltb_false by lra. reflexivity.
Qed.

Lemma fsqrt_fin (a : R) : 0 <= a -> fsqrt (Fin a) = Fin (sqrt a).
Proof. intros H; simpl; rewrite Rltb_false by assumption; reflexivity. Qed.

Lemma fadd_nan_r (x : num) : fadd x NaN = NaN.
Proof. destruct x; reflexivity. Qed.

Lemma fsub_nan_r (x : num) : fsub x NaN = NaN.
Proof. destruct x; reflexivity. Qed.

Lemma fmul_nan_r (x : num) : fmul x NaN = NaN.
Proof. destruct x; reflexivity. Qed.

Lemma fmul_one (x : num) (u : R) : u = 1 -> fmul x (Fin u) = x.
Proof.
  intros ->. destruct x; simpl; unfold scale_inf;
    rewrite ?Rltb_true by lra; try reflexivity.
  f_equal; lra.
Qed.

Lemma INR_S_neq_0 (n : nat) : INR (S n) <> 0.
Proof. apply not_0_INR; discriminate. Qed.

(** Resolves the sign and zero tests on concrete reals left by evaluating
    the arithmetic at an example. *)
Ltac rtest :=
  repeat match goal with
    | |- context [Reqb ?a ?b] =>
        first [ rewrite (Reqb_true a b) by lra
              | rewrite (Reqb_false a b) by lra ]
    | |- context [Rltb ?a ?b] =>
        first [ rewrite (Rltb_true a b) by lra
              | rewrite (Rltb_false a b) by lra ]
    end.

Ltac feval :=
  unfold series_mean, series_std, stats_sem, np_std, np_var, np_mean, np_sum,
    dropna, of_nat, of_Z, len, fsquare, fsub;
  repeat (progress
            (cbn [filter notna isnan isfinite negb fold_left map length combine
                  fst snd fadd fneg fmul fdiv fsqrt fabs INR Nat.sub
                  fltb fgtb feqb fleb fgeb orb andb];
             rtest)).

(** The sum of finite cells is finite. *)
Lemma fold_fadd_fin (rs : list R) (acc : R) :
  fold_left fadd (map Fin rs) (Fin acc) = Fin (acc + Rsum rs).
Proof.
  revert acc; induction rs as [|r rs IH]; intros acc; simpl.
  - f_equal; lra.
  - rewrite IH. f_equal; lra.
Qed.

Lemma np_sum_fin (rs : list R) : np_sum (map Fin rs) = Fin (Rsum rs).
Proof. unfold np_sum. rewrite fold_fadd_fin. f_equal; lra. Qed.

Lemma np_mean_fin (rs : list R) :
  rs <> [] -> np_mean (map Fin rs) = Fin (Rsum rs / INR (length rs)).
Proof.
  intros H. unfold np_mean, of_nat. rewrite np_sum_fin, length_map.
  apply fdiv_fin. destruct rs; [contradiction | apply INR_S_neq_0].
Qed.

Lemma Rsum_squares_nonneg (f : R -> R) (rs : list R) :
  0 <= Rsum (map (fun r => f r * f r) rs).
Proof.
  induction rs as [|r rs IH]; simpl; [lra|].
  pose proof (Rle_0_sqr (f r)) as H. unfold Rsqr in H. lra.
Qed.

Lemma np_var_fin (ddof : nat) (rs : list R) :
  (ddof < length rs)%nat ->
  exists v, 0 <= v /\ np_var ddof (map Fin rs) = Fin v.
Proof.
  intros H. assert (Hne : rs <> []) by (destruct rs; simpl in H; [lia | discriminate]).
  unfold np_var. rewrite np_mean_fin by assumption.
  set (m := Rsum rs / INR (length rs)).
  rewrite map_map. cbn [fsub fneg fadd fsquare fmul].
  rewrite <- (map_map (fun r => (r + - m) * (r + - m)) Fin).
  rewrite np_sum_fin, length_map. unfold of_nat.
  assert (Hd : 0 < INR (length rs - ddof)) by (apply lt_0_INR; lia).
  rewrite fdiv_fin by lra.
  eexists; split; [|reflexivity].
  apply Rmult_le_pos; [apply (Rsum_squares_nonneg (fun r => r + - m))|].
  left; apply Rinv_0_lt_compat; assumption.
Qed.

Lemma np_std_fin (ddof : nat) (rs : list R) :
  (ddof < length rs)%nat -> exists s, np_std ddof (map Fin rs) = Fin s.
Proof.
  intros H. destruct (np_var_fin ddof rs H) as [v [Hv E]].
  unfold np_std. rewrite E, fsqrt_fin by assumption. eauto.
Qed.

(** ** Frames: reading and writing columns *)

Lemma getcol_lookup (name : string) (df : DataFrame) (v : list num) :
  getcol name df = Return v <-> lookup name (columns df) = Some v.
Proof.
  unfold getcol. destruct (lookup name (columns df)); split; intros H;
    inversion H; reflexivity.
Qed.

Lemma getcol_col (name : string) (df : DataFrame) (v : list num) :
  getcol name df = Return v -> col df name = v.
Proof. intros H. apply getcol_lookup in H. unfold col. rewrite H. reflexivity. Qed.

Lemma lookup_assign_same (name : string) (v : list num) cols :
  lookup name (assign name v cols) = Some v.
Proof.
  induction cols as [|[n w] cols IH]; simpl.
  - rewrite String.eqb_refl. reflexivity.
  - destruct (String.eqb n name) eqn:E; simpl; rewrite E; auto.
Qed.

Lemma lookup_assign_other (name other : string) (v : list num) cols :
  other <> name -> lookup other (assign name v cols) = lookup other cols.
Proof.
  intros Hne. induction cols as [|[n w] cols IH]; simpl.
  - destruct (String.eqb name other) eqn:E; [|reflexivity].
    apply String.eqb_eq in E. congruence.
  - destruct (String.eqb n name) eqn:E; simpl.
    + apply String.eqb_eq in E. subst n.
      destruct (String.eqb name other) eqn:E'; [|reflexivity].
      apply String.eqb_eq in E'. congruence.
    + rewrite IH. reflexivity.
Qed.

Lemma names_assign_present (name : string) (v w : list num) cols :
  lookup name cols = Some w -> map fst (assign name v cols) = map fst cols.
Proof.
  induction cols as [|[n u] cols IH]; simpl; [discriminate|].
  destruct (String.eqb n name) eqn:E; simpl; intros H; [reflexivity|].
  rewrite IH by assumption. reflexivity.
Qed.

Lemma assign_same_value (name : string) (v : list num) cols :
  lookup name cols = Some v -> assign name v cols = cols.
Proof.
  induction cols as [|[n u] cols IH]; simpl; [discriminate|].
  destruct (String.eqb n name) eqn:E; intros H.
  - inversion H; reflexivity.
  - rewrite IH by assumption. reflexivity.
Qed.

(* ------------------------------------------------------------------ *)
(** ** The baseline predictor *)
(* ------------------------------------------------------------------ *)

Section Baseline.

Lemma last_cells_length (k : nat) (xs : list num) :
  length (last_cells k xs) = if (k =? 0)%nat then length xs else Nat.min k (length xs).
Proof.
  unfold last_cells. destruct (k =? 0)%nat; [reflexivity|].
  rewrite length_skipn. lia.
Qed.

Lemma last_cells_short (k : nat) (xs : list num) :
  (length xs <= k)%nat -> (0 < k)%nat -> last_cells k xs = xs.
Proof.
  intros H Hk. unfold last_cells.
  destruct (Nat.eqb_spec k 0); [lia|].
  replace (length xs - k)%nat with 0%nat by lia. reflexivity.
Qed.

Lemma firstn_exact {A : Type} (l : list A) (n : nat) :
  n = length l -> firstn n l = l.
Proof. intros ->. apply firstn_all. Qed.

(** C8.  On a non-empty [lag_1] history the baseline predictor returns
    an array of exactly the requested length; when the horizon exceeds
    the history, the array is the history padded on the right with its
    last cell, and otherwise it holds the last [test_size] cells of the
    history. *)
Theorem baseline_pred_length_and_padding :
  forall (X_train : DataFrame) (lag_1 : list num) (test_size : nat),
    getcol "lag_1" X_train = Return lag_1 ->
    lag_1 <> [] ->
    exists pred,
      baseline_pred X_train test_size = Return pred /\
      length pred = test_size /\
      ((length lag_1 < test_size)%nat ->
       pred = lag_1 ++ repeat (last lag_1 NaN) (test_size - length lag_1)) /\
      ((test_size <= length lag_1)%nat ->
       pred = firstn test_size (skipn (length lag_1 - test_size) lag_1)).
Proof.
  intros X lag_1 k Hcol Hne. unfold baseline_pred. rewrite Hcol. cbn [bind].
  destruct (Nat.ltb_spec (length (last_cells k lag_1)) k) as [Hlt | Hge].
  - (* the history is shorter than the horizon: pad *)
    assert (Hk : (0 < k)%nat) by lia.
    assert (Hshort : (length lag_1 < k)%nat).
    { rewrite last_cells_length in Hlt.
      destruct (Nat.eqb_spec k 0); lia. }
    rewrite last_cells_short by lia.
    unfold np_pad_edge. destruct lag_1 as [|x xs] eqn:E; [contradiction|].
    rewrite <- E in *. cbn [bind].
    replace (Nat.max 0 (k - length lag_1)) with (k - length lag_1)%nat by lia.
    exists (lag_1 ++ repeat (last lag_1 NaN) (k - length lag_1)).
    assert (Hlen : length (lag_1 ++ repeat (last lag_1 NaN) (k - length lag_1)) = k).
    { rewrite length_app, repeat_length. lia. }
    repeat split.
    + rewrite firstn_exact by (symmetry; exact Hlen). reflexivity.
    + exact Hlen.
    + lia.
  - (* the history covers the horizon *)
    cbn [bind].
    assert (Hle : (k <= length lag_1)%nat).
    { rewrite last_cells_length in Hge.
      destruct (Nat.eqb_spec k 0); lia. }
    exists (firstn k (last_cells k lag_1)). repeat split.
    + rewrite length_firstn. lia.
    + lia.
    + intros _. unfold last_cells. destruct (Nat.eqb_spec k 0) as [->|]; [|reflexivity].
      reflexivity.
Qed.

End Baseline.

Lemma baseline_pred_witness :
  getcol "lag_1" short_history = Return [Fin 1; Fin 2] /\
  [Fin 1; Fin 2] <> [] /\
  exists pred,
    baseline_pred short_history 4 = Return pred /\
    length pred = 4%nat /\
    ((length [Fin 1; Fin 2] < 4)%nat ->
     pred = [Fin 1; Fin 2] ++ repeat (last [Fin 1; Fin 2] NaN) (4 - length [Fin 1; Fin 2])) /\
    ((4 <= length [Fin 1; Fin 2])%nat ->
     pred = firstn 4 (skipn (length [Fin 1; Fin 2] - 4) [Fin 1; Fin 2])).
Proof.
  split; [reflexivity|]. split; [discriminate|].
  apply (baseline_pred_length_and_padding short_history [Fin 1; Fin 2] 4);
    [reflexivity | discriminate].
Defined.

(** The padded baseline on the two-cell history, evaluated. *)
Example baseline_pred_pads_edge :
  baseline_pred short_history 4 = Return [Fin 1; Fin 2; Fin 2; Fin 2].
Proof. reflexivity. Qed.

Example baseline_pred_empty_history :
  baseline_pred (mkDF [] [("lag_1", [])]) 3 =
  Raise (ValueError "can't extend empty axis 0 using modes other than 'constant' or 'empty'").
Proof. reflexivity. Qed.

(* ------------------------------------------------------------------ *)
(** ** The scenario transform *)
(* ------------------------------------------------------------------ *)

Section Scenario.

Lemma scale_by_zero (xs : list num) : scale_by 0 xs = xs.
Proof.
  unfold scale_by. induction xs as [|x xs IH]; simpl; [reflexivity|].
  rewrite IH, fmul_one by lra. reflexivity.
Qed.

Lemma scale_by_cell (pct : R) (xs : list num) (i : nat) :
  (i < length xs)%nat ->
  cell (scale_by pct xs) i = fmul (cell xs i) (Fin (1 + pct / 100)).
Proof.
  intros H. unfold cell, scale_by.
  rewrite (nth_indep _ NaN (fmul NaN (Fin (1 + pct / 100))))
    by (rewrite length_map; exact H).
  apply (map_nth (fun x => fmul x (Fin (1 + pct / 100)))).
Qed.

(** C7.  The scenario transform keeps the index and the column names,
    multiplies every cell of [promo_count] and of [oil_price] by
    [1 + pct/100], leaves every other column as it was, and with both
    percentages zero returns the frame it was given. *)
Theorem scenario_df_frame :
  forall (X_test : DataFrame) (promo_change oil_change : R)
         (promo_count oil_price : list num),
    getcol "promo_count" X_test = Return promo_count ->
    getcol "oil_price" X_test = Return oil_price ->
    exists X',
      scenario_df X_test promo_change oil_change = Return X' /\
      index X' = index X_test /\
      column_names X' = column_names X_test /\
      col X' "promo_count" = scale_by promo_change promo_count /\
      col X' "oil_price" = scale_by oil_change oil_price /\
      (forall i, (i < length promo_count)%nat ->
         cell (col X' "promo_count") i =
         fmul (cell promo_count i) (Fin (1 + promo_change / 100))) /\
      (forall i, (i < length oil_price)%nat ->
         cell (col X' "oil_price") i =
         fmul (cell oil_price i) (Fin (1 + oil_change / 100))) /\
      (forall c, c <> "promo_count" -> c <> "oil_price" ->
         lookup c (columns X') = lookup c (columns X_test)) /\
      (promo_change = 0 -> oil_change = 0 -> X' = X_test).
Proof.
  intros X p o pc op Hpc Hop.
  apply getcol_lookup in Hpc. apply getcol_lookup in Hop.
  unfold scenario_df, getcol. rewrite Hpc. cbn [bind setcol columns index].
  rewrite lookup_assign_other by discriminate. rewrite Hop. cbn [bind].
  eexists. split; [reflexivity|].
  assert (Hp' : col (setcol "oil_price" (scale_by o op)
                       (mkDF (index X) (assign "promo_count" (scale_by p pc) (columns X))))
                    "promo_count" = scale_by p pc).
  { unfold col, setcol. cbn [columns index].
    rewrite lookup_assign_other by discriminate.
    rewrite lookup_assign_same. reflexivity. }
  assert (Ho' : col (setcol "oil_price" (scale_by o op)
                       (mkDF (index X) (assign "promo_count" (scale_by p pc) (columns X))))
                    "oil_price" = scale_by o op).
  { unfold col, setcol. cbn [columns index].
    rewrite lookup_assign_same. reflexivity. }
  unfold setcol in *. cbn [columns index] in *.
  repeat split.
  - unfold column_names. cbn [columns].
    rewrite (names_assign_present "oil_price" _ op)
      by (rewrite lookup_assign_other by discriminate; exact Hop).
    apply (names_assign_present "promo_count" _ pc). exact Hpc.
  - exact Hp'.
  - exact Ho'.
  - intros i Hi. rewrite Hp'. apply scale_by_cell. exact Hi.
  - intros i Hi. rewrite Ho'. apply scale_by_cell. exact Hi.
  - intros c Hc1 Hc2. cbn [columns].
    rewrite !lookup_assign_other by assumption. reflexivity.
  - intros -> ->. rewrite !scale_by_zero.
    rewrite (assign_same_value "promo_count" pc) by exact Hpc.
    rewrite (assign_same_value "oil_price" op) by exact Hop.
    destruct X; reflexivity.
Qed.

End Scenario.

Lemma scenario_df_witness :
  getcol "promo_count" small_features = Return [Fin 10; Fin 0] /\
  getcol "oil_price" small_features = Return [Fin 50; Fin 52] /\
  exists X',
    scenario_df small_features 20 (-10) = Return X' /\
    index X' = index small_features /\
    column_names X' = column_names small_features /\
    col X' "promo_count" = scale_by 20 [Fin 10; Fin 0] /\
    col X' "oil_price" = scale_by (-10) [Fin 50; Fin 52] /\
    (forall i, (i < length [Fin 10; Fin 0])%nat ->
       cell (col X' "promo_count") i =
       fmul (cell [Fin 10; Fin 0] i) (Fin (1 + 20 / 100))) /\
    (forall i, (i < length [Fin 50; Fin 52])%nat ->
       cell (col X' "oil_price") i =
       fmul (cell [Fin 50; Fin 52] i) (Fin (1 + (-10) / 100))) /\
    (forall c, c <> "promo_count" -> c <> "oil_price" ->
       lookup c (columns X') = lookup c (columns small_features)) /\
    (20 = 0 -> -10 = 0 -> X' = small_features).
Proof.
  split; [reflexivity|]. split; [reflexivity|].
  apply (scenario_df_frame small_features 20 (-10)); reflexivity.
Defined.

(** A 20% promotion increase on the example frame: only [promo_count]
    moves. *)
Example scenario_df_promo_up :
  scenario_df small_features 20 0 =
  Return (mkDF [17167; 17168]%Z
            [ ("oil_price", [Fin 50; Fin 52]);
              ("promo_count", [Fin 12; Fin 0]);
              ("lag_1", [Fin 100; Fin 120]) ]).
Proof.
  unfold scenario_df, small_features, setcol, scale_by. simpl.
  repeat f_equal; lra.
Qed.

(* ------------------------------------------------------------------ *)
(** ** Forecast intervals *)
(* ------------------------------------------------------------------ *)

Section ForecastIntervals.

Variable norm_ppf : num -> num.

(** C10.  Two error samples with the same standard deviation give the
    same table, whatever their means: the bounds are the forecast minus
    and plus a margin that is the normal quantile times that standard
    deviation, so every interval is centred on the raw forecast. *)
Theorem forecast_intervals_ignore_error_mean :
  forall (forecasts : list num) (confidence : num) (errors1 errors2 : list num),
    np_std 0 errors1 = np_std 0 errors2 ->
    forecast_confidence_intervals norm_ppf forecasts errors1 confidence =
    forecast_confidence_intervals norm_ppf forecasts errors2 confidence /\
    (let result := forecast_confidence_intervals norm_ppf forecasts errors1 confidence in
     col result "forecast" = forecasts /\
     forall i, (i < length forecasts)%nat ->
       cell (col result "lower_bound") i =
         fsub (cell forecasts i) (interval_margin norm_ppf errors1 confidence) /\
       cell (col result "upper_bound") i =
         fadd (cell forecasts i) (interval_margin norm_ppf errors1 confidence)).
Proof.
  intros fs c e1 e2 Hstd. split.
  - unfold forecast_confidence_intervals. rewrite Hstd. reflexivity.
  - cbn. split; [reflexivity|]. intros i Hi. unfold cell, interval_margin. split.
    + rewrite (nth_indep _ NaN (fsub NaN (fmul (norm_ppf (fdiv (fadd (Fin 1) c) (Fin 2))) (np_std 0 e1))))
        by (rewrite length_map; exact Hi).
      apply (map_nth (fun f => fsub f _)).
    + rewrite (nth_indep _ NaN (fadd NaN (fmul (norm_ppf (fdiv (fadd (Fin 1) c) (Fin 2))) (np_std 0 e1))))
        by (rewrite length_map; exact Hi).
      apply (map_nth (fun f => fadd f _)).
Qed.

End ForecastIntervals.

(** Two error samples, one unbiased in the mean and one biased by 10, with
    the same spread. *)
Lemma same_spread_different_mean :
  np_std 0 [Fin (-1); Fin 1] = np_std 0 [Fin 9; Fin 11] /\
  np_mean [Fin (-1); Fin 1] = Fin 0 /\
  np_mean [Fin 9; Fin 11] = Fin 10.
Proof.
  repeat split.
  - unfold np_std. f_equal. feval. f_equal. simpl. lra.
  - feval. f_equal. simpl. lra.
  - feval. f_equal. simpl. lra.
Qed.

Lemma forecast_intervals_witness :
  np_std 0 [Fin (-1); Fin 1] = np_std 0 [Fin 9; Fin 11] /\
  forecast_confidence_intervals example_norm_ppf [Fin 100; Fin 110] [Fin (-1); Fin 1] (Fin 0.95) =
  forecast_confidence_intervals example_norm_ppf [Fin 100; Fin 110] [Fin 9; Fin 11] (Fin 0.95).
Proof.
  split; [apply same_spread_different_mean|].
  apply (forecast_intervals_ignore_error_mean example_norm_ppf
           [Fin 100; Fin 110] (Fin 0.95) [Fin (-1); Fin 1] [Fin 9; Fin 11]).
  apply same_spread_different_mean.
Defined.

(* ------------------------------------------------------------------ *)
(** ** The confidence interval of a sample *)
(* ------------------------------------------------------------------ *)

Section ConfidenceInterval.

Variable t_ppf : num -> Z -> num.

Lemma np_std_one_of_short (values : list num) :
  (length values < 2)%nat -> np_std 1 values = NaN.
Proof.
  intros H. destruct values as [|x [|y rest]]; [| |simpl in H; lia].
  - unfold np_std, np_var. cbn. rewrite Reqb_true by reflexivity.
    unfold scale_inf. rewrite !Rltb_false by lra. reflexivity.
  - unfold np_std, np_var, np_mean, np_sum, of_nat, fsquare, fsub.
    destruct x; cbn; rtest; try reflexivity.
    cbn. rewrite Reqb_true by reflexivity. unfold scale_inf.
    rewrite !Rltb_false by lra. reflexivity.
Qed.

Lemma stats_sem_of_short (values : list num) :
  (length values < 2)%nat -> stats_sem values = NaN.
Proof.
  intros H. unfold stats_sem. rewrite np_std_one_of_short by exact H.
  reflexivity.
Qed.

(** C2, as the code has it.  On fewer than two values the function
    still returns its four-tuple: the bounds and the standard error are
    [nan], the mean is the plain mean of the values ([nan] for no value,
    the value itself for one finite value).  On two values or more it
    returns mean -/+ h, the mean and the standard error, with h the
    standard error times the Student-t quantile at [(1 + confidence)/2]
    with [n - 1] degrees of freedom. *)
Theorem confidence_interval_cases :
  forall (values : list num) (confidence : num),
    ((length values < 2)%nat ->
     calculate_confidence_interval t_ppf values confidence =
       (NaN, NaN, np_mean values, NaN)) /\
    (values = [] ->
     calculate_confidence_interval t_ppf values confidence =
       (NaN, NaN, NaN, NaN)) /\
    (forall x, values = [Fin x] ->
     calculate_confidence_interval t_ppf values confidence =
       (NaN, NaN, Fin x, NaN)) /\
    ((2 <= length values)%nat ->
     let h := fmul (stats_sem values)
                   (t_ppf (fdiv (fadd (Fin 1) confidence) (Fin 2))
                          (Z.of_nat (length values - 1))) in
     calculate_confidence_interval t_ppf values confidence =
       (fsub (np_mean values) h, fadd (np_mean values) h,
        np_mean values, stats_sem values)).
Proof.
  intros values c.
  assert (Hshort : (length values < 2)%nat ->
                   calculate_confidence_interval t_ppf values c =
                   (NaN, NaN, np_mean values, NaN)).
  { intros H. unfold calculate_confidence_interval.
    rewrite stats_sem_of_short by exact H. cbn [fmul].
    rewrite fsub_nan_r, fadd_nan_r. reflexivity. }
  split; [exact Hshort|]. split; [|split].
  - intros ->. rewrite Hshort by (simpl; lia). repeat f_equal.
    apply fdiv_zero_zero.
  - intros x ->. rewrite Hshort by (simpl; lia). repeat f_equal.
    feval. f_equal. simpl. lra.
  - intros H h. unfold calculate_confidence_interval, h, len.
    replace (Z.of_nat (length values) - 1)%Z with (Z.of_nat (length values - 1)) by lia.
    reflexivity.
Qed.

End ConfidenceInterval.

Lemma confidence_interval_witness :
  (length [Fin 5] < 2)%nat /\
  calculate_confidence_interval example_t_ppf [Fin 5] (Fin 0.95) =
    (NaN, NaN, np_mean [Fin 5], NaN).
Proof.
  split; [simpl; lia|].
  apply (confidence_interval_cases example_t_ppf [Fin 5] (Fin 0.95)).
  simpl; lia.
Defined.

(** On a single value the call returns a plain four-tuple whose mean is
    the number 5, whatever the quantile function. *)
Lemma confidence_interval_single_value :
  forall t_ppf : num -> Z -> num,
    (length [Fin 5] < 2)%nat /\
    calculate_confidence_interval t_ppf [Fin 5] (Fin 0.95) =
      (NaN, NaN, Fin 5, NaN).
Proof.
  intros t_ppf. split; [simpl; lia|].
  unfold calculate_confidence_interval.
  rewrite stats_sem_of_short by (simpl; lia). cbn [fmul].
  rewrite fsub_nan_r, fadd_nan_r. repeat f_equal.
  feval. f_equal. simpl. lra.
Qed.

(** C2 as stated fails on a single value: the sample has fewer than two
    elements and the call returns a plain four-tuple whose mean is the
    number 5, not an error indicator. *)
Lemma confidence_interval_single_value_no_error :
  (length [Fin 5] < 2)%nat /\
  calculate_confidence_interval example_t_ppf [Fin 5] (Fin 0.95) =
    (NaN, NaN, Fin 5, NaN).
Proof. exact (confidence_interval_single_value example_t_ppf). Qed.

(* ------------------------------------------------------------------ *)
(** ** The two-group tests *)
(* ------------------------------------------------------------------ *)

Lemma length_zero_iff {A : Type} (l : list A) :
  (length l =? 0)%nat = true <-> l = [].
Proof.
  destruct l; simpl; split; intros H; try reflexivity; discriminate.
Qed.

Section TwoGroupTests.

Variable ttest_ind : list num -> list num -> num * num.

(** The promotion test, unfolded on a frame that has both columns. *)
Lemma test_promotion_impact_unfold (df : DataFrame) (promo_count sales : list num) :
  getcol "promo_count" df = Return promo_count ->
  getcol "sales" df = Return sales ->
  let a := promo_group promo_count sales in
  let b := no_promo_group promo_count sales in
  test_promotion_impact ttest_ind df =
  if (length a =? 0)%nat || (length b =? 0)%nat then
    Return [("error", VStr "Insufficient data for comparison")]
  else
    Return [ ("t_statistic", VNum (fst (ttest_ind a b)));
             ("p_value", VNum (snd (ttest_ind a b)));
             ("significant", VBool (fltb (snd (ttest_ind a b)) (Fin 0.05)));
             ("promo_mean", VNum (series_mean a));
             ("no_promo_mean", VNum (series_mean b));
             ("lift_percentage", VNum (lift_of a b));
             ("cohens_d", VNum (cohens_d_of a b));
             ("effect_size", VStr (effect_size_label (cohens_d_of a b))) ].
Proof.
  intros Hpc Hs a b. unfold test_promotion_impact.
  rewrite Hpc, Hs. cbn [bind]. fold (promo_group promo_count sales).
  fold (no_promo_group promo_count sales). fold a. fold b.
  destruct ((length a =? 0)%nat || (length b =? 0)%nat); [reflexivity|].
  destruct (ttest_ind a b) as [t p]. reflexivity.
Qed.

Lemma test_holiday_impact_unfold (df : DataFrame) (is_holiday sales : list num) :
  getcol "is_holiday" df = Return is_holiday ->
  getcol "sales" df = Return sales ->
  let a := holiday_group is_holiday sales in
  let b := regular_group is_holiday sales in
  test_holiday_impact ttest_ind df =
  if (length a =? 0)%nat then
    Return [("error", VStr "No holiday data available")]
  else
    Return [ ("t_statistic", VNum (fst (ttest_ind a b)));
             ("p_value", VNum (snd (ttest_ind a b)));
             ("significant", VBool (fltb (snd (ttest_ind a b)) (Fin 0.05)));
             ("holiday_mean", VNum (series_mean a));
             ("regular_mean", VNum (series_mean b));
             ("lift_percentage",
              VNum (if fgtb (series_mean b) (Fin 0) then lift_of a b else Fin 0)) ].
Proof.
  intros Hh Hs a b. unfold test_holiday_impact.
  rewrite Hh, Hs. cbn [bind]. fold (holiday_group is_holiday sales).
  fold (regular_group is_holiday sales). fold a. fold b.
  destruct (length a =? 0)%nat; [reflexivity|].
  destruct (ttest_ind a b) as [t p]. reflexivity.
Qed.

(** C1, as the code has it.  The promotion test returns an error-tagged
    result when one of its groups is empty, the holiday test when the
    holiday group is empty.  With both groups non-empty and a non-zero
    denominator each test returns a record with no error tag.  In the
    holiday test a zero denominator gives no error tag either: whenever the
    mean of the regular days is not positive, the record reports a lift of
    0. *)
Theorem two_group_tests_error_results :
  forall (df : DataFrame) (promo_count is_holiday sales : list num),
    getcol "promo_count" df = Return promo_count ->
    getcol "is_holiday" df = Return is_holiday ->
    getcol "sales" df = Return sales ->
    (exists d,
        test_promotion_impact ttest_ind df = Return d /\
        (promo_group promo_count sales = [] \/
         no_promo_group promo_count sales = [] ->
         error_tagged d = true) /\
        (promo_group promo_count sales <> [] ->
         no_promo_group promo_count sales <> [] ->
         feqb (series_mean (no_promo_group promo_count sales)) (Fin 0) = false ->
         error_tagged d = false)) /\
    (exists d,
        test_holiday_impact ttest_ind df = Return d /\
        (holiday_group is_holiday sales = [] -> error_tagged d = true) /\
        (holiday_group is_holiday sales <> [] ->
         regular_group is_holiday sales <> [] ->
         error_tagged d = false /\
         (fgtb (series_mean (regular_group is_holiday sales)) (Fin 0) = false ->
          dict_get "lift_percentage" d = Some (VNum (Fin 0))))).
Proof.
  intros df pc hol sales Hpc Hh Hs. split.
  - rewrite (test_promotion_impact_unfold df pc sales Hpc Hs). cbv zeta.
    destruct (length (promo_group pc sales) =? 0)%nat eqn:Ea;
      [|destruct (length (no_promo_group pc sales) =? 0)%nat eqn:Eb];
      cbn [orb]; eexists; (split; [reflexivity|]).
    + apply length_zero_iff in Ea. split; [reflexivity | congruence].
    + apply length_zero_iff in Eb. split; [reflexivity | congruence].
    + split; [|reflexivity].
      intros [H | H]; apply length_zero_iff in H; congruence.
  - rewrite (test_holiday_impact_unfold df hol sales Hh Hs). cbv zeta.
    destruct (length (holiday_group hol sales) =? 0)%nat eqn:Ea;
      eexists; (split; [reflexivity|]).
    + apply length_zero_iff in Ea. split; [reflexivity | congruence].
    + split.
      * intros H. apply length_zero_iff in H. congruence.
      * intros _ _. split; [reflexivity|]. intros Hz. rewrite Hz. reflexivity.
Qed.

End TwoGroupTests.

Ltac groups_eval :=
  unfold promo_group, no_promo_group, holiday_group, regular_group, mask_select;
  cbn [map feqb fgtb fltb]; rtest; cbn [combine filter fst snd map].

Lemma zero_regular_mean_groups :
  holiday_group [Fin 1; Fin 0] [Fin 5; Fin 0] = [Fin 5] /\
  regular_group [Fin 1; Fin 0] [Fin 5; Fin 0] = [Fin 0] /\
  promo_group [Fin 1; Fin 0] [Fin 5; Fin 0] = [Fin 5] /\
  no_promo_group [Fin 1; Fin 0] [Fin 5; Fin 0] = [Fin 0].
Proof. repeat split; groups_eval; reflexivity. Qed.

Lemma holidays_only_groups :
  holiday_group [Fin 1; Fin 1] [Fin 5; Fin 7] = [Fin 5; Fin 7] /\
  regular_group [Fin 1; Fin 1] [Fin 5; Fin 7] = [].
Proof. repeat split; groups_eval; reflexivity. Qed.

Lemma series_mean_single (x : R) : series_mean [Fin x] = Fin x.
Proof. feval. f_equal. simpl. lra. Qed.

Lemma two_group_tests_witness :
  getcol "promo_count" cohen_boundary = Return [Fin 1; Fin 1; Fin 0; Fin 0] /\
  getcol "is_holiday" cohen_boundary = Return [Fin 0; Fin 0; Fin 1; Fin 0] /\
  getcol "sales" cohen_boundary = Return [Fin 4; Fin 14; Fin 5; Fin 5] /\
  exists d,
    test_promotion_impact example_ttest_ind cohen_boundary = Return d /\
    (promo_group [Fin 1; Fin 1; Fin 0; Fin 0] [Fin 4; Fin 14; Fin 5; Fin 5] = [] \/
     no_promo_group [Fin 1; Fin 1; Fin 0; Fin 0] [Fin 4; Fin 14; Fin 5; Fin 5] = [] ->
     error_tagged d = true) /\
    (promo_group [Fin 1; Fin 1; Fin 0; Fin 0] [Fin 4; Fin 14; Fin 5; Fin 5] <> [] ->
     no_promo_group [Fin 1; Fin 1; Fin 0; Fin 0] [Fin 4; Fin 14; Fin 5; Fin 5] <> [] ->
     feqb (series_mean (no_promo_group [Fin 1; Fin 1; Fin 0; Fin 0]
                                       [Fin 4; Fin 14; Fin 5; Fin 5])) (Fin 0) = false ->
     error_tagged d = false).
Proof.
  split; [reflexivity|]. split; [reflexivity|]. split; [reflexivity|].
  apply (two_group_tests_error_results example_ttest_ind cohen_boundary
           [Fin 1; Fin 1; Fin 0; Fin 0] [Fin 0; Fin 0; Fin 1; Fin 0]
           [Fin 4; Fin 14; Fin 5; Fin 5]); reflexivity.
Defined.

(** Untagged results, for every t-test function.  With one holiday
    (sales 5) and one regular day (sales 0) both groups are non-empty and
    the denominator of the lift is zero, yet neither test tags its result
    as an error.  With holidays only, the regular-day group is empty and
    the holiday test still returns an untagged record. *)
Lemma two_group_tests_untagged :
  forall ttest_ind : list num -> list num -> num * num,
    (* holiday test, zero denominator *)
    (holiday_group [Fin 1; Fin 0] [Fin 5; Fin 0] <> [] /\
     regular_group [Fin 1; Fin 0] [Fin 5; Fin 0] <> [] /\
     series_mean (regular_group [Fin 1; Fin 0] [Fin 5; Fin 0]) = Fin 0 /\
     exists d, test_holiday_impact ttest_ind zero_regular_mean = Return d /\
               error_tagged d = false /\
               dict_get "lift_percentage" d = Some (VNum (Fin 0))) /\
    (* promotion test, zero denominator *)
    (promo_group [Fin 1; Fin 0] [Fin 5; Fin 0] <> [] /\
     no_promo_group [Fin 1; Fin 0] [Fin 5; Fin 0] <> [] /\
     series_mean (no_promo_group [Fin 1; Fin 0] [Fin 5; Fin 0]) = Fin 0 /\
     exists d, test_promotion_impact ttest_ind zero_regular_mean = Return d /\
               error_tagged d = false /\
               dict_get "lift_percentage" d = Some (VNum PInf)) /\
    (* holiday test, empty regular-day group *)
    (regular_group [Fin 1; Fin 1] [Fin 5; Fin 7] = [] /\
     exists d, test_holiday_impact ttest_ind holidays_only = Return d /\
               error_tagged d = false).
Proof.
  intros ttest_ind.
  destruct zero_regular_mean_groups as (Hh & Hr & Hp & Hn).
  destruct holidays_only_groups as (Hh' & Hr').
  split; [|split].
  - rewrite Hh, Hr. split; [discriminate|]. split; [discriminate|].
    split; [apply series_mean_single|].
    rewrite (test_holiday_impact_unfold ttest_ind zero_regular_mean
               [Fin 1; Fin 0] [Fin 5; Fin 0]) by reflexivity.
    cbv zeta. rewrite Hh, Hr. cbn [length Nat.eqb].
    eexists. split; [reflexivity|]. split; [reflexivity|].
    rewrite !series_mean_single. unfold fgtb. cbn [fltb]. rtest. reflexivity.
  - rewrite Hp, Hn. split; [discriminate|]. split; [discriminate|].
    split; [apply series_mean_single|].
    rewrite (test_promotion_impact_unfold ttest_ind zero_regular_mean
               [Fin 1; Fin 0] [Fin 5; Fin 0]) by reflexivity.
    cbv zeta. rewrite Hp, Hn. cbn [length Nat.eqb orb].
    eexists. split; [reflexivity|]. split; [reflexivity|].
    unfold lift_of. rewrite !series_mean_single.
    cbn [dict_get String.eqb Ascii.eqb Bool.eqb fsub fneg fadd fdiv].
    rtest. unfold scale_inf. rtest. cbn [fmul]. unfold scale_inf. rtest. reflexivity.
  - split; [exact Hr'|].
    rewrite (test_holiday_impact_unfold ttest_ind holidays_only
               [Fin 1; Fin 1] [Fin 5; Fin 7]) by reflexivity.
    cbv zeta. rewrite Hh'. cbn [length Nat.eqb].
    eexists. split; reflexivity.
Qed.

(** C1 as stated fails in three places.  With one holiday (sales 5) and
    one regular day (sales 0) both groups of each test are non-empty and
    the denominator of the lift is zero, yet neither test tags its result
    as an error: the holiday test reports a lift of 0, the promotion test
    an infinite one.  With holidays only, the regular-day group is empty
    and the holiday test still returns an untagged record. *)
Lemma two_group_tests_untagged_on_zero_denominator :
  (holiday_group [Fin 1; Fin 0] [Fin 5; Fin 0] <> [] /\
   regular_group [Fin 1; Fin 0] [Fin 5; Fin 0] <> [] /\
   series_mean (regular_group [Fin 1; Fin 0] [Fin 5; Fin 0]) = Fin 0 /\
   exists d, test_holiday_impact example_ttest_ind zero_regular_mean = Return d /\
             error_tagged d = false /\
             dict_get "lift_percentage" d = Some (VNum (Fin 0))) /\
  (promo_group [Fin 1; Fin 0] [Fin 5; Fin 0] <> [] /\
   no_promo_group [Fin 1; Fin 0] [Fin 5; Fin 0] <> [] /\
   series_mean (no_promo_group [Fin 1; Fin 0] [Fin 5; Fin 0]) = Fin 0 /\
   exists d, test_promotion_impact example_ttest_ind zero_regular_mean = Return d /\
             error_tagged d = false /\
             dict_get "lift_percentage" d = Some (VNum PInf)) /\
  (regular_group [Fin 1; Fin 1] [Fin 5; Fin 7] = [] /\
   exists d, test_holiday_impact example_ttest_ind holidays_only = Return d /\
             error_tagged d = false).
Proof. exact (two_group_tests_untagged example_ttest_ind). Qed.

(** *** Effect size and lift *)

Lemma effect_size_label_thresholds (x : R) :
  (0.8 < Rabs x -> effect_size_label (Fin x) = "large") /\
  (0.5 < Rabs x <= 0.8 -> effect_size_label (Fin x) = "medium") /\
  (Rabs x <= 0.5 -> effect_size_label (Fin x) = "small").
Proof.
  unfold effect_size_label, fgtb. cbn [fabs fltb]. repeat split; intros H.
  - rewrite Rltb_true by lra. reflexivity.
  - rewrite Rltb_false, Rltb_true by lra. reflexivity.
  - rewrite !Rltb_false by lra. reflexivity.
Qed.

Lemma fsquare_series_std (rs : list R) :
  (2 <= length rs)%nat ->
  fsquare (series_std (map Fin rs)) = np_var 1 (map Fin rs).
Proof.
  intros H. unfold series_std, dropna.
  assert (E : filter notna (map Fin rs) = map Fin rs).
  { clear H. induction rs as [|r rs IH]; simpl; [reflexivity|]. rewrite IH. reflexivity. }
  rewrite E. destruct (np_var_fin 1 rs) as [v [Hv Ev]]; [lia|].
  unfold np_std. rewrite Ev, fsqrt_fin by assumption.
  unfold fsquare. cbn [fmul]. rewrite sqrt_sqrt by assumption. reflexivity.
Qed.

Lemma cohen_boundary_groups :
  promo_group [Fin 1; Fin 1; Fin 0; Fin 0] [Fin 4; Fin 14; Fin 5; Fin 5] = [Fin 4; Fin 14] /\
  no_promo_group [Fin 1; Fin 1; Fin 0; Fin 0] [Fin 4; Fin 14; Fin 5; Fin 5] = [Fin 5; Fin 5].
Proof. repeat split; groups_eval; reflexivity. Qed.

Lemma cohen_boundary_d :
  series_mean [Fin 4; Fin 14] = Fin 9 /\
  series_mean [Fin 5; Fin 5] = Fin 5 /\
  pooled_std_of [Fin 4; Fin 14] [Fin 5; Fin 5] = Fin 5 /\
  cohens_d_of [Fin 4; Fin 14] [Fin 5; Fin 5] = Fin 0.8.
Proof.
  assert (Hma : series_mean [Fin 4; Fin 14] = Fin 9)
    by (feval; f_equal; simpl; lra).
  assert (Hmb : series_mean [Fin 5; Fin 5] = Fin 5)
    by (feval; f_equal; simpl; lra).
  assert (Hva : fsquare (series_std [Fin 4; Fin 14]) = Fin 50).
  { change [Fin 4; Fin 14] with (map Fin [4; 14]).
    rewrite (fsquare_series_std [4; 14]) by (simpl; lia).
    feval. f_equal. simpl. lra. }
  assert (Hvb : fsquare (series_std [Fin 5; Fin 5]) = Fin 0).
  { change [Fin 5; Fin 5] with (map Fin [5; 5]).
    rewrite (fsquare_series_std [5; 5]) by (simpl; lia).
    feval. f_equal. simpl. lra. }
  assert (Hp : pooled_std_of [Fin 4; Fin 14] [Fin 5; Fin 5] = Fin 5).
  { unfold pooled_std_of. rewrite Hva, Hvb.
    replace (len [Fin 4; Fin 14] - 1)%Z with 1%Z by reflexivity.
    replace (len [Fin 5; Fin 5] - 1)%Z with 1%Z by reflexivity.
    replace (len [Fin 4; Fin 14] + len [Fin 5; Fin 5] - 2)%Z with 2%Z by reflexivity.
    unfold of_Z. cbn [fmul fadd fdiv]. rtest. rewrite fsqrt_fin by lra. f_equal.
    replace ((1 * 50 + 1 * 0) / 2) with (5 * 5) by lra.
    apply sqrt_square. lra. }
  repeat split; try assumption.
  unfold cohens_d_of. rewrite Hp, Hma, Hmb. cbn [fsub fneg fadd fdiv]. rtest.
  f_equal. lra.
Qed.

Section EffectSize.

Variable ttest_ind : list num -> list num -> num * num.

(** C3, as the code has it.  A successful promotion test reports
    Cohen's d on the pooled standard deviation, the lift
    [(mean_A - mean_B) / mean_B * 100], and an effect size that is
    "large" when |d| > 0.8, "medium" when 0.5 < |d| <= 0.8 and "small"
    when |d| <= 0.5 (an infinite d is large, an undefined one small).
    A successful holiday test reports no effect size, and the same lift
    formula when the regular-day mean is positive. *)
Theorem two_group_effect_size_and_lift :
  forall (df : DataFrame) (promo_count is_holiday sales : list num),
    getcol "promo_count" df = Return promo_count ->
    getcol "is_holiday" df = Return is_holiday ->
    getcol "sales" df = Return sales ->
    (let a := promo_group promo_count sales in
     let b := no_promo_group promo_count sales in
     a <> [] -> b <> [] ->
     exists d label,
       test_promotion_impact ttest_ind df = Return d /\
       dict_get "cohens_d" d = Some (VNum (cohens_d_of a b)) /\
       dict_get "lift_percentage" d = Some (VNum (lift_of a b)) /\
       dict_get "effect_size" d = Some (VStr label) /\
       match cohens_d_of a b with
       | Fin x =>
           (0.8 < Rabs x -> label = "large") /\
           (0.5 < Rabs x <= 0.8 -> label = "medium") /\
           (Rabs x <= 0.5 -> label = "small")
       | PInf | NInf => label = "large"
       | NaN => label = "small"
       end) /\
    (let a := holiday_group is_holiday sales in
     let b := regular_group is_holiday sales in
     a <> [] ->
     exists d,
       test_holiday_impact ttest_ind df = Return d /\
       dict_get "effect_size" d = None /\
       dict_get "cohens_d" d = None /\
       (fgtb (series_mean b) (Fin 0) = true ->
        dict_get "lift_percentage" d = Some (VNum (lift_of a b)))).
Proof.
  intros df pc hol sales Hpc Hh Hs. split.
  - intros a b Ha Hb.
    rewrite (test_promotion_impact_unfold ttest_ind df pc sales Hpc Hs).
    cbv zeta. fold a. fold b.
    destruct (length a =? 0)%nat eqn:Ea;
      [apply length_zero_iff in Ea; contradiction|].
    destruct (length b =? 0)%nat eqn:Eb;
      [apply length_zero_iff in Eb; contradiction|].
    cbn [orb]. eexists. exists (effect_size_label (cohens_d_of a b)).
    split; [reflexivity|]. repeat (split; [reflexivity|]).
    destruct (cohens_d_of a b) as [x| | |]; try reflexivity.
    apply effect_size_label_thresholds.
  - intros a b Ha.
    rewrite (test_holiday_impact_unfold ttest_ind df hol sales Hh Hs).
    cbv zeta. fold a. fold b.
    destruct (length a =? 0)%nat eqn:Ea;
      [apply length_zero_iff in Ea; contradiction|].
    eexists. split; [reflexivity|]. repeat (split; [reflexivity|]).
    intros Hpos. rewrite Hpos. reflexivity.
Qed.

End EffectSize.

Lemma two_group_effect_size_witness :
  getcol "promo_count" cohen_boundary = Return [Fin 1; Fin 1; Fin 0; Fin 0] /\
  getcol "is_holiday" cohen_boundary = Return [Fin 0; Fin 0; Fin 1; Fin 0] /\
  getcol "sales" cohen_boundary = Return [Fin 4; Fin 14; Fin 5; Fin 5] /\
  promo_group [Fin 1; Fin 1; Fin 0; Fin 0] [Fin 4; Fin 14; Fin 5; Fin 5] <> [] /\
  no_promo_group [Fin 1; Fin 1; Fin 0; Fin 0] [Fin 4; Fin 14; Fin 5; Fin 5] <> [] /\
  exists d label,
    test_promotion_impact example_ttest_ind cohen_boundary = Return d /\
    dict_get "cohens_d" d =
      Some (VNum (cohens_d_of
                    (promo_group [Fin 1; Fin 1; Fin 0; Fin 0] [Fin 4; Fin 14; Fin 5; Fin 5])
                    (no_promo_group [Fin 1; Fin 1; Fin 0; Fin 0] [Fin 4; Fin 14; Fin 5; Fin 5]))) /\
    dict_get "lift_percentage" d =
      Some (VNum (lift_of
                    (promo_group [Fin 1; Fin 1; Fin 0; Fin 0] [Fin 4; Fin 14; Fin 5; Fin 5])
                    (no_promo_group [Fin 1; Fin 1; Fin 0; Fin 0] [Fin 4; Fin 14; Fin 5; Fin 5]))) /\
    dict_get "effect_size" d = Some (VStr label).
Proof.
  assert (Ha : promo_group [Fin 1; Fin 1; Fin 0; Fin 0] [Fin 4; Fin 14; Fin 5; Fin 5] <> [])
    by (rewrite (proj1 cohen_boundary_groups); discriminate).
  assert (Hb : no_promo_group [Fin 1; Fin 1; Fin 0; Fin 0] [Fin 4; Fin 14; Fin 5; Fin 5] <> [])
    by (rewrite (proj2 cohen_boundary_groups); discriminate).
  split; [reflexivity|]. split; [reflexivity|]. split; [reflexivity|].
  split; [exact Ha|]. split; [exact Hb|].
  destruct (proj1 (two_group_effect_size_and_lift example_ttest_ind cohen_boundary
              [Fin 1; Fin 1; Fin 0; Fin 0] [Fin 0; Fin 0; Fin 1; Fin 0]
              [Fin 4; Fin 14; Fin 5; Fin 5] eq_refl eq_refl eq_refl) Ha Hb)
    as (d & label & Hd & Hc & Hl & He & _).
  exists d, label. repeat split; assumption.
Defined.

(** With promotion-day sales 4 and 14 and plain-day sales 5 and 5,
    Cohen's d is exactly 0.8 and the reported effect size is "medium",
    for every t-test function. *)
Lemma effect_size_at_boundary :
  forall ttest_ind : list num -> list num -> num * num,
    exists d,
      test_promotion_impact ttest_ind cohen_boundary = Return d /\
      error_tagged d = false /\
      dict_get "cohens_d" d = Some (VNum (Fin 0.8)) /\
      0.8 <= Rabs 0.8 /\
      dict_get "effect_size" d = Some (VStr "medium").
Proof.
  intros ttest_ind.
  destruct cohen_boundary_groups as (Ha & Hb).
  destruct cohen_boundary_d as (_ & _ & _ & Hd).
  rewrite (test_promotion_impact_unfold ttest_ind cohen_boundary
             [Fin 1; Fin 1; Fin 0; Fin 0] [Fin 4; Fin 14; Fin 5; Fin 5])
    by reflexivity.
  cbv zeta. rewrite Ha, Hb. cbn [length Nat.eqb orb].
  eexists. split; [reflexivity|]. split; [reflexivity|].
  rewrite Hd. split; [reflexivity|]. split.
  - rewrite Rabs_pos_eq by lra. lra.
  - cbn [dict_get String.eqb Ascii.eqb Bool.eqb].
    rewrite (proj1 (proj2 (effect_size_label_thresholds 0.8)));
      [reflexivity | rewrite Rabs_pos_eq by lra; lra].
Qed.

(** C3 as stated fails at the boundary |d| = 0.8: Cohen's d is exactly
    0.8 and the reported effect size is "medium", not "large". *)
Lemma effect_size_medium_at_boundary :
  exists d,
    test_promotion_impact example_ttest_ind cohen_boundary = Return d /\
    error_tagged d = false /\
    dict_get "cohens_d" d = Some (VNum (Fin 0.8)) /\
    0.8 <= Rabs 0.8 /\
    dict_get "effect_size" d = Some (VStr "medium").
Proof. exact (effect_size_at_boundary example_ttest_ind). Qed.

(* ------------------------------------------------------------------ *)
(** ** The chronological split *)
(* ------------------------------------------------------------------ *)

Section Split.

Lemma map_over_positions {A B : Type} (f : A -> B) (d : A) (l : list A) :
  map (fun j => f (nth j l d)) (seq 0 (length l)) = map f l.
Proof.
  induction l as [|x l IH]; [reflexivity|].
  cbn [length seq map nth]. rewrite <- seq_shift, map_map. cbn [nth].
  rewrite IH. reflexivity.
Qed.

Lemma nth_map_in {A B : Type} (f : A -> B) (l : list A) (j : nat) (d : A) (e : B) :
  (j < length l)%nat -> nth j (map f l) e = f (nth j l d).
Proof.
  intros H. rewrite (nth_indep _ e (f d)) by (rewrite length_map; exact H).
  apply map_nth.
Qed.

Lemma row_at_take_rows (positions : list nat) (df : DataFrame) (j : nat) :
  (j < length positions)%nat ->
  row_at (take_rows positions df) j = row_at df (nth j positions 0%nat).
Proof.
  intros Hj. unfold row_at, take_rows. cbn [index columns]. f_equal.
  - apply (nth_map_in (fun i => nth i (index df) 0%Z)). exact Hj.
  - rewrite map_map. apply map_ext. intros [n v]. cbn [fst snd].
    unfold cell at 1. apply (nth_map_in (cell v)). exact Hj.
Qed.

Lemma rows_take_rows (positions : list nat) (df : DataFrame) :
  rows (take_rows positions df) = map (row_at df) positions.
Proof.
  unfold rows, nrows. cbn [take_rows index]. rewrite length_map.
  rewrite <- (map_over_positions (row_at df) 0%nat positions).
  apply map_ext_in. intros j Hj. apply in_seq in Hj.
  apply row_at_take_rows. lia.
Qed.

Lemma filter_rows_positions (p : Z -> bool) (df : DataFrame) :
  filter (fun r => p (fst r)) (rows df) =
  map (row_at df) (positions_where p (index df)).
Proof.
  unfold rows, positions_where, nrows.
  generalize (seq 0 (length (index df))) as ps.
  induction ps as [|i ps IH]; simpl; [reflexivity|].
  destruct (p (nth i (index df) 0%Z)); simpl; rewrite IH; reflexivity.
Qed.

(** Positions of a list with one more cell in front. *)
Lemma positions_where_cons (p : Z -> bool) (x : Z) (idx : list Z) :
  positions_where p (x :: idx) =
  (if p x then [0%nat] else []) ++ map S (positions_where p idx).
Proof.
  assert (E : forall l, filter (fun i => p (nth i (x :: idx) 0%Z)) (map S l) =
                        map S (filter (fun i => p (nth i idx 0%Z)) l)).
  { induction l as [|i l IH]; cbn [map filter]; [reflexivity|].
    rewrite IH. cbn [nth]. destruct (p (nth i idx 0%Z)); reflexivity. }
  unfold positions_where. cbn [length seq].
  rewrite <- seq_shift. cbn [filter]. rewrite E. cbn [nth].
  destruct (p x); reflexivity.
Qed.

Lemma monotonic_head_le (x : Z) (idx : list Z) :
  is_monotonic_increasing (x :: idx) = true ->
  is_monotonic_increasing idx = true /\ Forall (fun y => (x <= y)%Z) idx.
Proof.
  revert x. induction idx as [|y idx IH]; intros x H.
  - split; [reflexivity | constructor].
  - cbn [is_monotonic_increasing] in H. apply andb_prop in H as [Hxy Hrest].
    apply Z.leb_le in Hxy. split; [exact Hrest|].
    constructor; [exact Hxy|].
    destruct (IH y Hrest) as [_ Hall].
    eapply Forall_impl; [|exact Hall]. cbn. intros z Hz. lia.
Qed.

Lemma positions_where_none (p : Z -> bool) (idx : list Z) :
  Forall (fun y => p y = false) idx -> positions_where p idx = [].
Proof.
  induction idx as [|y idx IH]; intros H; [reflexivity|].
  inversion H; subst. rewrite positions_where_cons, IH by assumption.
  rewrite H2. reflexivity.
Qed.

Lemma positions_where_all (p : Z -> bool) (idx : list Z) :
  Forall (fun y => p y = true) idx ->
  positions_where p idx = seq 0 (length idx).
Proof.
  induction idx as [|y idx IH]; intros H; [reflexivity|].
  inversion H; subst. rewrite positions_where_cons, IH by assumption.
  rewrite H2. cbn [length seq app]. rewrite seq_shift. reflexivity.
Qed.

(** On an ascending index the rows up to the right insertion point are
    the rows dated at most the bound. *)
Lemma searchsorted_right_positions (d : Z) (idx : list Z) :
  is_monotonic_increasing idx = true ->
  positions_where (fun x => (x <=? d)%Z) idx =
  seq 0 (searchsorted_right idx d).
Proof.
  unfold searchsorted_right.
  induction idx as [|x idx IH]; intros H; [reflexivity|].
  destruct (monotonic_head_le x idx H) as [Hmono Hall].
  rewrite positions_where_cons. cbn [count_while].
  destruct (Z.leb_spec x d) as [Hle | Hgt].
  - rewrite IH by exact Hmono. cbn [seq app]. rewrite seq_shift. reflexivity.
  - rewrite positions_where_none; [reflexivity|].
    eapply Forall_impl; [|exact Hall]. cbn. intros y Hy.
    apply Z.leb_gt. lia.
Qed.

(** And the rows from the left insertion point on are the rows dated at
    least the bound. *)
Lemma searchsorted_left_positions (d : Z) (idx : list Z) :
  is_monotonic_increasing idx = true ->
  positions_where (fun x => (d <=? x)%Z) idx =
  seq (searchsorted_left idx d) (length idx - searchsorted_left idx d).
Proof.
  unfold searchsorted_left.
  induction idx as [|x idx IH]; intros H; [reflexivity|].
  destruct (monotonic_head_le x idx H) as [Hmono Hall].
  rewrite positions_where_cons. cbn [count_while length].
  destruct (Z.ltb_spec x d) as [Hlt | Hge].
  - replace (d <=? x)%Z with false by (symmetry; apply Z.leb_gt; lia).
    rewrite IH by exact Hmono. cbn [app Nat.sub].
    rewrite seq_shift. reflexivity.
  - replace (d <=? x)%Z with true by (symmetry; apply Z.leb_le; lia).
    rewrite positions_where_all.
    + cbn [app Nat.sub seq]. rewrite seq_shift. reflexivity.
    + eapply Forall_impl; [|exact Hall]. cbn. intros y Hy.
      apply Z.leb_le. lia.
Qed.

Lemma isin_In (d : Z) (ds : list Z) : isin d ds = true <-> In d ds.
Proof.
  unfold isin. rewrite existsb_exists. split.
  - intros [x [Hin Heq]]. apply Z.eqb_eq in Heq. subst. exact Hin.
  - intros H. exists d. split; [exact H | apply Z.eqb_refl].
Qed.

Lemma loc_until_rows (split_date : Z) (df : DataFrame) :
  is_monotonic_increasing (index df) = true ->
  exists train,
    loc_until split_date df = Return train /\
    rows train = filter (fun r => (fst r <=? split_date)%Z) (rows df) /\
    column_names train = column_names df.
Proof.
  intros Hmono. unfold loc_until. rewrite Hmono.
  eexists. split; [reflexivity|]. split.
  - rewrite rows_take_rows, (filter_rows_positions (fun x => (x <=? split_date)%Z)).
    rewrite searchsorted_right_positions by exact Hmono. reflexivity.
  - unfold column_names, take_rows. cbn [columns]. rewrite map_map. reflexivity.
Qed.

Lemma loc_from_rows (split_date : Z) (df : DataFrame) :
  In split_date (index df) ->
  exists test,
    loc_from split_date df = Return test /\
    rows test = filter (fun r => (split_date <=? fst r)%Z) (rows df) /\
    column_names test = column_names df.
Proof.
  intros Hin. unfold loc_from.
  destruct (is_monotonic_increasing (index df)) eqn:Hmono.
  - eexists. split; [reflexivity|]. split.
    + rewrite rows_take_rows, (filter_rows_positions (fun x => (split_date <=? x)%Z)).
      rewrite searchsorted_left_positions by exact Hmono. reflexivity.
    + unfold column_names, take_rows. cbn [columns]. rewrite map_map. reflexivity.
  - rewrite (proj2 (isin_In _ _) Hin).
    eexists. split; [reflexivity|]. split.
    + rewrite rows_take_rows, (filter_rows_positions (fun x => (split_date <=? x)%Z)).
      reflexivity.
    + unfold column_names, take_rows. cbn [columns]. rewrite map_map. reflexivity.
Qed.

(** The split of a frame in date order, at a date of its index. *)
Lemma split_ascending_frame (df : DataFrame) (split_date : Z) :
  is_monotonic_increasing (index df) = true ->
  In split_date (index df) ->
  exists train test,
    split_train_test df split_date = Return (train, test) /\
    rows train = filter (fun r => (fst r <=? split_date)%Z) (rows df) /\
    rows test = filter (fun r => (split_date <=? fst r)%Z) (rows df) /\
    column_names train = column_names df /\
    column_names test = column_names df /\
    (forall r, In r (rows df) -> fst r = split_date ->
               In r (rows train) /\ In r (rows test)) /\
    (exists r, In r (rows df) /\ fst r = split_date).
Proof.
  intros Hmono Hin.
  destruct (loc_until_rows split_date df Hmono) as (train & Htrain & Hrows1 & Hn1).
  destruct (loc_from_rows split_date df Hin) as (test & Htest & Hrows2 & Hn2).
  exists train, test. unfold split_train_test. rewrite Htrain, Htest.
  split; [reflexivity|]. repeat (split; [assumption|]). split.
  - intros r Hr Hd. rewrite Hrows1, Hrows2. split; apply filter_In;
      (split; [exact Hr | apply Z.leb_le; lia]).
  - apply (In_nth _ _ 0%Z) in Hin as (i & Hi & Hnth).
    exists (row_at df i). split; [|exact Hnth].
    unfold rows. apply in_map. apply in_seq. unfold nrows. lia.
Qed.

(** The feature table is in date order. *)
Lemma insert_row_ascending (r : DailyRow) (rs : list DailyRow) :
  is_monotonic_increasing (map day rs) = true ->
  is_monotonic_increasing (map day (insert_row r rs)) = true.
Proof.
  induction rs as [|s rs IH]; intros H; [reflexivity|].
  cbn [insert_row]. destruct (Z.leb_spec (day r) (day s)) as [Hle | Hgt].
  - cbn [map is_monotonic_increasing] in *.
    rewrite H. apply Z.leb_le in Hle. rewrite Hle. reflexivity.
  - destruct (monotonic_head_le _ _ H) as [Hrest Hall].
    specialize (IH Hrest).
    cbn [map]. destruct rs as [|t rs].
    + cbn. replace (day s <=? day r)%Z with true by (symmetry; apply Z.leb_le; lia).
      reflexivity.
    + cbn [insert_row] in *. inversion Hall; subst.
      destruct (day r <=? day t)%Z; cbn [map is_monotonic_increasing] in *.
      * replace (day s <=? day r)%Z with true by (symmetry; apply Z.leb_le; lia).
        exact IH.
      * replace (day s <=? day t)%Z with true by (symmetry; apply Z.leb_le; lia).
        exact IH.
Qed.

Lemma feature_table_ascending sales_raw oil holidays :
  is_monotonic_increasing (index (engineer_features sales_raw oil holidays)) = true.
Proof.
  change (index (engineer_features sales_raw oil holidays))
    with (map day (daily_table sales_raw oil)).
  unfold daily_table, sort_values_date.
  induction (merge_inputs sales_raw oil) as [|r rs IH]; [reflexivity|].
  cbn [fold_right]. apply insert_row_ascending. exact IH.
Qed.

(** C6.  For a feature table and a cutoff date of its index, the split
    returns the rows dated at most the cutoff as [train] and the rows
    dated at least the cutoff as [test], in table order and with the
    table's columns; the row of the cutoff date is in both. *)
Theorem split_train_test_inclusive :
  forall (sales_raw : list SaleRecord) (oil : list OilRecord)
         (holidays : list (option Z)) (split_date : Z),
    let df := engineer_features sales_raw oil holidays in
    In split_date (index df) ->
    exists train test,
      split_train_test df split_date = Return (train, test) /\
      rows train = filter (fun r => (fst r <=? split_date)%Z) (rows df) /\
      rows test = filter (fun r => (split_date <=? fst r)%Z) (rows df) /\
      column_names train = column_names df /\
      column_names test = column_names df /\
      (forall r, In r (rows df) -> fst r = split_date ->
                 In r (rows train) /\ In r (rows test)) /\
      (exists r, In r (rows df) /\ fst r = split_date).
Proof.
  intros sales_raw oil holidays split_date df Hin.
  apply split_ascending_frame; [apply feature_table_ascending | exact Hin].
Qed.

End Split.

Lemma three_days_index :
  index (engineer_features three_days_sales three_days_oil []) =
  [17167; 17168; 17169]%Z.
Proof. reflexivity. Qed.

Lemma split_train_test_witness :
  In 17168%Z (index (engineer_features three_days_sales three_days_oil [])) /\
  exists train test,
    split_train_test (engineer_features three_days_sales three_days_oil []) 17168 =
      Return (train, test) /\
    rows train =
      filter (fun r => (fst r <=? 17168)%Z)
             (rows (engineer_features three_days_sales three_days_oil [])) /\
    rows test =
      filter (fun r => (17168 <=? fst r)%Z)
             (rows (engineer_features three_days_sales three_days_oil [])).
Proof.
  assert (Hin : In 17168%Z (index (engineer_features three_days_sales three_days_oil [])))
    by (rewrite three_days_index; simpl; auto).
  split; [exact Hin|].
  destruct (split_train_test_inclusive three_days_sales three_days_oil [] 17168 Hin)
    as (train & test & Hs & Ht & Hu & _).
  exists train, test. repeat split; assumption.
Defined.

(** The split of the ordered frame at date 2: row 2 is on both sides.  A
    frame out of date order is refused. *)
Example split_ordered_frame :
  split_train_test ordered_frame 2 =
  Return (mkDF [1; 2]%Z [("sales", [Fin 10; Fin 20])],
          mkDF [2; 3; 4]%Z [("sales", [Fin 20; Fin 30; Fin 40])]).
Proof. reflexivity. Qed.

Example split_shuffled_frame :
  split_train_test shuffled_frame 2 = Raise (KeyError non_monotonic_msg).
Proof. reflexivity. Qed.

(* ------------------------------------------------------------------ *)
(** ** Series operations *)
(* ------------------------------------------------------------------ *)

Section Series.

Lemma bfill_length (xs : list num) : length (bfill xs) = length xs.
Proof. induction xs as [|x xs IH]; simpl; [reflexivity | rewrite IH; reflexivity]. Qed.

Lemma ffill_from_length (last : num) (xs : list num) :
  length (ffill_from last xs) = length xs.
Proof.
  revert last; induction xs as [|x xs IH]; intros last; simpl;
    [reflexivity | rewrite IH; reflexivity].
Qed.

Lemma ffill_length (xs : list num) : length (ffill xs) = length xs.
Proof. apply ffill_from_length. Qed.

Lemma fillna_length (v : num) (xs : list num) : length (fillna v xs) = length xs.
Proof. apply length_map. Qed.

Lemma impute_length (xs : list num) : length (impute xs) = length xs.
Proof. unfold impute. rewrite fillna_length, ffill_length, bfill_length. reflexivity. Qed.

(** A valid cell is left alone by each fill. *)
Lemma bfill_valid (xs : list num) (i : nat) :
  isnan (cell xs i) = false -> cell (bfill xs) i = cell xs i.
Proof.
  unfold cell. revert i; induction xs as [|x xs IH]; intros i H.
  - destruct i; reflexivity.
  - destruct i as [|i]; cbn [bfill nth] in *.
    + rewrite H. reflexivity.
    + apply IH. exact H.
Qed.

Lemma ffill_from_valid (last : num) (xs : list num) (i : nat) :
  isnan (cell xs i) = false -> cell (ffill_from last xs) i = cell xs i.
Proof.
  unfold cell. revert last i; induction xs as [|x xs IH]; intros last i H.
  - destruct i; discriminate.
  - destruct i as [|i]; cbn [ffill_from nth] in *.
    + rewrite H. reflexivity.
    + apply IH. exact H.
Qed.

Lemma fillna_valid (v : num) (xs : list num) (i : nat) :
  isnan (cell xs i) = false -> cell (fillna v xs) i = cell xs i.
Proof.
  unfold cell. revert i; induction xs as [|x xs IH]; intros i H.
  - destruct i; discriminate.
  - destruct i as [|i]; cbn [fillna map nth] in *.
    + rewrite H. reflexivity.
    + apply IH. exact H.
Qed.

Lemma impute_valid (xs : list num) (i : nat) :
  isnan (cell xs i) = false -> cell (impute xs) i = cell xs i.
Proof.
  intros H. unfold impute, ffill.
  rewrite fillna_valid; rewrite ffill_from_valid; rewrite bfill_valid; auto.
Qed.

(** After the zero fill no cell is missing. *)
Lemma fillna_defined (xs : list num) :
  Forall (fun x => isnan x = false) (fillna (Fin 0) xs).
Proof.
  unfold fillna. induction xs as [|x xs IH]; simpl; constructor; [|exact IH].
  destruct x; reflexivity.
Qed.

Lemma impute_defined (xs : list num) :
  Forall (fun x => isnan x = false) (impute xs).
Proof. apply fillna_defined. Qed.

(** A column of finite cells has no missing cell to fill. *)
Lemma impute_finite (rs : list R) : impute (map Fin rs) = map Fin rs.
Proof.
  unfold impute, ffill.
  assert (B : bfill (map Fin rs) = map Fin rs).
  { induction rs as [|r rs IH]; simpl; [reflexivity | rewrite IH; reflexivity]. }
  assert (F : forall last, ffill_from last (map Fin rs) = map Fin rs).
  { induction rs as [|r rs IH]; intros last; simpl; [reflexivity|].
    rewrite IH by (simpl in B; inversion B; congruence). reflexivity. }
  rewrite B, F. unfold fillna. rewrite map_map. reflexivity.
Qed.

(** [shift]: cell [i] holds what cell [i - k] held. *)
Lemma shift_length (k : nat) (xs : list num) : length (shift k xs) = length xs.
Proof.
  unfold shift. rewrite length_app, repeat_length, length_firstn. lia.
Qed.

Lemma shift_cell (k i : nat) (xs : list num) :
  (k <= i < length xs)%nat -> cell (shift k xs) i = cell xs (i - k).
Proof.
  intros H. unfold cell, shift.
  rewrite app_nth2 by (rewrite repeat_length; lia).
  rewrite repeat_length. replace (Nat.min k (length xs)) with k by lia.
  rewrite nth_firstn.
  destruct (Nat.ltb_spec (i - k) (length xs - k)); [reflexivity | lia].
Qed.

Lemma shift_cell_early (k i : nat) (xs : list num) :
  (i < k)%nat -> cell (shift k xs) i = NaN.
Proof.
  intros H. unfold cell, shift.
  destruct (Nat.lt_ge_cases i (Nat.min k (length xs))) as [Hlt | Hge].
  - rewrite app_nth1 by (rewrite repeat_length; exact Hlt).
    apply nth_repeat.
  - rewrite app_nth2 by (rewrite repeat_length; exact Hge).
    apply nth_overflow. rewrite length_firstn, repeat_length. lia.
Qed.

(** [rolling]: cell by cell. *)
Lemma rolling_length (k : nat) (agg : list num -> num) (xs : list num) :
  length (rolling k agg xs) = length xs.
Proof. unfold rolling. rewrite length_map, length_seq. reflexivity. Qed.

Lemma rolling_cell (k : nat) (agg : list num -> num) (xs : list num) (i : nat) :
  (i < length xs)%nat ->
  cell (rolling k agg xs) i =
  if (k <=? i + 1)%nat && forallb isfinite (window k i xs)
  then agg (window k i xs) else NaN.
Proof.
  intros H. unfold cell, rolling.
  rewrite (nth_indep _ NaN
             ((fun i => if (k <=? i + 1)%nat && forallb isfinite (window k i xs)
                        then agg (window k i xs) else NaN) 0%nat))
    by (rewrite length_map, length_seq; exact H).
  rewrite (map_nth (fun i => if (k <=? i + 1)%nat && forallb isfinite (window k i xs)
                             then agg (window k i xs) else NaN)).
  rewrite seq_nth by exact H. reflexivity.
Qed.

Lemma firstn_skipn_firstn {A : Type} (k j m : nat) (l : list A) :
  (j + k <= m)%nat -> firstn k (skipn j (firstn m l)) = firstn k (skipn j l).
Proof.
  intros H. rewrite skipn_firstn_comm, firstn_firstn.
  replace (Nat.min k (m - j)) with k by lia. reflexivity.
Qed.

(** The window of the one-day-shifted series ending at [i] holds the
    [k] cells before [i]. *)
Lemma window_shift_one (k i : nat) (xs : list num) :
  (0 < k <= i)%nat -> (i < length xs)%nat ->
  window k i (shift 1 xs) = cells_from (i - k) k xs.
Proof.
  intros Hk Hi. unfold window, shift, cells_from.
  replace (Nat.min 1 (length xs)) with 1%nat by lia.
  cbn [repeat app].
  replace (i + 1 - k)%nat with (S (i - k)) by lia. cbn [skipn].
  apply firstn_skipn_firstn. lia.
Qed.

Lemma cells_from_finite (start k : nat) (rs : list R) :
  cells_from start k (map Fin rs) = map Fin (firstn k (skipn start rs)).
Proof. unfold cells_from. rewrite skipn_map, firstn_map. reflexivity. Qed.

Lemma cells_from_length (start k : nat) (xs : list num) :
  (start + k <= length xs)%nat -> length (cells_from start k xs) = k.
Proof. intros H. unfold cells_from. rewrite length_firstn, length_skipn. lia. Qed.

Lemma forallb_isfinite_map (rs : list R) : forallb isfinite (map Fin rs) = true.
Proof. induction rs; simpl; auto. Qed.

End Series.

(* ------------------------------------------------------------------ *)
(** ** The feature engineer *)
(* ------------------------------------------------------------------ *)

Section FeatureEngineer.

Lemma lookup_map_columns (f : list num -> list num) (name : string) cols :
  lookup name (map (fun c => (fst c, f (snd c))) cols) =
  option_map f (lookup name cols).
Proof.
  induction cols as [|[n v] cols IH]; simpl; [reflexivity|].
  destruct (String.eqb n name); [reflexivity | exact IH].
Qed.

Lemma columns_engineer_features sales_raw oil holidays :
  columns (engineer_features sales_raw oil holidays) =
  map (fun c => (fst c, impute (snd c)))
      (columns (derive_features (daily_table sales_raw oil) holidays)).
Proof.
  unfold engineer_features, df_fillna, df_ffill, df_bfill, map_columns.
  cbn [columns]. rewrite !map_map. reflexivity.
Qed.

Lemma col_engineer_features sales_raw oil holidays (name : string) :
  col (engineer_features sales_raw oil holidays) name =
  impute (col (derive_features (daily_table sales_raw oil) holidays) name).
Proof.
  unfold col. rewrite columns_engineer_features, lookup_map_columns.
  destruct (lookup name _); reflexivity.
Qed.

Lemma index_engineer_features sales_raw oil holidays :
  index (engineer_features sales_raw oil holidays) =
  map day (daily_table sales_raw oil).
Proof. reflexivity. Qed.

Lemma nrows_engineer_features sales_raw oil holidays :
  nrows (engineer_features sales_raw oil holidays) =
  length (daily_table sales_raw oil).
Proof. unfold nrows. rewrite index_engineer_features. apply length_map. Qed.

Lemma sales_of_table_finite (daily : list DailyRow) :
  sales_of_table daily = map Fin (map day_sales daily).
Proof. unfold sales_of_table. rewrite map_map. reflexivity. Qed.

Lemma cell_finite (rs : list R) (i : nat) :
  (i < length rs)%nat -> cell (map Fin rs) i = Fin (nth i rs 0).
Proof. intros H. unfold cell. apply (nth_map_in Fin). exact H. Qed.

(** The sales column comes out of the final pass as it went in. *)
Lemma sales_column sales_raw oil holidays :
  col (engineer_features sales_raw oil holidays) "sales" =
  sales_of_table (daily_table sales_raw oil).
Proof.
  rewrite col_engineer_features.
  change (col (derive_features (daily_table sales_raw oil) holidays) "sales")
    with (sales_of_table (daily_table sales_raw oil)).
  rewrite sales_of_table_finite. apply impute_finite.
Qed.

(** A lag column, from row [k] on. *)
Lemma imputed_lag_cell (k i : nat) (rs : list R) :
  (k <= i < length rs)%nat ->
  cell (impute (shift k (map Fin rs))) i = cell (map Fin rs) (i - k).
Proof.
  intros H.
  assert (E : cell (shift k (map Fin rs)) i = cell (map Fin rs) (i - k))
    by (apply shift_cell; rewrite length_map; exact H).
  rewrite impute_valid; [exact E|].
  rewrite E, cell_finite by lia. reflexivity.
Qed.

(** A rolling column, from row [k] on, for an aggregate that is finite
    on [k] finite cells. *)
Lemma imputed_rolling_cell (k i : nat) (agg : list num -> num) (rs : list R) :
  (0 < k <= i)%nat -> (i < length rs)%nat ->
  (forall l, length l = k -> exists v, agg (map Fin l) = Fin v) ->
  cell (impute (rolling k agg (shift 1 (map Fin rs)))) i =
  agg (cells_from (i - k) k (map Fin rs)).
Proof.
  intros Hk Hi Hagg.
  assert (E : cell (rolling k agg (shift 1 (map Fin rs))) i =
              agg (cells_from (i - k) k (map Fin rs))).
  { rewrite rolling_cell by (rewrite shift_length, length_map; exact Hi).
    rewrite window_shift_one by (rewrite ?length_map; lia).
    rewrite cells_from_finite, forallb_isfinite_map.
    replace (k <=? i + 1)%nat with true by (symmetry; apply Nat.leb_le; lia).
    reflexivity. }
  rewrite impute_valid; [exact E|].
  rewrite E, cells_from_finite.
  destruct (Hagg (firstn k (skipn (i - k) rs))) as [v Hv].
  - rewrite length_firstn, length_skipn. lia.
  - rewrite Hv. reflexivity.
Qed.

Lemma np_mean_finite_window (k : nat) :
  (0 < k)%nat -> forall l, length l = k -> exists v, np_mean (map Fin l) = Fin v.
Proof.
  intros Hk l Hl. rewrite np_mean_fin; [eauto|].
  destruct l; [simpl in Hl; lia | discriminate].
Qed.

Lemma np_std_finite_window (k : nat) :
  (1 < k)%nat -> forall l, length l = k -> exists v, np_std 1 (map Fin l) = Fin v.
Proof. intros Hk l Hl. apply np_std_fin. lia. Qed.

(** With one row per calendar day, [k] rows back is [k] days back. *)
Lemma consecutive_days_offset (idx : list Z) (i k : nat) :
  consecutive_days idx -> (k <= i < length idx)%nat ->
  nth (i - k) idx 0%Z = (nth i idx 0%Z - Z.of_nat k)%Z.
Proof.
  intros Hc [Hk Hi]. induction k as [|k IH].
  - rewrite Nat.sub_0_r. lia.
  - specialize (IH ltac:(lia)).
    assert (Hstep := Hc (i - S k)%nat ltac:(lia)).
    replace (S (i - S k)) with (i - k)%nat in Hstep by lia.
    lia.
Qed.

(** C4.  From row 365 on, each lag column holds the sales of the row
    that many rows before, each rolling column holds the mean or the
    sample standard deviation of the sales of the [k] rows strictly
    before the row, the row itself excluded; the sales are the daily
    totals.  With one row per calendar day a row [k] rows before is the
    date [k] days before. *)
Theorem lag_and_rolling_features :
  forall (sales_raw : list SaleRecord) (oil : list OilRecord)
         (holidays : list (option Z)) (i : nat),
    let df := engineer_features sales_raw oil holidays in
    let sales := col df "sales" in
    (365 <= i < nrows df)%nat ->
    sales = sales_of_table (daily_table sales_raw oil) /\
    cell (col df "lag_1") i = cell sales (i - 1) /\
    cell (col df "lag_7") i = cell sales (i - 7) /\
    cell (col df "lag_30") i = cell sales (i - 30) /\
    cell (col df "roll_mean_7") i = np_mean (cells_from (i - 7) 7 sales) /\
    cell (col df "roll_mean_30") i = np_mean (cells_from (i - 30) 30 sales) /\
    cell (col df "roll_std_7") i = np_std 1 (cells_from (i - 7) 7 sales) /\
    cell (col df "roll_std_30") i = np_std 1 (cells_from (i - 30) 30 sales) /\
    (consecutive_days (index df) ->
     forall k, (k <= i)%nat ->
       nth (i - k) (index df) 0%Z = (nth i (index df) 0%Z - Z.of_nat k)%Z).
Proof.
  intros sales_raw oil holidays i df sales Hi.
  assert (Hs : sales = sales_of_table (daily_table sales_raw oil))
    by apply sales_column.
  unfold df in Hi. rewrite nrows_engineer_features in Hi.
  set (daily := daily_table sales_raw oil) in *.
  assert (Hlen : length (map day_sales daily) = length daily) by apply length_map.
  rewrite Hs. unfold df. rewrite !col_engineer_features.
  fold daily.
  change (col (derive_features daily holidays) "lag_1")
    with (shift 1 (sales_of_table daily)).
  change (col (derive_features daily holidays) "lag_7")
    with (shift 7 (sales_of_table daily)).
  change (col (derive_features daily holidays) "lag_30")
    with (shift 30 (sales_of_table daily)).
  change (col (derive_features daily holidays) "roll_mean_7")
    with (rolling 7 np_mean (shift 1 (sales_of_table daily))).
  change (col (derive_features daily holidays) "roll_mean_30")
    with (rolling 30 np_mean (shift 1 (sales_of_table daily))).
  change (col (derive_features daily holidays) "roll_std_7")
    with (rolling 7 (np_std 1) (shift 1 (sales_of_table daily))).
  change (col (derive_features daily holidays) "roll_std_30")
    with (rolling 30 (np_std 1) (shift 1 (sales_of_table daily))).
  rewrite sales_of_table_finite.
  split; [reflexivity|].
  repeat split.
  - apply imputed_lag_cell; lia.
  - apply imputed_lag_cell; lia.
  - apply imputed_lag_cell; lia.
  - apply imputed_rolling_cell; [lia | lia | apply np_mean_finite_window; lia].
  - apply imputed_rolling_cell; [lia | lia | apply np_mean_finite_window; lia].
  - apply imputed_rolling_cell; [lia | lia | apply np_std_finite_window; lia].
  - apply imputed_rolling_cell; [lia | lia | apply np_std_finite_window; lia].
  - intros Hc k Hk. apply consecutive_days_offset; [exact Hc|].
    rewrite index_engineer_features, length_map. fold daily. lia.
Qed.

End FeatureEngineer.

Lemma leap_year_rows : length (daily_table leap_year_sales []) = 366%nat.
Proof. vm_compute. reflexivity. Qed.

Lemma lag_and_rolling_features_witness :
  (365 <= 365 < nrows (engineer_features leap_year_sales [] []))%nat /\
  cell (col (engineer_features leap_year_sales [] []) "lag_30") 365 =
  cell (col (engineer_features leap_year_sales [] []) "sales") (365 - 30) /\
  cell (col (engineer_features leap_year_sales [] []) "roll_mean_7") 365 =
  np_mean (cells_from (365 - 7) 7 (col (engineer_features leap_year_sales [] []) "sales")).
Proof.
  assert (H : (365 <= 365 < nrows (engineer_features leap_year_sales [] []))%nat).
  { rewrite nrows_engineer_features, leap_year_rows. lia. }
  split; [exact H|].
  destruct (lag_and_rolling_features leap_year_sales [] [] 365 H)
    as (_ & _ & _ & H30 & H7 & _).
  split; [exact H30 | exact H7].
Defined.

Section FinalImputation.

Lemma lookup_in (name : string) (v : list num) cols :
  lookup name cols = Some v -> In (name, v) cols.
Proof.
  induction cols as [|[n w] cols IH]; simpl; [discriminate|].
  destruct (String.eqb n name) eqn:E; intros H.
  - apply String.eqb_eq in E. inversion H; subst. left; reflexivity.
  - right. apply IH. exact H.
Qed.

Lemma in_names_lookup (name : string) cols :
  In name (map fst cols) -> exists v, lookup name cols = Some v.
Proof.
  induction cols as [|[n w] cols IH]; simpl; [contradiction|].
  intros [-> | H].
  - rewrite String.eqb_refl. eauto.
  - destruct (String.eqb n name); [eauto | apply IH; exact H].
Qed.

Lemma zip_with_length {A B C : Type} (f : A -> B -> C) (xs : list A) (ys : list B) :
  length (zip_with f xs ys) = Nat.min (length xs) (length ys).
Proof. unfold zip_with. rewrite length_map. apply length_combine. Qed.

(** Every derived column has one cell per row. *)
Lemma derive_features_well_formed daily holidays :
  well_formed (derive_features daily holidays).
Proof.
  unfold well_formed, derive_features, nrows, rolling_mean, rolling_std.
  cbn [columns index]. rewrite length_map.
  repeat (constructor;
          [cbn [snd];
           rewrite ?zip_with_length, ?rolling_length, ?shift_length, ?length_map;
           try reflexivity; lia|]).
  constructor.
Qed.

Lemma derive_features_names daily holidays :
  column_names (derive_features daily holidays) = table_columns.
Proof. reflexivity. Qed.

(** Each column of the feature table has one cell per row and no
    missing cell. *)
Lemma feature_column_complete sales_raw oil holidays (name : string) :
  let df := engineer_features sales_raw oil holidays in
  In name table_columns ->
  length (col df name) = nrows df /\
  Forall (fun x => isnan x = false) (col df name).
Proof.
  intros df Hin. unfold df. rewrite col_engineer_features. split.
  - rewrite impute_length.
    rewrite <- (derive_features_names (daily_table sales_raw oil) holidays) in Hin.
    destruct (in_names_lookup name _ Hin) as [v Hv].
    unfold col. rewrite Hv.
    pose proof (derive_features_well_formed (daily_table sales_raw oil) holidays) as Hwf.
    unfold well_formed in Hwf. rewrite Forall_forall in Hwf.
    apply lookup_in in Hv. apply Hwf in Hv. cbn [snd] in Hv.
    rewrite Hv. rewrite nrows_engineer_features.
    unfold nrows, derive_features. cbn [index]. apply length_map.
  - apply impute_defined.
Qed.

(** On columns without missing cells the screening has nothing to drop:
    the feature table is screenable against any of its columns. *)
Lemma dropna_complete (v : list num) :
  Forall (fun x => isnan x = false) v -> dropna v = v.
Proof.
  unfold dropna, notna. induction 1 as [|x v Hx Hv IH]; [reflexivity|].
  cbn [filter]. rewrite Hx, IH. reflexivity.
Qed.

Lemma feature_table_screenable sales_raw oil holidays (target_col : string) :
  In target_col table_columns ->
  screenable (engineer_features sales_raw oil holidays) target_col.
Proof.
  intros Ht c Hc Hne Hn.
  change (column_names (engineer_features sales_raw oil holidays))
    with table_columns in *.
  split; [exact Ht|].
  destruct (feature_column_complete sales_raw oil holidays c Hc) as [Hlc Hdc].
  destruct (feature_column_complete sales_raw oil holidays target_col Ht) as [Hlt Hdt].
  rewrite !dropna_complete by assumption. congruence.
Qed.

(** The rows of a lag column before row [k] take the first sale, the
    next valid cell of the column. *)
Lemma bfill_missing_prefix (k : nat) (xs : list num) :
  bfill (repeat NaN k ++ xs) = repeat (hd NaN (bfill xs)) k ++ bfill xs.
Proof.
  induction k as [|k IH]; [reflexivity|].
  cbn [repeat app bfill isnan]. rewrite IH.
  destruct k; [destruct (bfill xs); reflexivity | reflexivity].
Qed.

Lemma imputed_lag_early_cell (k i : nat) (rs : list R) :
  (i < k < length rs)%nat ->
  cell (impute (shift k (map Fin rs))) i = Fin (nth 0 rs 0).
Proof.
  intros H. unfold impute, ffill.
  assert (E : cell (bfill (shift k (map Fin rs))) i = Fin (nth 0 rs 0)).
  { unfold shift. rewrite length_map.
    replace (Nat.min k (length rs)) with k by lia.
    rewrite bfill_missing_prefix. unfold cell.
    rewrite app_nth1 by (rewrite repeat_length; lia).
    rewrite nth_repeat_lt by lia.
    destruct rs as [|r rs]; cbn [length] in *; [lia|].
    replace (S (length rs) - k)%nat with (S (length rs - k)) by lia.
    reflexivity. }
  rewrite fillna_valid; rewrite ffill_from_valid; rewrite ?E; reflexivity.
Qed.

End FinalImputation.

(** The pass on three days of history: the first row of [lag_1] takes the
    next valid cell, the oil price missing on the first and last day is
    filled from its neighbour, and a column with no valid cell at all
    becomes zero. *)
Example three_days_imputed :
  let df := engineer_features three_days_sales three_days_oil [] in
  index df = [17167; 17168; 17169]%Z /\
  col df "sales" = [Fin 15; Fin 20; Fin 40] /\
  col df "lag_1" = [Fin 15; Fin 15; Fin 20] /\
  col df "dcoilwtico" = [Fin 50; Fin 50; Fin 50] /\
  col df "oil_price" = [Fin 50; Fin 50; Fin 50] /\
  col df "roll_mean_7" = [Fin 0; Fin 0; Fin 0] /\
  col df "promo_count" = [Fin 1; Fin 0; Fin 0].
Proof.
  cbv zeta. split; [reflexivity|].
  split; [rewrite sales_column; cbn; repeat f_equal; lra|].
  repeat (split; [rewrite col_engineer_features; cbn; repeat f_equal; try lra|]).
  rewrite col_engineer_features; cbn; repeat f_equal; try lra.
Qed.

(* ------------------------------------------------------------------ *)
(** ** Correlation screening *)
(* ------------------------------------------------------------------ *)

Section NumOrder.

Lemma fleb_num_le (x y : num) :
  isnan x = false -> isnan y = false -> (fleb x y = true <-> num_le x y).
Proof.
  intros Hx Hy. unfold fleb.
  destruct x as [a| | |], y as [b| | |]; try discriminate;
    cbn [fltb feqb num_le orb]; try tauto; try (split; [discriminate | contradiction]).
  rewrite orb_true_iff, Rltb_iff, Reqb_iff. lra.
Qed.

Lemma num_le_trans (x y z : num) : num_le x y -> num_le y z -> num_le x z.
Proof.
  destruct x, y, z; cbn [num_le]; try tauto. lra.
Qed.

Lemma num_le_total (x y : num) :
  isnan x = false -> isnan y = false -> num_le x y \/ num_le y x.
Proof.
  destruct x as [a| | |], y as [b| | |]; cbn [num_le isnan]; try tauto; try discriminate.
  intros _ _. lra.
Qed.

Lemma fgeb_false_num_le (x y : num) :
  isnan x = false -> isnan y = false -> fgeb x y = false -> num_le x y.
Proof.
  intros Hx Hy H. destruct (num_le_total x y Hx Hy) as [Hle | Hge]; [exact Hle|].
  apply (fleb_num_le y x Hy Hx) in Hge. unfold fgeb in H. congruence.
Qed.

End NumOrder.

Section SortByStrength.

Lemma insert_desc_perm (r : CorrRow) (rs : list CorrRow) :
  Permutation (insert_desc r rs) (r :: rs).
Proof.
  induction rs as [|s rs IH]; simpl; [reflexivity|].
  destruct (fgeb (Strength r) (Strength s)); [reflexivity|].
  rewrite IH. apply perm_swap.
Qed.

Lemma sort_by_strength_perm (rs : list CorrRow) :
  Permutation (sort_by_strength rs) rs.
Proof.
  induction rs as [|r rs IH]; simpl; [reflexivity|].
  rewrite insert_desc_perm. constructor. exact IH.
Qed.

Lemma insert_desc_sorted (r : CorrRow) (rs : list CorrRow) :
  isnan (Strength r) = false ->
  Forall (fun s => isnan (Strength s) = false) rs ->
  StronglySorted stronger_eq rs ->
  StronglySorted stronger_eq (insert_desc r rs).
Proof.
  intros Hr Hall Hsorted.
  induction Hsorted as [|s rs Hrs IH Hs]; simpl.
  - repeat constructor.
  - inversion Hall as [|? ? Hsn Hall']; subst.
    destruct (fgeb (Strength r) (Strength s)) eqn:E.
    + apply (fleb_num_le _ _ Hsn Hr) in E.
      constructor; [constructor; assumption|].
      constructor; [exact E|].
      eapply Forall_impl; [|exact Hs]. cbn. intros t Ht.
      unfold stronger_eq in *. eapply num_le_trans; eassumption.
    + apply (fgeb_false_num_le _ _ Hr Hsn) in E.
      constructor; [apply IH; assumption|].
      rewrite Forall_forall. intros t Ht.
      apply (Permutation_in _ (insert_desc_perm r rs)) in Ht.
      destruct Ht as [<- | Ht]; [exact E|].
      rewrite Forall_forall in Hs. apply Hs. exact Ht.
Qed.

Lemma sort_by_strength_sorted (rs : list CorrRow) :
  Forall (fun s => isnan (Strength s) = false) rs ->
  StronglySorted stronger_eq (sort_by_strength rs).
Proof.
  induction rs as [|r rs IH]; intros Hall; simpl; [constructor|].
  inversion Hall; subst. apply insert_desc_sorted; [assumption | | apply IH; assumption].
  rewrite Forall_forall. intros s Hs.
  apply (Permutation_in _ (sort_by_strength_perm rs)) in Hs.
  rewrite Forall_forall in H2. apply H2. exact Hs.
Qed.

(** In a sorted table a later row is never stronger than an earlier
    one. *)
Lemma sorted_positions (rs : list CorrRow) (i j : nat) (a b : CorrRow) :
  StronglySorted stronger_eq rs -> (i < j)%nat ->
  nth_error rs i = Some a -> nth_error rs j = Some b -> stronger_eq a b.
Proof.
  intros Hs. revert i j. induction Hs as [|r rs Hrs IH Hall]; intros i j Hij Ha Hb.
  - destruct i; discriminate.
  - destruct j as [|j]; [lia|]. cbn [nth_error] in Hb.
    destruct i as [|i]; cbn [nth_error] in Ha.
    + inversion Ha; subst. rewrite Forall_forall in Hall.
      apply Hall. eapply nth_error_In. exact Hb.
    + apply (IH i j); [lia | assumption | assumption].
Qed.

Lemma nth_error_firstn_some {A : Type} (n i : nat) (l : list A) (a : A) :
  nth_error (firstn n l) i = Some a -> nth_error l i = Some a.
Proof.
  revert i l. induction n as [|n IH]; intros i l H.
  - destruct i; discriminate.
  - destruct l as [|x l]; [destruct i; discriminate|].
    destruct i as [|i]; cbn [firstn nth_error] in *; [exact H | apply IH; exact H].
Qed.

End SortByStrength.

Section Correlations.

Variable pearson_pvalue : num -> nat -> num.
Variable df : DataFrame.
Variable target_col : string.

Lemma numeric_cols_in (c : string) :
  In c (numeric_columns df target_col) <-> In c (column_names df) /\ c <> target_col.
Proof.
  unfold numeric_columns. rewrite filter_In, negb_true_iff, String.eqb_neq. tauto.
Qed.

Lemma col_of_name (c : string) :
  In c (column_names df) -> getcol c df = Return (col df c).
Proof.
  intros H. destruct (in_names_lookup c _ H) as [v Hv].
  unfold getcol, col. rewrite Hv. reflexivity.
Qed.

Lemma getcol_returns_name (c : string) (v : list num) :
  getcol c df = Return v -> In c (column_names df) /\ col df c = v.
Proof.
  intros H. split; [|apply getcol_col; exact H].
  apply getcol_lookup, lookup_in in H.
  unfold column_names. change c with (fst (c, v)). apply in_map. exact H.
Qed.

(** Whenever the loop returns, each pair is what the screening of its
    column prescribes. *)
Lemma correlate_screened (cols : list string) (cps : list (num * num)) :
  (forall c, In c cols -> c <> target_col) ->
  correlate pearson_pvalue df target_col cols = Return cps ->
  Forall2 (screened pearson_pvalue df target_col) cols cps.
Proof.
  revert cps. induction cols as [|c cols IH]; intros cps Hne H.
  - inversion H. constructor.
  - cbn [correlate] in H.
    destruct (getcol c df) as [v|e] eqn:Hv; [|discriminate]. cbn [bind] in H.
    destruct (getcol_returns_name c v Hv) as [Hin Hcol].
    fold (dropna v) in H.
    destruct (10 <? length (dropna v))%nat eqn:Hn.
    + destruct (getcol target_col df) as [t|e] eqn:Ht; [|discriminate].
      cbn [bind] in H.
      destruct (pearsonr pearson_pvalue (dropna t) (dropna v)) as [cp|e] eqn:Hp;
        [|discriminate].
      cbn [bind] in H.
      destruct (correlate pearson_pvalue df target_col cols) as [rest|e] eqn:Hr;
        [|discriminate].
      cbn [bind] in H. inversion H; subst cps. constructor.
      * apply Nat.ltb_lt in Hn. unfold screened. rewrite Hcol.
        rewrite (getcol_col _ _ _ Ht).
        repeat split; [apply Hne; left; reflexivity | exact Hin | intros _; exact Hp | lia].
      * apply IH; [intros c' Hc'; apply Hne; right; exact Hc' | reflexivity].
    + cbn [bind] in H.
      destruct (correlate pearson_pvalue df target_col cols) as [rest|e] eqn:Hr;
        [|discriminate].
      cbn [bind] in H. inversion H; subst cps. constructor.
      * apply Nat.ltb_ge in Hn. unfold screened. rewrite Hcol.
        repeat split; [apply Hne; left; reflexivity | exact Hin | lia].
      * apply IH; [intros c' Hc'; apply Hne; right; exact Hc' | reflexivity].
Qed.

(** The loop returns on a screenable frame. *)
Lemma correlate_returns (cols : list string) :
  screenable df target_col ->
  (forall c, In c cols -> In c (column_names df) /\ c <> target_col) ->
  exists cps, correlate pearson_pvalue df target_col cols = Return cps.
Proof.
  intros Hs. induction cols as [|c cols IH]; intros Hin.
  - eexists; reflexivity.
  - destruct (Hin c (or_introl eq_refl)) as [Hc Hne].
    destruct IH as [rest Hrest]; [intros c' Hc'; apply Hin; right; exact Hc'|].
    cbn [correlate]. rewrite (col_of_name c Hc). cbn [bind].
    fold (dropna (col df c)).
    destruct (10 <? length (dropna (col df c)))%nat eqn:Hn.
    + apply Nat.ltb_lt in Hn. destruct (Hs c Hc Hne Hn) as [Ht Hlen].
      rewrite (col_of_name target_col Ht). cbn [bind]. unfold pearsonr.
      rewrite Hlen, Nat.eqb_refl. cbn [negb].
      replace (length (dropna (col df c)) <? 2)%nat with false
        by (symmetry; apply Nat.ltb_ge; lia).
      cbn [bind]. rewrite Hrest. cbn [bind]. eexists; reflexivity.
    + cbn [bind]. rewrite Hrest. cbn [bind]. eexists; reflexivity.
Qed.

Lemma forall2_combine {A B : Type} (P : A -> B -> Prop) (l1 : list A) (l2 : list B) :
  Forall2 P l1 l2 -> forall a b, In (a, b) (combine l1 l2) -> P a b.
Proof.
  induction 1 as [|x y l1 l2 Hxy H IH]; intros a b Hin; [contradiction|].
  destruct Hin as [E | Hin]; [inversion E; subst; exact Hxy | apply IH; exact Hin].
Qed.

Lemma corr_rows_features (cols : list string) (cps : list (num * num)) :
  length cols = length cps -> map Feature (corr_rows cols cps) = cols.
Proof.
  revert cps. induction cols as [|c cols IH]; intros [|cp cps] H;
    try discriminate; [reflexivity|].
  unfold corr_rows, zip_with in *. cbn [combine map Feature fst]. f_equal.
  apply IH. simpl in H. lia.
Qed.

Lemma corr_rows_in (cols : list string) (cps : list (num * num)) (r : CorrRow) :
  In r (corr_rows cols cps) ->
  In (Feature r, (Correlation r, P_Value r)) (combine cols cps) /\
  Significant r = fltb (P_Value r) (Fin 0.05) /\
  Strength r = if isnan (Correlation r) then Fin 0 else fabs (Correlation r).
Proof.
  unfold corr_rows, zip_with. rewrite in_map_iff.
  intros [[c [corr p]] [<- Hin]]. cbn [fst snd Feature Correlation P_Value Significant Strength].
  repeat split; [exact Hin|]. destruct (isnan corr); reflexivity.
Qed.

Lemma strength_defined (corr : num) :
  isnan (if isnan corr then Fin 0 else fabs corr) = false.
Proof. destruct corr; reflexivity. Qed.

(** C9, as the code has it.  On a screenable frame the screening
    returns.  Whenever it returns, the result is the first [top_n]
    rows of a table that has one row per column other than the target
    and is sorted by descending strength.  Each row carries: for a
    column with more than 10 valid cells, the Pearson coefficient and
    p-value of the valid target cells against the valid cells of the
    column; for any other column, a missing coefficient and p-value; the
    flag [p < 0.05]; and as strength the absolute coefficient, or 0 when
    the coefficient is missing.  A row with a missing coefficient hence
    comes after every row whose coefficient is defined and not zero. *)
Theorem calculate_correlations_ranking :
  forall top_n : nat,
    (screenable df target_col ->
     exists result,
       calculate_correlations pearson_pvalue df target_col top_n = Return result) /\
    (forall result,
       calculate_correlations pearson_pvalue df target_col top_n = Return result ->
       exists table,
         result = firstn top_n table /\
         Permutation (map Feature table) (numeric_columns df target_col) /\
         StronglySorted stronger_eq table /\
         (forall r, In r table ->
            screened pearson_pvalue df target_col (Feature r) (Correlation r, P_Value r) /\
            Significant r = fltb (P_Value r) (Fin 0.05) /\
            Strength r = if isnan (Correlation r) then Fin 0 else fabs (Correlation r)) /\
         (forall i j a b,
            nth_error result i = Some a -> nth_error result j = Some b ->
            isnan (Correlation a) = false -> Correlation a <> Fin 0 ->
            isnan (Correlation b) = true ->
            (i < j)%nat)).
Proof.
  intros top_n. split.
  - intros Hs. unfold calculate_correlations. fold (numeric_columns df target_col).
    destruct (correlate_returns (numeric_columns df target_col) Hs) as [cps Hcps];
      [intros c Hc; apply numeric_cols_in; exact Hc|].
    rewrite Hcps. cbn [bind]. eexists; reflexivity.
  - intros result H. unfold calculate_correlations in H. fold (numeric_columns df target_col) in H.
    destruct (correlate pearson_pvalue df target_col (numeric_columns df target_col)) as [cps|e] eqn:Hcps;
      [|discriminate].
    cbn [bind] in H. fold (corr_rows (numeric_columns df target_col) cps) in H.
    inversion H as [Hres]. clear H.
    assert (Hscr : Forall2 (screened pearson_pvalue df target_col) (numeric_columns df target_col) cps).
    { apply correlate_screened; [|exact Hcps].
      intros c Hc. apply numeric_cols_in in Hc. tauto. }
    assert (Hrows : forall r, In r (corr_rows (numeric_columns df target_col) cps) ->
              screened pearson_pvalue df target_col (Feature r) (Correlation r, P_Value r) /\
              Significant r = fltb (P_Value r) (Fin 0.05) /\
              Strength r = if isnan (Correlation r) then Fin 0 else fabs (Correlation r)).
    { intros r Hr. apply corr_rows_in in Hr as (Hin & Hsig & Hstr).
      split; [|split; assumption].
      apply (forall2_combine _ _ _ Hscr). exact Hin. }
    assert (Hperm := sort_by_strength_perm (corr_rows (numeric_columns df target_col) cps)).
    assert (Hsorted : StronglySorted stronger_eq (sort_by_strength (corr_rows (numeric_columns df target_col) cps))).
    { apply sort_by_strength_sorted. rewrite Forall_forall. intros r Hr.
      destruct (Hrows r Hr) as (_ & _ & ->). apply strength_defined. }
    exists (sort_by_strength (corr_rows (numeric_columns df target_col) cps)).
    split; [reflexivity|]. split.
    { rewrite Hperm. rewrite corr_rows_features; [reflexivity|].
      eapply Forall2_length. exact Hscr. }
    split; [exact Hsorted|]. split.
    { intros r Hr. apply Hrows. apply (Permutation_in _ Hperm). exact Hr. }
    intros i j a b Ha Hb Hdef Hnz Hnan.
    apply nth_error_firstn_some in Ha, Hb.
    assert (Hina : In a (corr_rows (numeric_columns df target_col) cps))
      by (apply (Permutation_in _ Hperm); eapply nth_error_In; exact Ha).
    assert (Hinb : In b (corr_rows (numeric_columns df target_col) cps))
      by (apply (Permutation_in _ Hperm); eapply nth_error_In; exact Hb).
    destruct (Hrows a Hina) as (_ & _ & Hsa).
    destruct (Hrows b Hinb) as (_ & _ & Hsb).
    rewrite Hdef in Hsa. rewrite Hnan in Hsb.
    destruct (Nat.lt_trichotomy i j) as [Hlt | [Heq | Hgt]]; [exact Hlt | |].
    + subst j. rewrite Ha in Hb. inversion Hb; subst b. congruence.
    + exfalso. pose proof (sorted_positions _ j i b a Hsorted Hgt Hb Ha) as Hord.
      unfold stronger_eq in Hord. rewrite Hsa, Hsb in Hord.
      destruct (Correlation a) as [x| | |]; cbn [fabs num_le] in Hord;
        try contradiction; try discriminate.
      apply Hnz. f_equal.
      destruct (Req_dec x 0) as [E | E]; [exact E|].
      apply Rabs_pos_lt in E. lra.
Qed.

End Correlations.

Lemma tie_at_zero_pearson_r :
  pearson_r [Fin 1; Fin (-1); Fin 0; Fin 0; Fin 0; Fin 0; Fin 0; Fin 0; Fin 0; Fin 0; Fin 0]
            [Fin 0; Fin 0; Fin 1; Fin (-1); Fin 0; Fin 0; Fin 0; Fin 0; Fin 0; Fin 0; Fin 0]
  = Fin 0.
Proof.
  unfold pearson_r.
  assert (Hx : np_mean [Fin 1; Fin (-1); Fin 0; Fin 0; Fin 0; Fin 0; Fin 0; Fin 0; Fin 0; Fin 0; Fin 0] = Fin 0)
    by (feval; f_equal; simpl; lra).
  assert (Hy : np_mean [Fin 0; Fin 0; Fin 1; Fin (-1); Fin 0; Fin 0; Fin 0; Fin 0; Fin 0; Fin 0; Fin 0] = Fin 0)
    by (feval; f_equal; simpl; lra).
  rewrite Hx, Hy. unfold zip_with, np_sum, fsquare, fsub.
  cbn [map combine fst snd fold_left fneg fadd fmul].
  match goal with
  | |- fdiv (Fin ?n) (fmul (fsqrt (Fin ?a)) (fsqrt (Fin ?b))) = _ =>
      replace n with 0 by lra; replace a with 2 by lra; replace b with 2 by lra
  end.
  rewrite fsqrt_fin by lra. cbn [fmul]. rewrite sqrt_sqrt by lra.
  rewrite fdiv_fin by lra. f_equal. lra.
Qed.

Lemma tie_at_zero_screenable : screenable tie_at_zero "sales".
Proof.
  intros c Hin Hne Hn. cbn in Hin.
  destruct Hin as [<- | [<- | [<- | []]]].
  - contradiction.
  - cbn in Hn. lia.
  - split; [cbn; auto | reflexivity].
Qed.

Lemma calculate_correlations_witness :
  screenable tie_at_zero "sales" /\
  exists result,
    calculate_correlations example_pearson_pvalue tie_at_zero "sales" 10 = Return result.
Proof.
  split; [exact tie_at_zero_screenable|].
  apply (calculate_correlations_ranking example_pearson_pvalue tie_at_zero "sales" 10).
  exact tie_at_zero_screenable.
Defined.

(** A tie at strength zero: column [a] has ten valid cells, so its
    coefficient is missing; column [b] has eleven and its coefficient
    against the target is exactly 0, a defined value; the table ranks [a]
    before [b], whatever the p-value function. *)
Lemma tie_at_zero_ranking :
  forall pearson_pvalue : num -> nat -> num,
    exists ra rb,
      calculate_correlations pearson_pvalue tie_at_zero "sales" 10 = Return [ra; rb] /\
      Feature ra = "a" /\
      (length (dropna (col tie_at_zero "a")) <= 10)%nat /\
      isnan (Correlation ra) = true /\ isnan (P_Value ra) = true /\
      Feature rb = "b" /\
      (10 < length (dropna (col tie_at_zero "b")))%nat /\
      Correlation rb = Fin 0 /\ isnan (Correlation rb) = false.
Proof.
  intros pv. unfold calculate_correlations.
  change (filter (fun c => negb (String.eqb c "sales")) (column_names tie_at_zero))
    with ["a"; "b"].
  assert (Hloop : correlate pv tie_at_zero "sales" ["a"; "b"] =
                  Return [(NaN, NaN); (Fin 0, pv (Fin 0) 11%nat)]).
  { cbn [correlate]. 
    change (getcol "a" tie_at_zero) with
      (Return [NaN; Fin 1; Fin 2; Fin 3; Fin 4; Fin 5; Fin 6; Fin 7; Fin 8; Fin 9; Fin 10]).
    change (getcol "b" tie_at_zero) with
      (Return [Fin 0; Fin 0; Fin 1; Fin (-1); Fin 0; Fin 0; Fin 0; Fin 0; Fin 0; Fin 0; Fin 0]).
    change (getcol "sales" tie_at_zero) with
      (Return [Fin 1; Fin (-1); Fin 0; Fin 0; Fin 0; Fin 0; Fin 0; Fin 0; Fin 0; Fin 0; Fin 0]).
    cbn [bind filter notna isnan negb length Nat.ltb Nat.leb dropna].
    unfold pearsonr, dropna.
    cbn [bind filter notna isnan negb length Nat.eqb Nat.ltb Nat.leb].
    rewrite tie_at_zero_pearson_r. reflexivity. }
  rewrite Hloop. cbn [bind].
  unfold zip_with, sort_by_strength.
  cbn [combine map fst snd isnan negb fabs fold_right insert_desc Strength].
  unfold fgeb, fleb. cbn [fltb feqb]. rewrite Rabs_R0. rtest. cbn [orb firstn].
  eexists. eexists. split; [reflexivity|].
  cbn. repeat split; lia.
Qed.

(** C9 as stated fails on that tie: the feature with the undefined
    correlation is ranked before a feature with a defined one. *)
Lemma undefined_correlation_ranked_first :
  exists ra rb,
    calculate_correlations example_pearson_pvalue tie_at_zero "sales" 10 = Return [ra; rb] /\
    Feature ra = "a" /\
    (length (dropna (col tie_at_zero "a")) <= 10)%nat /\
    isnan (Correlation ra) = true /\ isnan (P_Value ra) = true /\
    Feature rb = "b" /\
    (10 < length (dropna (col tie_at_zero "b")))%nat /\
    Correlation rb = Fin 0 /\ isnan (Correlation rb) = false.
Proof. exact (tie_at_zero_ranking example_pearson_pvalue). Qed.

(* ------------------------------------------------------------------ *)
(** ** The frames the dashboard works on *)
(* ------------------------------------------------------------------ *)

Section Dashboard.

Lemma lookup_take_rows (positions : list nat) (name : string) (df : DataFrame) :
  lookup name (columns (take_rows positions df)) =
  option_map (fun v => map (cell v) positions) (lookup name (columns df)).
Proof.
  unfold take_rows. cbn [columns].
  induction (columns df) as [|[n v] cols IH]; cbn [map lookup fst snd]; [reflexivity|].
  destruct (String.eqb n name); [reflexivity | exact IH].
Qed.

Lemma select_columns_present (names : list string) (df : DataFrame) :
  (forall n, In n names -> In n (column_names df)) ->
  exists cs,
    select_columns names df = Return cs /\
    map fst cs = names /\
    forall n, In n names -> lookup n cs = Some (col df n).
Proof.
  induction names as [|n names IH]; intros H.
  - exists []. repeat split. intros n [].
  - destruct IH as (cs & Hcs & Hnames & Hlook);
      [intros m Hm; apply H; right; exact Hm|].
    destruct (in_names_lookup n (columns df) (H n (or_introl eq_refl))) as [v Hv].
    exists ((n, v) :: cs). cbn [select_columns]. unfold getcol at 1.
    rewrite Hv. cbn [bind]. rewrite Hcs. cbn [bind].
    split; [reflexivity|]. split; [cbn; rewrite Hnames; reflexivity|].
    intros m Hm. cbn [lookup].
    destruct (String.eqb n m) eqn:E.
    + apply String.eqb_eq in E. subst m. unfold col. rewrite Hv. reflexivity.
    + destruct Hm as [-> | Hm]; [rewrite String.eqb_refl in E; discriminate|].
      apply Hlook. exact Hm.
Qed.

Lemma scenario_df_returns (X_test : DataFrame) (promo_change oil_change : R)
  (promo_count oil_price : list num) :
  getcol "promo_count" X_test = Return promo_count ->
  getcol "oil_price" X_test = Return oil_price ->
  exists X',
    scenario_df X_test promo_change oil_change = Return X' /\
    index X' = index X_test /\
    column_names X' = column_names X_test.
Proof.
  intros Hpc Hop. apply getcol_lookup in Hpc. apply getcol_lookup in Hop.
  unfold scenario_df, getcol. rewrite Hpc. cbn [bind setcol columns index].
  rewrite lookup_assign_other by discriminate. rewrite Hop. cbn [bind].
  eexists. split; [reflexivity|]. split; [reflexivity|].
  unfold column_names, setcol. cbn [columns].
  rewrite (names_assign_present "oil_price" _ oil_price)
    by (rewrite lookup_assign_other by discriminate; exact Hop).
  apply (names_assign_present "promo_count" _ promo_count). exact Hpc.
Qed.

Lemma feature_columns_in_table (n : string) :
  In n get_feature_columns -> In n table_columns.
Proof.
  unfold get_feature_columns, table_columns. cbn [In]. intuition.
Qed.

(** Every frame cut from the feature table by rows has the 15 feature
    columns, so the selection of the dashboard returns, and the baseline
    predictor and the scenario transform find the columns they read. *)
Lemma dashboard_frames_return sales_raw oil holidays (split_date : Z) :
  let df := engineer_features sales_raw oil holidays in
  In split_date (index df) ->
  exists X_train X_test,
    dashboard_frames df split_date = Return (X_train, X_test) /\
    column_names X_train = get_feature_columns /\
    column_names X_test = get_feature_columns /\
    (exists lag_1, getcol "lag_1" X_train = Return lag_1) /\
    (forall promo_change oil_change,
        exists X', scenario_df X_test promo_change oil_change = Return X' /\
                   column_names X' = get_feature_columns /\
                   index X' = index X_test).
Proof.
  intros df Hin.
  destruct (split_ascending_frame df split_date
              (feature_table_ascending sales_raw oil holidays) Hin)
    as (train & test & Hsplit & _ & _ & Hn1 & Hn2 & _).
  assert (Hnames : column_names df = table_columns) by reflexivity.
  assert (Hsel : forall fr, column_names fr = column_names df ->
                 forall n, In n get_feature_columns -> In n (column_names fr)).
  { intros fr Hfr n Hn. rewrite Hfr, Hnames. apply feature_columns_in_table. exact Hn. }
  destruct (select_columns_present get_feature_columns train (Hsel train Hn1))
    as (c1 & Hc1 & Hf1 & Hl1).
  destruct (select_columns_present get_feature_columns test (Hsel test Hn2))
    as (c2 & Hc2 & Hf2 & Hl2).
  exists (mkDF (index train) c1), (mkDF (index test) c2).
  unfold dashboard_frames, select. rewrite Hsplit. cbn [bind fst snd].
  rewrite Hc1. cbn [bind]. rewrite Hc2. cbn [bind].
  split; [reflexivity|]. split; [exact Hf1|]. split; [exact Hf2|]. split.
  - exists (col train "lag_1"). apply getcol_lookup. cbn [columns].
    apply Hl1. cbn; auto 20.
  - intros p o.
    destruct (scenario_df_returns (mkDF (index test) c2) p o
                (col test "promo_count") (col test "oil_price"))
      as (X' & HX' & Hidx & Hcols).
    + apply getcol_lookup. cbn [columns]. apply Hl2. cbn; auto 20.
    + apply getcol_lookup. cbn [columns]. apply Hl2. cbn; auto 20.
    + exists X'. split; [exact HX'|]. split; [rewrite Hcols; exact Hf2 | exact Hidx].
Qed.

End Dashboard.

(* ------------------------------------------------------------------ *)
(** ** The library operations on small inputs *)
(* ------------------------------------------------------------------ *)

(** 2017-01-01 was a Sunday in the first quarter; 2016-02-29 a Monday;
    the day before the epoch a Wednesday in the last quarter of 1969. *)
Example calendar_fields :
  (civil_from_days 17167 = (2017, 1, 1) /\ dayofweek_of 17167 = 6 /\ quarter_of 17167 = 1)%Z /\
  (civil_from_days 16860 = (2016, 2, 29) /\ dayofweek_of 16860 = 0)%Z /\
  (civil_from_days (-1) = (1969, 12, 31) /\ dayofweek_of (-1) = 2 /\ quarter_of (-1) = 4)%Z.
Proof. repeat split; reflexivity. Qed.

Example shift_two : shift 2 [Fin 1; Fin 2; Fin 3] = [NaN; NaN; Fin 1].
Proof. reflexivity. Qed.

Example shift_past_the_end : shift 5 [Fin 1; Fin 2; Fin 3] = [NaN; NaN; NaN].
Proof. reflexivity. Qed.

Example bfill_gaps :
  bfill [NaN; Fin 1; NaN; Fin 2; NaN] = [Fin 1; Fin 1; Fin 2; Fin 2; NaN].
Proof. reflexivity. Qed.

Example ffill_gaps :
  ffill [NaN; Fin 1; NaN; Fin 2; NaN] = [NaN; Fin 1; Fin 1; Fin 2; Fin 2].
Proof. reflexivity. Qed.

(** The order of the two fills matters on an inner gap. *)
Example fill_order_matters :
  ffill (bfill [NaN; Fin 1; NaN; Fin 2]) = [Fin 1; Fin 1; Fin 2; Fin 2] /\
  bfill (ffill [NaN; Fin 1; NaN; Fin 2]) = [Fin 1; Fin 1; Fin 1; Fin 2].
Proof. split; reflexivity. Qed.

(** A window needs all its cells: the mean over two days is missing at
    the first row and wherever the window meets a missing cell. *)
Example rolling_mean_two :
  rolling_mean 2 [Fin 1; Fin 2; NaN; Fin 4; Fin 6] =
  [NaN; Fin 1.5; NaN; NaN; Fin 5].
Proof.
  unfold rolling_mean, rolling, window.
  cbn [length seq map Nat.leb Nat.add Nat.sub skipn firstn forallb isfinite andb].
  feval. repeat f_equal; lra.
Qed.

Example groupby_sum_sorts_and_skips :
  groupby_sum [(3%Z, Some 1); (1%Z, Some 2); (3%Z, None); (1%Z, Some 5)] =
  [(1%Z, 0 + 2 + 5); (3%Z, 0 + 1)].
Proof. reflexivity. Qed.

Example merge_left_repeats_and_fills :
  merge_left [(1%Z, 10%nat); (2%Z, 20%nat)] [(2%Z, true); (2%Z, false); (3%Z, true)] =
  [(1%Z, 10%nat, None); (2%Z, 20%nat, Some true); (2%Z, 20%nat, Some false)].
Proof. reflexivity. Qed.

(** The lags count rows, not days: with no record for 2017-01-03, the
    [lag_1] of 2017-01-04 is the sales of 2017-01-02. *)
Example lag_counts_rows :
  let df := engineer_features gap_sales [] [] in
  index df = [17167; 17168; 17170]%Z /\
  col df "sales" = [Fin 10; Fin 20; Fin 40] /\
  cell (col df "lag_1") 2 = Fin 20 /\
  ~ consecutive_days (index df).
Proof.
  cbv zeta. split; [reflexivity|].
  split; [rewrite sales_column; cbn; repeat f_equal; lra|].
  split; [rewrite col_engineer_features; cbn; f_equal; lra|].
  intros H. specialize (H 1%nat). cbn in H. specialize (H ltac:(lia)). discriminate.
Qed.

(* ================================================================== *)
(** * Further properties *)
(* ================================================================== *)

(* ------------------------------------------------------------------ *)
(** ** The daily table: aggregation and merges *)
(* ------------------------------------------------------------------ *)

Section DailyTable.

(** Strictly ascending lists of dates. *)
Lemma insert_key_in (d x : Z) (ks : list Z) :
  In x (insert_key d ks) <-> x = d \/ In x ks.
Proof.
  induction ks as [|k ks IH]; cbn [insert_key In]; [intuition|].
  destruct (Z.ltb_spec d k); [cbn [In]; intuition|].
  destruct (Z.eqb_spec d k); cbn [In]; [subst; intuition|].
  rewrite IH. intuition.
Qed.

Lemma insert_key_sorted (d : Z) (ks : list Z) :
  StronglySorted Z.lt ks -> StronglySorted Z.lt (insert_key d ks).
Proof.
  induction 1 as [|k ks Hs IH Hall]; cbn [insert_key].
  - repeat constructor.
  - destruct (Z.ltb_spec d k) as [Hlt | Hge].
    + constructor; [constructor; assumption|].
      constructor; [exact Hlt|].
      eapply Forall_impl; [|exact Hall]. cbn. intros; lia.
    + destruct (Z.eqb_spec d k) as [-> | Hne]; [constructor; assumption|].
      constructor; [exact IH|].
      rewrite Forall_forall. intros x Hx. apply insert_key_in in Hx.
      destruct Hx as [-> | Hx]; [lia|].
      rewrite Forall_forall in Hall. apply Hall. exact Hx.
Qed.

Lemma group_keys_in (d : Z) (ds : list Z) : In d (group_keys ds) <-> In d ds.
Proof.
  unfold group_keys. induction ds as [|x ds IH]; cbn [fold_right In]; [tauto|].
  rewrite insert_key_in, IH. intuition.
Qed.

Lemma group_keys_sorted (ds : list Z) : StronglySorted Z.lt (group_keys ds).
Proof.
  unfold group_keys. induction ds as [|x ds IH]; cbn [fold_right]; [constructor|].
  apply insert_key_sorted. exact IH.
Qed.

Lemma filter_eq_above (d : Z) (ks : list Z) :
  Forall (fun x => (d < x)%Z) ks -> filter (fun k => (k =? d)%Z) ks = [].
Proof.
  induction 1 as [|x ks Hx Hall IH]; [reflexivity|].
  cbn [filter]. destruct (Z.eqb_spec x d); [lia | exact IH].
Qed.

Lemma sorted_filter_eq (d : Z) (ks : list Z) :
  StronglySorted Z.lt ks -> In d ks -> filter (fun k => (k =? d)%Z) ks = [d].
Proof.
  induction 1 as [|k ks Hs IH Hall]; intros Hin; [contradiction|].
  cbn [filter]. destruct (Z.eqb_spec k d) as [-> | Hne].
  - rewrite filter_eq_above by exact Hall. reflexivity.
  - destruct Hin as [-> | Hin]; [contradiction|]. apply IH. exact Hin.
Qed.

Lemma flat_map_singletons {A B : Type} (f : A -> list B) (g : A -> B) (l : list A) :
  (forall x, In x l -> f x = [g x]) -> flat_map f l = map g l.
Proof.
  induction l as [|x l IH]; intros H; [reflexivity|].
  cbn [flat_map map]. rewrite (H x) by (left; reflexivity).
  rewrite IH by (intros y Hy; apply H; right; exact Hy). reflexivity.
Qed.

Lemma flat_map_of_map {A B C : Type} (f : B -> list C) (g : A -> B) (l : list A) :
  flat_map f (map g l) = flat_map (fun x => f (g x)) l.
Proof.
  induction l as [|x l IH]; [reflexivity|]. cbn [map flat_map]. rewrite IH. reflexivity.
Qed.

Lemma map_of_flat_map {A B C : Type} (f : A -> list B) (g : B -> C) (l : list A) :
  map g (flat_map f l) = flat_map (fun x => map g (f x)) l.
Proof.
  induction l as [|x l IH]; [reflexivity|].
  cbn [flat_map]. rewrite map_app, IH. reflexivity.
Qed.

(** A grouped sum, key by key. *)
Lemma groupby_sum_of (A : Type) (key : A -> Z) (value : A -> option R) (l : list A) :
  groupby_sum (map (fun a => (key a, value a)) l) =
  map (fun d => (d, sum_present (map value (filter (fun a => (key a =? d)%Z) l))))
      (group_keys (map key l)).
Proof.
  unfold groupby_sum. rewrite map_map. cbn [fst].
  apply map_ext. intros d. f_equal. f_equal.
  rewrite (filter_map_swap (fun r : Z * option R => (fst r =? d)%Z)).
  rewrite map_map. reflexivity.
Qed.

(** Merging two tables that have the same ascending keys pairs them up. *)
Lemma merge_left_same_keys {A B : Type} (f : Z -> A) (g : Z -> B) (keys : list Z) :
  StronglySorted Z.lt keys ->
  merge_left (map (fun d => (d, f d)) keys) (map (fun d => (d, g d)) keys) =
  map (fun d => (d, f d, Some (g d))) keys.
Proof.
  intros Hs. unfold merge_left. rewrite flat_map_of_map. cbn [fst snd].
  apply flat_map_singletons. intros d Hd.
  rewrite (filter_map_swap (fun rb : Z * B => (fst rb =? d)%Z)). cbn [fst].
  rewrite (sorted_filter_eq d keys Hs Hd). reflexivity.
Qed.

Lemma combine_with_map {A B : Type} (f : A -> B) (l : list A) :
  combine l (map f l) = map (fun x => (x, f x)) l.
Proof. induction l as [|x l IH]; [reflexivity|]. cbn. rewrite IH. reflexivity. Qed.

(** The merged table, row by row: the dates and oil cells of
    [merged_dates], the totals of each date, and the oil price filled
    forward then backward over the rows. *)
Lemma merge_inputs_rows (sales_raw : list SaleRecord) (oil : list OilRecord) :
  merge_inputs sales_raw oil =
  zip_with (fun dc price =>
              mkDaily (fst dc)
                      (sum_present (amounts_on (fst dc) sales_raw))
                      (sum_present (promotions_on (fst dc) sales_raw))
                      (snd dc) price)
           (merged_dates sales_raw oil)
           (bfill (ffill (map snd (merged_dates sales_raw oil)))).
Proof.
  unfold merge_inputs.
  rewrite (groupby_sum_of SaleRecord sale_date sale_amount).
  rewrite (groupby_sum_of SaleRecord sale_date onpromotion).
  rewrite (merge_left_same_keys _ _ _ (group_keys_sorted (map sale_date sales_raw))).
  rewrite map_map.
  set (keys := group_keys (map sale_date sales_raw)).
  set (ts := fun d => sum_present (map sale_amount (filter (fun a => (sale_date a =? d)%Z) sales_raw))).
  set (tp := fun d => sum_present (map onpromotion (filter (fun a => (sale_date a =? d)%Z) sales_raw))).
  unfold merge_left. rewrite flat_map_of_map. cbn [fst snd].
  set (oil' := map (fun o => (oil_date o, dcoilwtico o)) oil).
  set (df := flat_map _ keys).
  assert (Hraw : map (fun '(_, _, c) => match c with
                                        | Some c0 => num_of_cell c0
                                        | None => NaN
                                        end) df
                 = map snd (merged_dates sales_raw oil)).
  { unfold df, merged_dates. fold keys.
    rewrite !map_of_flat_map. apply flat_map_ext. intros d.
    unfold oil_cells, oil_on, oil'.
    rewrite (filter_map_swap (fun rb : Z * option R => (fst rb =? d)%Z)). cbn [fst].
    destruct (filter (fun o => (oil_date o =? d)%Z) oil) as [|o os]; [reflexivity|].
    cbn [map]. rewrite !map_map. reflexivity. }
  rewrite Hraw.
  set (raw := map snd (merged_dates sales_raw oil)) in *.
  set (price := bfill (ffill raw)).
  rewrite <- Hraw. rewrite combine_with_map.
  unfold zip_with.
  assert (Hmd : merged_dates sales_raw oil =
                map (fun x : Z * (R * R) * option (option R) =>
                       (fst (fst x),
                        match snd x with Some c0 => num_of_cell c0 | None => NaN end)) df).
  { unfold df, merged_dates. fold keys.
    rewrite map_of_flat_map. apply flat_map_ext. intros d.
    unfold oil_cells, oil_on, oil'.
    rewrite (filter_map_swap (fun rb : Z * option R => (fst rb =? d)%Z)). cbn [fst].
    destruct (filter (fun o => (oil_date o =? d)%Z) oil) as [|o os]; [reflexivity|].
    cbn [map fst snd]. rewrite !map_map. reflexivity. }
  rewrite Hmd.
  assert (Hts : forall x, In x df -> snd (fst x) = (ts (fst (fst x)), tp (fst (fst x)))).
  { intros x Hx. unfold df in Hx. apply in_flat_map in Hx as (d & _ & Hx).
    destruct (filter _ oil') as [|m ms].
    - destruct Hx as [<- | []]. reflexivity.
    - apply in_map_iff in Hx as (rb & <- & _). reflexivity. }
  clearbody df price. clear Hmd Hraw raw.
  revert price. induction df as [|x df IH]; intros price; [reflexivity|].
  destruct price as [|p price]; [reflexivity|].
  cbn [map combine]. rewrite IH by (intros y Hy; apply Hts; right; exact Hy).
  f_equal. destruct x as [[d [s pc]] c]. cbn [fst snd].
  specialize (Hts _ (or_introl eq_refl)). cbn [fst snd] in Hts.
  inversion Hts; subst. reflexivity.
Qed.

Lemma map_zip_with_left {A B C D : Type} (f : A -> B -> C) (g : C -> D) (h : A -> D)
  (xs : list A) (ys : list B) :
  (forall x y, g (f x y) = h x) -> (length xs <= length ys)%nat ->
  map g (zip_with f xs ys) = map h xs.
Proof.
  intros Hg. unfold zip_with. revert ys.
  induction xs as [|x xs IH]; intros ys Hlen; [reflexivity|].
  destruct ys as [|y ys]; cbn [length] in Hlen; [lia|].
  cbn [combine map fst snd]. rewrite Hg, IH by lia. reflexivity.
Qed.

Lemma map_zip_with_right {A B C D : Type} (f : A -> B -> C) (g : C -> D) (h : B -> D)
  (xs : list A) (ys : list B) :
  (forall x y, g (f x y) = h y) -> (length ys <= length xs)%nat ->
  map g (zip_with f xs ys) = map h ys.
Proof.
  intros Hg. unfold zip_with. revert xs.
  induction ys as [|y ys IH]; intros xs Hlen; [destruct xs; reflexivity|].
  destruct xs as [|x xs]; cbn [length] in Hlen; [lia|].
  cbn [combine map fst snd]. rewrite Hg, IH by lia. reflexivity.
Qed.

Lemma filled_oil_length (xs : list num) : length (bfill (ffill xs)) = length xs.
Proof. rewrite bfill_length, ffill_length. reflexivity. Qed.

(** The columns of the merged table. *)
Lemma merge_inputs_days sales_raw oil :
  map day (merge_inputs sales_raw oil) = map fst (merged_dates sales_raw oil).
Proof.
  rewrite merge_inputs_rows. apply map_zip_with_left; [reflexivity|].
  rewrite filled_oil_length, length_map. lia.
Qed.

Lemma merge_inputs_sales sales_raw oil :
  map day_sales (merge_inputs sales_raw oil) =
  map (fun dc => sum_present (amounts_on (fst dc) sales_raw)) (merged_dates sales_raw oil).
Proof.
  rewrite merge_inputs_rows. apply map_zip_with_left; [reflexivity|].
  rewrite filled_oil_length, length_map. lia.
Qed.

Lemma merge_inputs_promo sales_raw oil :
  map day_promo_count (merge_inputs sales_raw oil) =
  map (fun dc => sum_present (promotions_on (fst dc) sales_raw)) (merged_dates sales_raw oil).
Proof.
  rewrite merge_inputs_rows. apply map_zip_with_left; [reflexivity|].
  rewrite filled_oil_length, length_map. lia.
Qed.

Lemma merge_inputs_dcoilwtico sales_raw oil :
  map day_dcoilwtico (merge_inputs sales_raw oil) = map snd (merged_dates sales_raw oil).
Proof.
  rewrite merge_inputs_rows. apply map_zip_with_left; [reflexivity|].
  rewrite filled_oil_length, length_map. lia.
Qed.

Lemma merge_inputs_oil_price sales_raw oil :
  map day_oil_price (merge_inputs sales_raw oil) =
  bfill (ffill (map day_dcoilwtico (merge_inputs sales_raw oil))).
Proof.
  rewrite merge_inputs_dcoilwtico. rewrite merge_inputs_rows.
  rewrite (map_zip_with_right _ day_oil_price (fun p => p));
    [apply map_id | reflexivity|].
  rewrite filled_oil_length, length_map. lia.
Qed.

(** The merged table is in date order already, so sorting it by date
    changes nothing. *)
Lemma ascending_cons (x : Z) (l : list Z) :
  Forall (fun y => (x <= y)%Z) l -> is_monotonic_increasing l = true ->
  is_monotonic_increasing (x :: l) = true.
Proof.
  intros Hall Hl. destruct l as [|y l]; [reflexivity|].
  cbn [is_monotonic_increasing] in *. inversion Hall; subst.
  apply andb_true_intro. split; [apply Z.leb_le; assumption | exact Hl].
Qed.

Lemma ascending_app (l1 l2 : list Z) :
  is_monotonic_increasing l1 = true -> is_monotonic_increasing l2 = true ->
  (forall x y, In x l1 -> In y l2 -> (x <= y)%Z) ->
  is_monotonic_increasing (l1 ++ l2) = true.
Proof.
  induction l1 as [|x l1 IH]; intros H1 H2 H; [exact H2|].
  destruct (monotonic_head_le x l1 H1) as [Hr Hall].
  cbn [app]. apply ascending_cons.
  - apply Forall_app. split; [exact Hall|].
    rewrite Forall_forall. intros y Hy. apply H; [left; reflexivity | exact Hy].
  - apply IH; [exact Hr | exact H2|].
    intros a b Ha Hb. apply H; [right; exact Ha | exact Hb].
Qed.

Lemma ascending_constant (d : Z) (n : nat) : is_monotonic_increasing (repeat d n) = true.
Proof.
  induction n as [|n IH]; [reflexivity|]. cbn [repeat].
  apply ascending_cons; [|exact IH].
  rewrite Forall_forall. intros y Hy. apply repeat_spec in Hy. lia.
Qed.

Lemma merged_dates_dates sales_raw oil :
  map fst (merged_dates sales_raw oil) =
  flat_map (fun d => repeat d (length (oil_cells d oil)))
           (group_keys (map sale_date sales_raw)).
Proof.
  unfold merged_dates. rewrite map_of_flat_map. apply flat_map_ext. intros d.
  rewrite map_map. cbn [fst]. induction (oil_cells d oil) as [|c cs IH]; [reflexivity|].
  cbn. rewrite IH. reflexivity.
Qed.

Lemma flat_repeat_ascending (n : Z -> nat) (keys : list Z) :
  StronglySorted Z.lt keys ->
  is_monotonic_increasing (flat_map (fun d => repeat d (n d)) keys) = true.
Proof.
  induction 1 as [|k keys Hs IH Hall]; [reflexivity|].
  cbn [flat_map]. apply ascending_app; [apply ascending_constant | exact IH|].
  intros x y Hx Hy. apply repeat_spec in Hx. subst x.
  apply in_flat_map in Hy as (k' & Hk' & Hy). apply repeat_spec in Hy. subst y.
  rewrite Forall_forall in Hall. specialize (Hall k' Hk'). lia.
Qed.

Lemma merge_inputs_ascending sales_raw oil :
  is_monotonic_increasing (map day (merge_inputs sales_raw oil)) = true.
Proof.
  rewrite merge_inputs_days, merged_dates_dates.
  apply flat_repeat_ascending, group_keys_sorted.
Qed.

Lemma sort_values_date_ascending (rs : list DailyRow) :
  is_monotonic_increasing (map day rs) = true -> sort_values_date rs = rs.
Proof.
  unfold sort_values_date. induction rs as [|r rs IH]; intros H; [reflexivity|].
  cbn [map] in H. destruct (monotonic_head_le _ _ H) as [Hr Hall].
  cbn [fold_right]. rewrite IH by exact Hr.
  destruct rs as [|s rs]; [reflexivity|].
  cbn [insert_row]. inversion Hall; subst.
  replace (day r <=? day s)%Z with true by (symmetry; apply Z.leb_le; assumption).
  reflexivity.
Qed.

Lemma daily_table_merged sales_raw oil :
  daily_table sales_raw oil = merge_inputs sales_raw oil.
Proof. apply sort_values_date_ascending, merge_inputs_ascending. Qed.

(** Rows per date. *)
Lemma filter_repeat_same (k : Z) (m : nat) :
  filter (fun x => (x =? k)%Z) (repeat k m) = repeat k m.
Proof.
  induction m as [|m IH]; [reflexivity|].
  cbn [repeat filter]. rewrite Z.eqb_refl, IH. reflexivity.
Qed.

Lemma filter_repeat_other (k d : Z) (m : nat) :
  k <> d -> filter (fun x => (x =? d)%Z) (repeat k m) = [].
Proof.
  intros Hne. induction m as [|m IH]; [reflexivity|].
  cbn [repeat filter]. destruct (Z.eqb_spec k d); [contradiction | exact IH].
Qed.

Lemma rows_dated_flat_repeat (n : Z -> nat) (d : Z) (keys : list Z) :
  StronglySorted Z.lt keys ->
  rows_dated d (flat_map (fun k => repeat k (n k)) keys) =
  if isin d keys then n d else 0%nat.
Proof.
  unfold rows_dated, isin. induction 1 as [|k keys Hs IH Hall]; [reflexivity|].
  cbn [flat_map existsb]. rewrite filter_app, length_app, IH.
  destruct (Z.eqb_spec d k) as [-> | Hne]; cbn [orb].
  - rewrite filter_repeat_same, repeat_length.
    replace (existsb (Z.eqb k) keys) with false; [lia|].
    symmetry. apply not_true_is_false. intros Hex.
    apply existsb_exists in Hex as (x & Hx & Hxe). apply Z.eqb_eq in Hxe. subst x.
    rewrite Forall_forall in Hall. specialize (Hall k Hx). lia.
  - rewrite filter_repeat_other by congruence. reflexivity.
Qed.

Lemma oil_cells_length (d : Z) (oil : list OilRecord) :
  length (oil_cells d oil) = Nat.max 1 (length (oil_on d oil)).
Proof.
  unfold oil_cells. destruct (oil_on d oil) as [|o os]; [reflexivity|].
  rewrite length_map. cbn [length]. lia.
Qed.

Lemma isin_group_keys (d : Z) (ds : list Z) : isin d (group_keys ds) = isin d ds.
Proof.
  apply eq_true_iff_eq. rewrite !isin_In. apply group_keys_in.
Qed.

Lemma feature_table_index sales_raw oil holidays :
  index (engineer_features sales_raw oil holidays) =
  map fst (merged_dates sales_raw oil).
Proof.
  rewrite index_engineer_features, daily_table_merged. apply merge_inputs_days.
Qed.

(** X1.  The feature table is in date order whatever the order of the
    raw records; its dates are the dates that have a sale record; and a
    sale date has one row, or as many rows as the oil table has records of
    that date when it has more than one. *)
Theorem feature_table_rows_per_date :
  forall (sales_raw : list SaleRecord) (oil : list OilRecord)
         (holidays : list (option Z)) (d : Z),
    let df := engineer_features sales_raw oil holidays in
    is_monotonic_increasing (index df) = true /\
    (In d (index df) <-> In d (map sale_date sales_raw)) /\
    rows_dated d (index df) =
      if isin d (map sale_date sales_raw)
      then Nat.max 1 (length (oil_on d oil)) else 0%nat.
Proof.
  intros sales_raw oil holidays d df. unfold df.
  rewrite feature_table_index, merged_dates_dates.
  pose proof (group_keys_sorted (map sale_date sales_raw)) as Hs.
  split; [apply flat_repeat_ascending; exact Hs|]. split.
  - rewrite in_flat_map. split.
    + intros (k & Hk & Hd). apply repeat_spec in Hd. subst d.
      apply group_keys_in. exact Hk.
    + intros Hd. exists d. split; [apply group_keys_in; exact Hd|].
      rewrite oil_cells_length.
      destruct (Nat.max 1 (length (oil_on d oil))) eqn:E; [lia|]. left; reflexivity.
  - rewrite rows_dated_flat_repeat by exact Hs.
    rewrite isin_group_keys, oil_cells_length. reflexivity.
Qed.

Lemma feature_table_sales sales_raw oil holidays :
  col (engineer_features sales_raw oil holidays) "sales" =
  map (fun dc => Fin (sum_present (amounts_on (fst dc) sales_raw)))
      (merged_dates sales_raw oil).
Proof.
  rewrite sales_column, sales_of_table_finite, daily_table_merged, merge_inputs_sales.
  rewrite map_map. reflexivity.
Qed.

Lemma feature_table_promo_count sales_raw oil holidays :
  col (engineer_features sales_raw oil holidays) "promo_count" =
  map (fun dc => Fin (sum_present (promotions_on (fst dc) sales_raw)))
      (merged_dates sales_raw oil).
Proof.
  rewrite col_engineer_features.
  change (col (derive_features (daily_table sales_raw oil) holidays) "promo_count")
    with (map (fun r => Fin (day_promo_count r)) (daily_table sales_raw oil)).
  rewrite <- (map_map day_promo_count Fin), impute_finite.
  rewrite daily_table_merged, merge_inputs_promo, map_map. reflexivity.
Qed.

Lemma nrows_merged sales_raw oil holidays :
  nrows (engineer_features sales_raw oil holidays) =
  length (merged_dates sales_raw oil).
Proof. unfold nrows. rewrite feature_table_index. apply length_map. Qed.

(** X2.  In every row, [sales] is the total of the amounts recorded for
    the date of the row and [promo_count] the total of its promotion
    counts, missing cells of the raw table counting for nothing. *)
Theorem daily_totals :
  forall (sales_raw : list SaleRecord) (oil : list OilRecord)
         (holidays : list (option Z)) (i : nat),
    let df := engineer_features sales_raw oil holidays in
    let d := nth i (index df) 0%Z in
    (i < nrows df)%nat ->
    cell (col df "sales") i = Fin (sum_present (amounts_on d sales_raw)) /\
    cell (col df "promo_count") i = Fin (sum_present (promotions_on d sales_raw)).
Proof.
  intros sales_raw oil holidays i df d Hi. unfold d, df in *.
  rewrite nrows_merged in Hi.
  rewrite feature_table_index, feature_table_sales, feature_table_promo_count.
  unfold cell.
  rewrite (nth_map_in fst _ i (0%Z, NaN)) by exact Hi.
  split.
  - apply (nth_map_in (fun dc => Fin (sum_present (amounts_on (fst dc) sales_raw)))).
    exact Hi.
  - apply (nth_map_in (fun dc => Fin (sum_present (promotions_on (fst dc) sales_raw)))).
    exact Hi.
Qed.

End DailyTable.

(* ------------------------------------------------------------------ *)
(** ** What the fills put in a missing cell *)
(* ------------------------------------------------------------------ *)

Section Fills.

Lemma last_valid_fold (xs : list num) : last_valid xs = fold_left carry xs NaN.
Proof. reflexivity. Qed.

Lemma carry_valid_start (xs : list num) (a : num) :
  isnan a = false -> isnan (fold_left carry xs a) = false.
Proof.
  revert a. induction xs as [|x xs IH]; intros a Ha; [exact Ha|].
  cbn [fold_left]. apply IH. unfold carry. destruct (isnan x) eqn:E; assumption.
Qed.

Lemma first_valid_cons (x : num) (xs : list num) :
  first_valid (x :: xs) = if isnan x then first_valid xs else x.
Proof. unfold first_valid, notna. cbn [filter]. destruct (isnan x); reflexivity. Qed.

(** [bfill]: the first valid cell from the row on. *)
Lemma bfill_cell (xs : list num) (i : nat) :
  cell (bfill xs) i = first_valid (skipn i xs).
Proof.
  unfold cell. revert i. induction xs as [|x xs IH]; intros i.
  - destruct i; reflexivity.
  - destruct i as [|i]; cbn [bfill nth skipn]; [|apply IH].
    rewrite first_valid_cons. destruct (isnan x); [|reflexivity].
    specialize (IH 0%nat). cbn [skipn] in IH. rewrite <- IH.
    destruct (bfill xs); reflexivity.
Qed.

(** [ffill]: the last valid cell up to the row. *)
Lemma ffill_from_cell (a : num) (xs : list num) (i : nat) :
  (i < length xs)%nat ->
  cell (ffill_from a xs) i = fold_left carry (firstn (S i) xs) a.
Proof.
  unfold cell. revert a i. induction xs as [|x xs IH]; intros a i Hi;
    cbn [length] in Hi; [lia|].
  destruct i as [|i]; cbn [ffill_from nth firstn fold_left].
  - destruct xs; reflexivity.
  - rewrite IH by lia. reflexivity.
Qed.

Lemma ffill_cell (xs : list num) (i : nat) :
  (i < length xs)%nat -> cell (ffill xs) i = last_valid (firstn (S i) xs).
Proof. apply ffill_from_cell. Qed.

Lemma first_valid_ffill (xs : list num) :
  first_valid (ffill_from NaN xs) = first_valid xs.
Proof.
  induction xs as [|x xs IH]; [reflexivity|].
  cbn [ffill_from]. rewrite !first_valid_cons.
  destruct (isnan x) eqn:E; cbn [isnan]; [exact IH | rewrite E; reflexivity].
Qed.

(** Forward then backward: the last valid cell up to the row, or the
    first valid cell of the series before there is one. *)
Lemma ffill_bfill_cell (a : num) (xs : list num) (i : nat) :
  (i < length xs)%nat ->
  cell (bfill (ffill_from a xs)) i =
  let prev := fold_left carry (firstn (S i) xs) a in
  if isnan prev then first_valid xs else prev.
Proof.
  revert a i. induction xs as [|x xs IH]; intros a i Hi;
    cbn [length] in Hi; [lia|].
  cbv zeta. destruct i as [|i].
  - rewrite bfill_cell. cbn [skipn ffill_from firstn fold_left].
    rewrite first_valid_cons. fold (carry a x).
    destruct (isnan (carry a x)) eqn:E; [|reflexivity].
    unfold carry in E. rewrite first_valid_cons.
    destruct (isnan x) eqn:Ex; [|congruence].
    unfold carry. rewrite Ex.
    destruct a; try discriminate. apply first_valid_ffill.
  - cbn [ffill_from]. fold (carry a x).
    change (cell (bfill (carry a x :: ffill_from (carry a x) xs)) (S i))
      with (cell (bfill (ffill_from (carry a x) xs)) i).
    rewrite IH by lia. cbv zeta.
    change (firstn (S (S i)) (x :: xs)) with (x :: firstn (S i) xs).
    cbn [fold_left].
    destruct (isnan (fold_left carry (firstn (S i) xs) (carry a x))) eqn:E;
      [|reflexivity].
    rewrite first_valid_cons. destruct (isnan x) eqn:Ex; [reflexivity|].
    rewrite carry_valid_start in E; [discriminate|].
    unfold carry. rewrite Ex. exact Ex.
Qed.

(** A series without a valid cell. *)
Lemma first_valid_none (xs : list num) :
  isnan (first_valid xs) = true -> Forall (fun x => isnan x = true) xs.
Proof.
  induction xs as [|x xs IH]; intros H; [constructor|].
  rewrite first_valid_cons in H. destruct (isnan x) eqn:E; [|congruence].
  constructor; [exact E | apply IH; exact H].
Qed.

Lemma first_valid_defined (xs : list num) (x : num) :
  In x xs -> isnan x = false -> isnan (first_valid xs) = false.
Proof.
  intros Hin Hx. destruct (isnan (first_valid xs)) eqn:E; [|reflexivity].
  apply first_valid_none in E. rewrite Forall_forall in E.
  rewrite (E x Hin) in Hx. discriminate.
Qed.

Lemma all_missing_repeat (xs : list num) :
  Forall (fun x => isnan x = true) xs -> xs = repeat NaN (length xs).
Proof.
  induction 1 as [|x xs Hx Hall IH]; [reflexivity|].
  cbn [length repeat]. rewrite <- IH. destruct x; try discriminate. reflexivity.
Qed.

Lemma bfill_all_missing (n : nat) : bfill (repeat NaN n) = repeat NaN n.
Proof.
  induction n as [|n IH]; [reflexivity|].
  cbn [repeat bfill isnan]. rewrite IH. destruct n; reflexivity.
Qed.

Lemma ffill_all_missing (n : nat) : ffill_from NaN (repeat NaN n) = repeat NaN n.
Proof.
  induction n as [|n IH]; [reflexivity|].
  cbn [repeat ffill_from isnan]. rewrite IH. reflexivity.
Qed.

Lemma impute_all_missing (n i : nat) :
  (i < n)%nat -> cell (impute (repeat NaN n)) i = Fin 0.
Proof.
  intros Hi. unfold impute, ffill, fillna, cell.
  rewrite bfill_all_missing, ffill_all_missing.
  rewrite (nth_map_in _ _ _ NaN) by (rewrite repeat_length; exact Hi).
  rewrite nth_repeat. reflexivity.
Qed.

End Fills.

Section OilPrice.

Lemma feature_table_oil_price sales_raw oil holidays :
  col (engineer_features sales_raw oil holidays) "oil_price" =
  impute (bfill (ffill (map snd (merged_dates sales_raw oil)))).
Proof.
  rewrite col_engineer_features.
  change (col (derive_features (daily_table sales_raw oil) holidays) "oil_price")
    with (map day_oil_price (daily_table sales_raw oil)).
  rewrite daily_table_merged, merge_inputs_oil_price, merge_inputs_dcoilwtico.
  reflexivity.
Qed.

(** X3.  The oil price of a row is the latest price known at or before
    the row; in the rows before the first known price it is that first
    price; and it is 0 in every row when no price is known at all.  Here
    the known prices are the oil cells the rows were merged with. *)
Theorem oil_price_carried :
  forall (sales_raw : list SaleRecord) (oil : list OilRecord)
         (holidays : list (option Z)) (i : nat),
    let df := engineer_features sales_raw oil holidays in
    let merged := map snd (merged_dates sales_raw oil) in
    let latest := last_valid (firstn (S i) merged) in
    (i < nrows df)%nat ->
    cell (col df "oil_price") i =
      if negb (isnan latest) then latest
      else if negb (isnan (first_valid merged)) then first_valid merged
      else Fin 0.
Proof.
  intros sales_raw oil holidays i df merged latest Hi.
  unfold df in *. rewrite nrows_merged in Hi. rewrite feature_table_oil_price.
  fold merged. assert (Hlen : (i < length merged)%nat)
    by (unfold merged; rewrite length_map; exact Hi).
  pose proof (ffill_bfill_cell NaN merged i Hlen) as Hc. cbv zeta in Hc.
  fold (ffill merged) in Hc. rewrite <- last_valid_fold in Hc. fold latest in Hc.
  destruct (isnan latest) eqn:El; cbn [negb].
  - destruct (isnan (first_valid merged)) eqn:Ef; cbn [negb].
    + apply first_valid_none, all_missing_repeat in Ef. rewrite Ef.
      unfold ffill. rewrite ffill_all_missing, bfill_all_missing.
      apply impute_all_missing. exact Hlen.
    + rewrite impute_valid; rewrite Hc; [reflexivity | exact Ef].
  - rewrite impute_valid; rewrite Hc; [reflexivity | exact El].
Qed.

End OilPrice.

Lemma daily_totals_witness :
  (1 < nrows (engineer_features three_days_sales three_days_oil []))%nat /\
  cell (col (engineer_features three_days_sales three_days_oil []) "sales") 1 =
  Fin (sum_present
         (amounts_on (nth 1 (index (engineer_features three_days_sales three_days_oil [])) 0%Z)
                     three_days_sales)).
Proof.
  assert (H : (1 < nrows (engineer_features three_days_sales three_days_oil []))%nat).
  { unfold nrows. rewrite three_days_index. cbn. lia. }
  split; [exact H|].
  apply (daily_totals three_days_sales three_days_oil [] 1 H).
Defined.

Lemma oil_price_carried_witness :
  (0 < nrows (engineer_features three_days_sales three_days_oil []))%nat /\
  cell (col (engineer_features three_days_sales three_days_oil []) "oil_price") 0 =
    if negb (isnan (last_valid (firstn 1 (map snd (merged_dates three_days_sales three_days_oil)))))
    then last_valid (firstn 1 (map snd (merged_dates three_days_sales three_days_oil)))
    else if negb (isnan (first_valid (map snd (merged_dates three_days_sales three_days_oil))))
         then first_valid (map snd (merged_dates three_days_sales three_days_oil))
         else Fin 0.
Proof.
  assert (H : (0 < nrows (engineer_features three_days_sales three_days_oil []))%nat).
  { unfold nrows. rewrite three_days_index. cbn. lia. }
  split; [exact H|].
  apply (oil_price_carried three_days_sales three_days_oil [] 0 H).
Defined.

(* ------------------------------------------------------------------ *)
(** ** The first rows of the lag and rolling columns *)
(* ------------------------------------------------------------------ *)

Section EarlyRows.

Lemma first_valid_skip_missing (xs : list num) (i : nat) :
  cell xs i = NaN -> first_valid (skipn i xs) = first_valid (skipn (S i) xs).
Proof.
  unfold cell. revert i. induction xs as [|x xs IH]; intros i H.
  - destruct i; reflexivity.
  - destruct i as [|i]; cbn [nth skipn] in *.
    + rewrite first_valid_cons, H. reflexivity.
    + apply IH. exact H.
Qed.

Lemma first_valid_at_valid (xs : list num) (i : nat) :
  isnan (cell xs i) = false -> first_valid (skipn i xs) = cell xs i.
Proof.
  unfold cell. revert i. induction xs as [|x xs IH]; intros i H.
  - destruct i; discriminate.
  - destruct i as [|i]; cbn [nth skipn] in *.
    + rewrite first_valid_cons, H. reflexivity.
    + apply IH. exact H.
Qed.

(** Rows of a leading gap take the first valid cell after the gap. *)
Lemma impute_leading_gap (xs : list num) (k i : nat) :
  (forall j, (j < k)%nat -> cell xs j = NaN) ->
  isnan (cell xs k) = false ->
  (i <= k)%nat ->
  cell (impute xs) i = cell xs k.
Proof.
  intros Hgap Hk Hi.
  assert (E : cell (bfill xs) i = cell xs k).
  { rewrite bfill_cell. remember (k - i)%nat as m eqn:Hm.
    revert i Hi Hm. induction m as [|m IH]; intros i Hi Hm.
    - replace i with k by lia. apply first_valid_at_valid. exact Hk.
    - rewrite first_valid_skip_missing by (apply Hgap; lia).
      apply IH; lia. }
  unfold impute, ffill.
  rewrite fillna_valid; rewrite ffill_from_valid; rewrite ?E; auto.
Qed.

(** A column without a valid cell becomes zero. *)
Lemma impute_no_valid (xs : list num) (i : nat) :
  (forall j, (j < length xs)%nat -> cell xs j = NaN) ->
  (i < length xs)%nat -> cell (impute xs) i = Fin 0.
Proof.
  intros Hall Hi.
  assert (E : xs = repeat NaN (length xs)).
  { apply all_missing_repeat. rewrite Forall_forall. intros x Hx.
    apply (In_nth _ _ NaN) in Hx as (j & Hj & <-).
    fold (cell xs j). rewrite Hall by exact Hj. reflexivity. }
  rewrite E. apply impute_all_missing. exact Hi.
Qed.

Lemma shift_cell_short (k i : nat) (xs : list num) :
  (length xs <= k)%nat -> cell (shift k xs) i = NaN.
Proof.
  intros H. unfold cell, shift.
  replace (length xs - k)%nat with 0%nat by lia.
  replace (Nat.min k (length xs)) with (length xs) by lia.
  cbn [firstn]. rewrite app_nil_r.
  destruct (Nat.lt_ge_cases i (length xs)) as [Hlt | Hge].
  - apply nth_repeat_lt. exact Hlt.
  - apply nth_overflow. rewrite repeat_length. exact Hge.
Qed.

Lemma early_lag (k i : nat) (rs : list R) :
  (i < length rs)%nat ->
  ((i < k < length rs)%nat ->
   cell (impute (shift k (map Fin rs))) i = cell (map Fin rs) 0) /\
  ((length rs <= k)%nat ->
   cell (impute (shift k (map Fin rs))) i = Fin 0).
Proof.
  intros Hi. split.
  - intros H.
    assert (E : cell (shift k (map Fin rs)) k = cell (map Fin rs) 0).
    { rewrite shift_cell by (rewrite ?length_map; lia).
      rewrite Nat.sub_diag. reflexivity. }
    rewrite <- E.
    apply impute_leading_gap; [|rewrite shift_cell, cell_finite by
                                   (rewrite ?length_map; lia); reflexivity | lia].
    intros j Hj. apply shift_cell_early. exact Hj.
  - intros H. apply impute_no_valid; [|rewrite shift_length, length_map; exact Hi].
    intros j _. apply shift_cell_short. rewrite length_map. exact H.
Qed.

Lemma rolling_early_missing (k j : nat) (agg : list num -> num) (xs : list num) :
  (j < k)%nat -> (j < length xs)%nat ->
  cell (rolling k agg (shift 1 xs)) j = NaN.
Proof.
  intros Hjk Hj. rewrite rolling_cell by (rewrite shift_length; exact Hj).
  destruct (Nat.leb_spec k (j + 1)) as [Hle | Hgt]; [|reflexivity].
  assert (k = S j) by lia. subst k.
  unfold window. replace (j + 1 - S j)%nat with 0%nat by lia.
  unfold shift. replace (Nat.min 1 (length xs)) with 1%nat by lia.
  cbn [repeat app skipn firstn forallb isfinite andb]. reflexivity.
Qed.

Lemma early_rolling (k i : nat) (agg : list num -> num) (rs : list R) :
  (0 < k)%nat -> (i < length rs)%nat ->
  (forall l, length l = k -> exists v, agg (map Fin l) = Fin v) ->
  ((i < k < length rs)%nat ->
   cell (impute (rolling k agg (shift 1 (map Fin rs)))) i =
   agg (cells_from 0 k (map Fin rs))) /\
  ((length rs <= k)%nat ->
   cell (impute (rolling k agg (shift 1 (map Fin rs)))) i = Fin 0).
Proof.
  intros Hk Hi Hagg.
  assert (Hat : (k < length rs)%nat ->
                cell (rolling k agg (shift 1 (map Fin rs))) k =
                agg (cells_from 0 k (map Fin rs))).
  { intros Hkn.
    rewrite rolling_cell by (rewrite shift_length, length_map; exact Hkn).
    rewrite window_shift_one by (rewrite ?length_map; lia).
    rewrite Nat.sub_diag, cells_from_finite, forallb_isfinite_map.
    replace (k <=? k + 1)%nat with true by (symmetry; apply Nat.leb_le; lia).
    reflexivity. }
  split.
  - intros H. rewrite <- Hat by lia.
    apply impute_leading_gap; [| |lia].
    + intros j Hj. apply rolling_early_missing; [exact Hj|].
      rewrite length_map. lia.
    + rewrite Hat by lia. rewrite cells_from_finite.
      destruct (Hagg (firstn k (skipn 0 rs))) as [v Hv];
        [cbn [skipn]; rewrite length_firstn; lia|].
      rewrite Hv. reflexivity.
  - intros H. apply impute_no_valid;
      [|rewrite rolling_length, shift_length, length_map; exact Hi].
    intros j Hj. rewrite rolling_length, shift_length, length_map in Hj.
    apply rolling_early_missing; [lia | rewrite length_map; exact Hj].
Qed.

(** X4.  The first rows of a lag column, which have no row that far
    back, take the sales of the first row: in a table of at least two
    rows, [lag_1] of the first row is that row's own sales.  In a table too
    short for the lag the whole column is 0. *)
Theorem early_lag_rows :
  forall (sales_raw : list SaleRecord) (oil : list OilRecord)
         (holidays : list (option Z)) (i : nat),
    let df := engineer_features sales_raw oil holidays in
    let first_sales := cell (col df "sales") 0 in
    (i < nrows df)%nat ->
    ((i < 1 < nrows df)%nat -> cell (col df "lag_1") i = first_sales) /\
    ((i < 7 < nrows df)%nat -> cell (col df "lag_7") i = first_sales) /\
    ((i < 30 < nrows df)%nat -> cell (col df "lag_30") i = first_sales) /\
    ((i < 365 < nrows df)%nat -> cell (col df "yoy_sales") i = first_sales) /\
    ((nrows df <= 1)%nat -> cell (col df "lag_1") i = Fin 0) /\
    ((nrows df <= 7)%nat -> cell (col df "lag_7") i = Fin 0) /\
    ((nrows df <= 30)%nat -> cell (col df "lag_30") i = Fin 0) /\
    ((nrows df <= 365)%nat -> cell (col df "yoy_sales") i = Fin 0).
Proof.
  intros sales_raw oil holidays i df first_sales Hi.
  unfold first_sales, df in *. rewrite nrows_engineer_features in *.
  rewrite sales_column, !col_engineer_features.
  set (daily := daily_table sales_raw oil) in *.
  change (col (derive_features daily holidays) "lag_1")
    with (shift 1 (sales_of_table daily)).
  change (col (derive_features daily holidays) "lag_7")
    with (shift 7 (sales_of_table daily)).
  change (col (derive_features daily holidays) "lag_30")
    with (shift 30 (sales_of_table daily)).
  change (col (derive_features daily holidays) "yoy_sales")
    with (shift 365 (sales_of_table daily)).
  rewrite sales_of_table_finite.
  assert (Hlen : length (map day_sales daily) = length daily) by apply length_map.
  rewrite <- Hlen in *.
  repeat split; intros H; apply early_lag; assumption.
Qed.

(** X5.  The first [k] rows of a rolling column take the value of row
    [k]: the mean, or the sample standard deviation, of the sales of rows 0
    to [k - 1], the row's own sales among them.  In a table of at most [k]
    rows the whole column is 0. *)
Theorem early_rolling_rows :
  forall (sales_raw : list SaleRecord) (oil : list OilRecord)
         (holidays : list (option Z)) (i : nat),
    let df := engineer_features sales_raw oil holidays in
    let sales := col df "sales" in
    (i < nrows df)%nat ->
    ((i < 7 < nrows df)%nat ->
     cell (col df "roll_mean_7") i = np_mean (cells_from 0 7 sales) /\
     cell (col df "roll_std_7") i = np_std 1 (cells_from 0 7 sales)) /\
    ((i < 30 < nrows df)%nat ->
     cell (col df "roll_mean_30") i = np_mean (cells_from 0 30 sales) /\
     cell (col df "roll_std_30") i = np_std 1 (cells_from 0 30 sales)) /\
    ((nrows df <= 7)%nat ->
     cell (col df "roll_mean_7") i = Fin 0 /\ cell (col df "roll_std_7") i = Fin 0) /\
    ((nrows df <= 30)%nat ->
     cell (col df "roll_mean_30") i = Fin 0 /\ cell (col df "roll_std_30") i = Fin 0).
Proof.
  intros sales_raw oil holidays i df sales Hi.
  unfold sales, df in *. rewrite nrows_engineer_features in *.
  rewrite sales_column, !col_engineer_features.
  set (daily := daily_table sales_raw oil) in *.
  change (col (derive_features daily holidays) "roll_mean_7")
    with (rolling 7 np_mean (shift 1 (sales_of_table daily))).
  change (col (derive_features daily holidays) "roll_mean_30")
    with (rolling 30 np_mean (shift 1 (sales_of_table daily))).
  change (col (derive_features daily holidays) "roll_std_7")
    with (rolling 7 (np_std 1) (shift 1 (sales_of_table daily))).
  change (col (derive_features daily holidays) "roll_std_30")
    with (rolling 30 (np_std 1) (shift 1 (sales_of_table daily))).
  rewrite sales_of_table_finite.
  assert (Hlen : length (map day_sales daily) = length daily) by apply length_map.
  rewrite <- Hlen in *.
  assert (Hm7 := early_rolling 7 i np_mean (map day_sales daily) ltac:(lia) Hi
                   (np_mean_finite_window 7 ltac:(lia))).
  assert (Hs7 := early_rolling 7 i (np_std 1) (map day_sales daily) ltac:(lia) Hi
                   (np_std_finite_window 7 ltac:(lia))).
  assert (Hm30 := early_rolling 30 i np_mean (map day_sales daily) ltac:(lia) Hi
                    (np_mean_finite_window 30 ltac:(lia))).
  assert (Hs30 := early_rolling 30 i (np_std 1) (map day_sales daily) ltac:(lia) Hi
                    (np_std_finite_window 30 ltac:(lia))).
  repeat match goal with
         | |- _ /\ _ => split
         | |- _ -> _ => intros ?
         end;
    first [ apply Hm7; assumption | apply Hs7; assumption
          | apply Hm30; assumption | apply Hs30; assumption ].
Qed.

End EarlyRows.

Lemma early_lag_rows_witness :
  (0 < nrows (engineer_features three_days_sales three_days_oil []))%nat /\
  ((0 < 1 < nrows (engineer_features three_days_sales three_days_oil []))%nat ->
   cell (col (engineer_features three_days_sales three_days_oil []) "lag_1") 0 =
   cell (col (engineer_features three_days_sales three_days_oil []) "sales") 0).
Proof.
  assert (H : (0 < nrows (engineer_features three_days_sales three_days_oil []))%nat).
  { unfold nrows. rewrite three_days_index. cbn. lia. }
  split; [exact H|].
  apply (early_lag_rows three_days_sales three_days_oil [] 0 H).
Defined.

Lemma early_rolling_rows_witness :
  (0 < nrows (engineer_features three_days_sales three_days_oil []))%nat /\
  ((nrows (engineer_features three_days_sales three_days_oil []) <= 7)%nat ->
   cell (col (engineer_features three_days_sales three_days_oil []) "roll_mean_7") 0 = Fin 0 /\
   cell (col (engineer_features three_days_sales three_days_oil []) "roll_std_7") 0 = Fin 0).
Proof.
  assert (H : (0 < nrows (engineer_features three_days_sales three_days_oil []))%nat).
  { unfold nrows. rewrite three_days_index. cbn. lia. }
  split; [exact H|].
  apply (early_rolling_rows three_days_sales three_days_oil [] 0 H).
Defined.

(* ------------------------------------------------------------------ *)
(** ** Year-over-year columns *)
(* ------------------------------------------------------------------ *)

Section YearOverYear.

Lemma zip_with_cell (f : num -> num -> num) (xs ys : list num) (i : nat) :
  (i < length xs)%nat -> (i < length ys)%nat ->
  cell (zip_with f xs ys) i = f (cell xs i) (cell ys i).
Proof.
  unfold cell, zip_with. revert ys i.
  induction xs as [|x xs IH]; intros ys i Hx Hy; [cbn in Hx; lia|].
  destruct ys as [|y ys]; [cbn in Hy; lia|].
  destruct i as [|i]; cbn [combine map nth fst snd]; [reflexivity|].
  apply IH; cbn in *; lia.
Qed.

(** X6.  From row 365 on, [yoy_sales] is the sales 365 rows earlier and
    [yoy_growth] the change since then divided by those sales plus one.
    Earlier sales of exactly -1 make the divisor zero: the growth is then
    an infinity, which the final pass does not replace. *)
Theorem year_over_year_rows :
  forall (sales_raw : list SaleRecord) (oil : list OilRecord)
         (holidays : list (option Z)) (i : nat),
    let df := engineer_features sales_raw oil holidays in
    (365 <= i < nrows df)%nat ->
    exists now before : R,
      cell (col df "sales") i = Fin now /\
      cell (col df "sales") (i - 365) = Fin before /\
      cell (col df "yoy_sales") i = Fin before /\
      (before <> -1 ->
       cell (col df "yoy_growth") i = Fin ((now - before) / (before + 1))) /\
      (before = -1 -> now > -1 -> cell (col df "yoy_growth") i = PInf) /\
      (before = -1 -> now < -1 -> cell (col df "yoy_growth") i = NInf).
Proof.
  intros sales_raw oil holidays i df Hi.
  unfold df in *. rewrite nrows_engineer_features in Hi.
  rewrite sales_column, !col_engineer_features.
  set (daily := daily_table sales_raw oil) in *.
  change (col (derive_features daily holidays) "yoy_sales")
    with (shift 365 (sales_of_table daily)).
  change (col (derive_features daily holidays) "yoy_growth")
    with (zip_with (fun s y => fdiv (fsub s y) (fadd y (Fin 1)))
            (sales_of_table daily) (shift 365 (sales_of_table daily))).
  rewrite sales_of_table_finite.
  set (rs := map day_sales daily).
  assert (Hlen : length rs = length daily) by apply length_map.
  rewrite <- Hlen in Hi.
  exists (nth i rs 0), (nth (i - 365) rs 0).
  assert (Hnow : cell (map Fin rs) i = Fin (nth i rs 0))
    by (apply cell_finite; lia).
  assert (Hbefore : cell (map Fin rs) (i - 365) = Fin (nth (i - 365) rs 0))
    by (apply cell_finite; lia).
  assert (Hshift : cell (shift 365 (map Fin rs)) i = Fin (nth (i - 365) rs 0)).
  { rewrite shift_cell by (rewrite length_map; lia). exact Hbefore. }
  assert (Hzip : cell (zip_with (fun s y => fdiv (fsub s y) (fadd y (Fin 1)))
                         (map Fin rs) (shift 365 (map Fin rs))) i =
                 fdiv (Fin (nth i rs 0 + - nth (i - 365) rs 0))
                      (Fin (nth (i - 365) rs 0 + 1))).
  { rewrite zip_with_cell by (rewrite ?shift_length, length_map; lia).
    rewrite Hnow, Hshift. reflexivity. }
  split; [exact Hnow|]. split; [exact Hbefore|].
  split; [rewrite imputed_lag_cell by lia; exact Hbefore|].
  split; [|split].
  - intros Hb. rewrite impute_valid; rewrite Hzip.
    + rewrite fdiv_fin by lra. reflexivity.
    + rewrite fdiv_fin by lra. reflexivity.
  - intros Hb Hn.
    assert (E : fdiv (Fin (nth i rs 0 + - nth (i - 365) rs 0))
                     (Fin (nth (i - 365) rs 0 + 1)) = PInf).
    { cbn [fdiv]. rewrite Reqb_true by lra. unfold scale_inf.
      rewrite Rltb_true by lra. reflexivity. }
    rewrite impute_valid; rewrite Hzip, E; reflexivity.
  - intros Hb Hn.
    assert (E : fdiv (Fin (nth i rs 0 + - nth (i - 365) rs 0))
                     (Fin (nth (i - 365) rs 0 + 1)) = NInf).
    { cbn [fdiv]. rewrite Reqb_true by lra. unfold scale_inf.
      rewrite Rltb_false by lra. rewrite Rltb_true by lra. reflexivity. }
    rewrite impute_valid; rewrite Hzip, E; reflexivity.
Qed.

End YearOverYear.

(* ------------------------------------------------------------------ *)
(** ** Calendar columns and flags *)
(* ------------------------------------------------------------------ *)

Section CalendarColumns.

Lemma finite_cells_reals (xs : list num) :
  forallb isfinite xs = true -> exists rs, xs = map Fin rs.
Proof.
  induction xs as [|x xs IH]; intros H.
  - exists []. reflexivity.
  - cbn [forallb] in H. apply andb_prop in H as [Hx Hxs].
    destruct (IH Hxs) as [rs ->].
    destruct x as [r| | |]; try discriminate.
    exists (r :: rs). reflexivity.
Qed.

(** The final pass leaves a column of finite cells as it is. *)
Lemma impute_finite_cells {A : Type} (f : A -> num) (l : list A) :
  (forall a, isfinite (f a) = true) -> impute (map f l) = map f l.
Proof.
  intros Hf.
  destruct (finite_cells_reals (map f l)) as [rs E].
  - rewrite forallb_forall. intros x Hx.
    apply in_map_iff in Hx as (a & <- & _). apply Hf.
  - rewrite E. apply impute_finite.
Qed.

Lemma of_bool_finite (b : bool) : isfinite (of_bool b) = true.
Proof. destruct b; reflexivity. Qed.

Lemma civil_from_days_era (z : Z) :
  month_of z = month_of ((z + 719468) mod 146097 - 719468) /\
  day_of z = day_of ((z + 719468) mod 146097 - 719468).
Proof.
  unfold month_of, day_of, civil_from_days. cbv zeta.
  replace ((z + 719468) mod 146097 - 719468 + 719468)%Z
    with ((z + 719468) mod 146097)%Z by lia.
  assert (E : ((z + 719468) mod 146097 / 146097 = 0)%Z).
  { apply Z.div_small. apply Z.mod_pos_bound. lia. }
  rewrite E.
  replace ((z + 719468) mod 146097 - 0 * 146097)%Z
    with ((z + 719468) mod 146097)%Z by lia.
  replace (z + 719468 - (z + 719468) / 146097 * 146097)%Z
    with ((z + 719468) mod 146097)%Z
    by (rewrite Z.mod_eq by lia; lia).
  split; reflexivity.
Qed.

Lemma holds_from_spec (p : Z -> bool) (n : nat) (start z : Z) :
  holds_from p start n = true ->
  (start <= z < start + Z.of_nat n)%Z -> p z = true.
Proof.
  revert start. induction n as [|n IH]; intros start H Hz; [lia|].
  cbn [holds_from] in H. apply andb_prop in H as [Hs Hrest].
  destruct (Z.eq_dec z start) as [-> | Hne]; [exact Hs|].
  apply (IH (start + 1)%Z Hrest). lia.
Qed.

Lemma civil_era_checked :
  holds_from civil_checked 0 (Z.to_nat 146097) = true.
Proof. vm_compute. reflexivity. Qed.

Lemma civil_checked_fields (doe : Z) :
  (0 <= doe < 146097)%Z ->
  (1 <= month_of (doe - 719468) <= 12)%Z /\
  (1 <= day_of (doe - 719468) <= 31)%Z /\
  days_from_civil (year_of (doe - 719468)) (month_of (doe - 719468))
                  (day_of (doe - 719468)) = (doe - 719468)%Z.
Proof.
  intros Hdoe.
  assert (H : civil_checked doe = true).
  { apply (holds_from_spec _ _ 0%Z doe civil_era_checked). lia. }
  unfold civil_checked in H. cbv zeta in H.
  unfold year_of, month_of, day_of.
  destruct (civil_from_days (doe - 719468)) as [[y m] d].
  cbn [fst snd].
  apply andb_prop in H as [H H5]. apply andb_prop in H as [H H4].
  apply andb_prop in H as [H H3]. apply andb_prop in H as [H1 H2].
  apply Z.leb_le in H1, H2, H3, H4. apply Z.eqb_eq in H5.
  repeat split; first [lia | exact H5].
Qed.

Lemma calendar_ranges (z : Z) :
  (1 <= month_of z <= 12 /\ 1 <= day_of z <= 31)%Z.
Proof.
  destruct (civil_from_days_era z) as [-> ->].
  assert (Hdoe : (0 <= (z + 719468) mod 146097 < 146097)%Z)
    by (apply Z.mod_pos_bound; lia).
  destruct (civil_checked_fields _ Hdoe) as (Hm & Hd & _).
  split; assumption.
Qed.

Lemma dropna_dates_in (d : Z) (ds : list (option Z)) :
  In d (dropna_dates ds) <-> In (Some d) ds.
Proof.
  induction ds as [|[x|] ds IH]; cbn [dropna_dates In].
  - tauto.
  - rewrite IH. split; intros [H|H]; auto; left; congruence.
  - rewrite IH. split; [auto | intros [H|H]; [discriminate | exact H]].
Qed.

Lemma civil_from_days_year (z : Z) :
  year_of z = (year_of ((z + 719468) mod 146097 - 719468)
               + 400 * ((z + 719468) / 146097))%Z.
Proof.
  unfold year_of, civil_from_days. cbv zeta.
  replace ((z + 719468) mod 146097 - 719468 + 719468)%Z
    with ((z + 719468) mod 146097)%Z by lia.
  assert (E : ((z + 719468) mod 146097 / 146097 = 0)%Z).
  { apply Z.div_small. apply Z.mod_pos_bound. lia. }
  rewrite E.
  replace ((z + 719468) mod 146097 - 0 * 146097)%Z
    with ((z + 719468) mod 146097)%Z by lia.
  replace (z + 719468 - (z + 719468) / 146097 * 146097)%Z
    with ((z + 719468) mod 146097)%Z
    by (rewrite Z.mod_eq by lia; lia).
  cbn [fst snd].
  match goal with |- context [if ?c then _ else _] => destruct c end; lia.
Qed.

(** Moving a date by 400 years moves its day number by 146097 days. *)
Lemma days_from_civil_era (y m d e : Z) :
  days_from_civil (y + 400 * e) m d = (days_from_civil y m d + 146097 * e)%Z.
Proof.
  unfold days_from_civil. cbv zeta.
  set (y' := (if (m <=? 2)%Z then y - 1 else y)%Z).
  replace (if (m <=? 2)%Z then y + 400 * e - 1 else y + 400 * e)%Z
    with (y' + e * 400)%Z by (unfold y'; destruct (m <=? 2)%Z; lia).
  rewrite Z.div_add by lia.
  replace (y' + e * 400 - (y' / 400 + e) * 400)%Z
    with (y' - y' / 400 * 400)%Z by lia.
  lia.
Qed.

(** The day number of the year, month and day of a day number is that
    day number. *)
Lemma days_from_civil_of_civil (z : Z) :
  days_from_civil (year_of z) (month_of z) (day_of z) = z.
Proof.
  rewrite civil_from_days_year.
  destruct (civil_from_days_era z) as [-> ->].
  rewrite days_from_civil_era.
  assert (Hdoe : (0 <= (z + 719468) mod 146097 < 146097)%Z)
    by (apply Z.mod_pos_bound; lia).
  destruct (civil_checked_fields _ Hdoe) as (_ & _ & ->).
  rewrite Z.mod_eq by lia. lia.
Qed.

(** X7.  The calendar columns of a row hold the fields of its date and
    come out of the final pass unchanged: [year], [month] and
    [day_of_month] are the year, month (1 to 12) and day (1 to 31) of the
    civil date whose day number is the row's date, [day_of_week] is its day
    of the week (0 to 6, Monday 0), [quarter] is the quarter of the month,
    [is_weekend] is 1 exactly on days 5 and 6, and [is_holiday] is 1
    exactly on the rows whose date is listed in the holiday calendar. *)
Theorem calendar_columns :
  forall (sales_raw : list SaleRecord) (oil : list OilRecord)
         (holidays : list (option Z)) (i : nat),
    let df := engineer_features sales_raw oil holidays in
    let d := nth i (index df) 0%Z in
    (i < nrows df)%nat ->
    cell (col df "year") i = of_Z (year_of d) /\
    cell (col df "month") i = of_Z (month_of d) /\
    cell (col df "day_of_month") i = of_Z (day_of d) /\
    days_from_civil (year_of d) (month_of d) (day_of d) = d /\
    (1 <= month_of d <= 12)%Z /\ (1 <= day_of d <= 31)%Z /\
    cell (col df "day_of_week") i = of_Z ((d + 3) mod 7) /\
    (0 <= (d + 3) mod 7 <= 6)%Z /\
    cell (col df "quarter") i = of_Z ((month_of d - 1) / 3 + 1) /\
    (1 <= (month_of d - 1) / 3 + 1 <= 4)%Z /\
    cell (col df "is_weekend") i = (if (5 <=? (d + 3) mod 7)%Z then Fin 1 else Fin 0) /\
    (In (Some d) holidays -> cell (col df "is_holiday") i = Fin 1) /\
    (~ In (Some d) holidays -> cell (col df "is_holiday") i = Fin 0).
Proof.
  intros sales_raw oil holidays i df d Hi.
  unfold d, df in *. unfold nrows in Hi.
  rewrite index_engineer_features in *.
  rewrite !col_engineer_features.
  set (daily := daily_table sales_raw oil) in *.
  set (idx := map day daily) in *.
  set (day_i := nth i idx 0%Z).
  change (col (derive_features daily holidays) "year")
    with (map (fun d => of_Z (year_of d)) idx).
  change (col (derive_features daily holidays) "month")
    with (map (fun d => of_Z (month_of d)) idx).
  change (col (derive_features daily holidays) "day_of_month")
    with (map (fun d => of_Z (day_of d)) idx).
  change (col (derive_features daily holidays) "day_of_week")
    with (map (fun d => of_Z (dayofweek_of d)) idx).
  change (col (derive_features daily holidays) "quarter")
    with (map (fun d => of_Z (quarter_of d)) idx).
  change (col (derive_features daily holidays) "is_weekend")
    with (map (fun d => of_bool (5 <=? dayofweek_of d)%Z) idx).
  change (col (derive_features daily holidays) "is_holiday")
    with (map (fun d => of_bool (isin d (dropna_dates holidays))) idx).
  rewrite !impute_finite_cells by (intros a; first [reflexivity | apply of_bool_finite]).
  unfold cell.
  rewrite !(nth_map_in _ idx i 0%Z) by exact Hi.
  fold day_i.
  destruct (calendar_ranges day_i) as [Hm Hd].
  assert (Hw : (0 <= (day_i + 3) mod 7 < 7)%Z) by (apply Z.mod_pos_bound; lia).
  assert (Hq : (0 <= (month_of day_i - 1) / 3 < 4)%Z).
  { split; [apply Z.div_pos; lia | apply Z.div_lt_upper_bound; lia]. }
  assert (Hrt := days_from_civil_of_civil day_i).
  unfold dayofweek_of, quarter_of.
  repeat match goal with |- _ /\ _ => split end;
    try reflexivity; try exact Hrt; try lia.
  - intros Hin. apply dropna_dates_in, isin_In in Hin. rewrite Hin. reflexivity.
  - intros Hin.
    destruct (isin day_i (dropna_dates holidays)) eqn:E; [|reflexivity].
    apply isin_In, dropna_dates_in in E. contradiction.
Qed.

End CalendarColumns.

Lemma calendar_columns_witness :
  (1 < nrows (engineer_features three_days_sales three_days_oil []))%nat /\
  cell (col (engineer_features three_days_sales three_days_oil []) "month") 1 =
    of_Z (month_of (nth 1 (index (engineer_features three_days_sales three_days_oil [])) 0%Z)) /\
  cell (col (engineer_features three_days_sales three_days_oil []) "day_of_month") 1 =
    of_Z (day_of (nth 1 (index (engineer_features three_days_sales three_days_oil [])) 0%Z)).
Proof.
  assert (H : (1 < nrows (engineer_features three_days_sales three_days_oil []))%nat).
  { unfold nrows. rewrite three_days_index. cbn. lia. }
  split; [exact H|].
  destruct (calendar_columns three_days_sales three_days_oil [] 1 H)
    as (_ & Hmonth & Hday & _).
  split; [exact Hmonth | exact Hday].
Defined.

Lemma year_over_year_rows_witness :
  (365 <= 365 < nrows (engineer_features leap_year_sales [] []))%nat /\
  exists now before : R,
    cell (col (engineer_features leap_year_sales [] []) "sales") 365 = Fin now /\
    cell (col (engineer_features leap_year_sales [] []) "sales") (365 - 365) = Fin before /\
    cell (col (engineer_features leap_year_sales [] []) "yoy_sales") 365 = Fin before /\
    (before <> -1 ->
     cell (col (engineer_features leap_year_sales [] []) "yoy_growth") 365 =
     Fin ((now - before) / (before + 1))) /\
    (before = -1 -> now > -1 ->
     cell (col (engineer_features leap_year_sales [] []) "yoy_growth") 365 = PInf) /\
    (before = -1 -> now < -1 ->
     cell (col (engineer_features leap_year_sales [] []) "yoy_growth") 365 = NInf).
Proof.
  assert (H : (365 <= 365 < nrows (engineer_features leap_year_sales [] []))%nat).
  { rewrite nrows_engineer_features, leap_year_rows. lia. }
  split; [exact H|].
  apply (year_over_year_rows leap_year_sales [] [] 365 H).
Defined.

(* ------------------------------------------------------------------ *)
(** ** The final pass, cell by cell *)
(* ------------------------------------------------------------------ *)

Section FinalPass.

Lemma bfill_keeps (P : num -> Prop) (xs : list num) :
  P NaN -> Forall P xs -> Forall P (bfill xs).
Proof.
  intros Hn H. induction H as [|x xs Hx Hxs IH]; [constructor|].
  cbn [bfill]. constructor; [|exact IH].
  destruct (isnan x); [|exact Hx].
  destruct (bfill xs) as [|y ys]; [exact Hn|]. inversion IH; assumption.
Qed.

Lemma ffill_from_keeps (P : num -> Prop) (last : num) (xs : list num) :
  P last -> Forall P xs -> Forall P (ffill_from last xs).
Proof.
  intros Hl H. revert last Hl.
  induction H as [|x xs Hx Hxs IH]; intros last Hl; [constructor|].
  cbn [ffill_from].
  assert (Hx' : P (if isnan x then last else x)) by (destruct (isnan x); assumption).
  constructor; [exact Hx' | apply IH; exact Hx'].
Qed.

(** The final pass turns a column without infinities into finite cells. *)
Lemma impute_no_inf (xs : list num) :
  Forall (fun x => no_inf x = true) xs ->
  Forall (fun x => isfinite x = true) (impute xs).
Proof.
  intros H. unfold impute, ffill, fillna.
  apply (bfill_keeps (fun x => no_inf x = true) xs eq_refl) in H.
  apply (ffill_from_keeps (fun x => no_inf x = true) NaN _ eq_refl) in H.
  rewrite Forall_forall in *. intros y Hy.
  apply in_map_iff in Hy as (x & <- & Hx). apply H in Hx.
  destruct x; try reflexivity; discriminate.
Qed.

Lemma fillna_cell (d : num) (xs : list num) (i : nat) :
  (i < length xs)%nat ->
  cell (fillna d xs) i = if isnan (cell xs i) then d else cell xs i.
Proof.
  intros H. unfold cell, fillna.
  apply (nth_map_in (fun x => if isnan x then d else x)). exact H.
Qed.

(** Once a valid cell has been met, what was carried before it is
    forgotten. *)
Lemma carry_after_first_valid (xs : list num) (n : nat) (a : num) :
  isnan (first_valid (skipn n xs)) = true ->
  isnan (first_valid xs) = false ->
  fold_left carry (firstn n xs) a = fold_left carry (firstn n xs) (first_valid xs).
Proof.
  revert n a. induction xs as [|y ys IH]; intros n a Hnext Hfirst.
  - discriminate.
  - destruct n as [|n].
    + cbn [skipn] in Hnext. rewrite Hnext in Hfirst. discriminate.
    + cbn [skipn] in Hnext. cbn [firstn fold_left].
      rewrite first_valid_cons in Hfirst |- *.
      assert (Hc : forall b, carry b y = if isnan y then b else y) by reflexivity.
      rewrite !Hc. destruct (isnan y) eqn:Ey; [|reflexivity].
      apply IH; assumption.
Qed.

(** Forward fill over a backward-filled column: the next valid cell of
    the column where there is one, what was carried so far elsewhere. *)
Lemma ffill_over_bfill (v : list num) (a : num) (i : nat) :
  (i < length v)%nat ->
  fold_left carry (firstn (S i) (bfill v)) a =
  if isnan (first_valid (skipn i v))
  then fold_left carry (firstn i v) a
  else first_valid (skipn i v).
Proof.
  revert a i. induction v as [|x rest IH]; intros a i Hi; [cbn in Hi; lia|].
  assert (Hhead : bfill (x :: rest) = first_valid (x :: rest) :: bfill rest).
  { assert (H0 := bfill_cell (x :: rest) 0). unfold cell in H0.
    cbn [bfill nth skipn] in H0. cbn [bfill]. rewrite H0. reflexivity. }
  rewrite Hhead. destruct i as [|i].
  - cbn [firstn fold_left skipn]. unfold carry.
    destruct (isnan (first_valid (x :: rest))); reflexivity.
  - change (firstn (S (S i)) (first_valid (x :: rest) :: bfill rest))
      with (first_valid (x :: rest) :: firstn (S i) (bfill rest)).
    cbn [fold_left skipn]. rewrite IH by (cbn in Hi; lia).
    destruct (isnan (first_valid (skipn i rest))) eqn:Hnext; [|reflexivity].
    change (firstn (S i) (x :: rest)) with (x :: firstn i rest).
    cbn [fold_left]. rewrite first_valid_cons.
    assert (Hc : forall b c, carry b c = if isnan c then b else c) by reflexivity.
    rewrite (Hc a x).
    destruct (isnan x) eqn:Ex; [|rewrite Hc, Ex; reflexivity].
    rewrite Hc.
    destruct (isnan (first_valid rest)) eqn:Ef; [reflexivity|].
    symmetry. apply carry_after_first_valid; assumption.
Qed.

(** The value of a cell after the three fills. *)
Lemma impute_cell (v : list num) (i : nat) :
  (i < length v)%nat ->
  cell (impute v) i =
  if notna (first_valid (skipn i v)) then first_valid (skipn i v)
  else if notna (last_valid (firstn i v)) then last_valid (firstn i v)
  else Fin 0.
Proof.
  intros Hi. unfold impute, ffill.
  rewrite fillna_cell by (rewrite ffill_from_length, bfill_length; exact Hi).
  rewrite ffill_from_cell by (rewrite bfill_length; exact Hi).
  rewrite ffill_over_bfill by exact Hi.
  rewrite last_valid_fold. unfold notna.
  destruct (isnan (first_valid (skipn i v))) eqn:Hnext; cbn [negb].
  - destruct (isnan (fold_left carry (firstn i v) NaN)); reflexivity.
  - rewrite Hnext. reflexivity.
Qed.

(** C5.  The table returned is the table of all derived columns after one
    pass of [bfill], [ffill] and zero fill, in that order, over every
    column.  The pass keeps the index and the columns, so no row is
    dropped.  Cell by cell: a cell takes the first valid cell of its derived
    column from its own row on (itself, when it is valid); when there is
    none it takes the last valid cell above it, and when the column has no
    valid cell it is 0.  So backward fill wins over forward fill, no cell
    is missing afterwards, and a cell is finite whenever the derived column
    holds no infinity. *)
Theorem final_imputation_pass :
  forall (sales_raw : list SaleRecord) (oil : list OilRecord)
         (holidays : list (option Z)),
    let derived := derive_features (daily_table sales_raw oil) holidays in
    let df := engineer_features sales_raw oil holidays in
    df = df_fillna (Fin 0) (df_ffill (df_bfill derived)) /\
    column_names derived = table_columns /\
    column_names df = table_columns /\
    index df = map day (daily_table sales_raw oil) /\
    nrows df = length (daily_table sales_raw oil) /\
    forall name, In name table_columns ->
      col df name = fillna (Fin 0) (ffill (bfill (col derived name))) /\
      length (col df name) = nrows df /\
      length (col derived name) = nrows df /\
      forall i, (i < nrows df)%nat ->
        let next := first_valid (skipn i (col derived name)) in
        let prev := last_valid (firstn i (col derived name)) in
        cell (col df name) i =
          (if notna next then next else if notna prev then prev else Fin 0) /\
        (isnan (cell (col derived name) i) = false ->
         cell (col df name) i = cell (col derived name) i) /\
        isnan (cell (col df name) i) = false /\
        (Forall (fun x => no_inf x = true) (col derived name) ->
         isfinite (cell (col df name) i) = true).
Proof.
  intros sales_raw oil holidays derived df.
  split; [reflexivity|]. split; [reflexivity|]. split; [reflexivity|].
  split; [reflexivity|]. split; [apply nrows_engineer_features|].
  intros name Hin.
  assert (Hcol : col df name = impute (col derived name))
    by apply col_engineer_features.
  destruct (feature_column_complete sales_raw oil holidays name Hin) as [Hlen Hdef].
  fold df in Hlen, Hdef.
  assert (Hlen' : length (col derived name) = nrows df).
  { rewrite <- Hlen, Hcol, impute_length. reflexivity. }
  split; [exact Hcol|]. split; [exact Hlen|]. split; [exact Hlen'|].
  intros i Hi next prev.
  assert (Hin' : In (cell (col df name) i) (col df name)).
  { unfold cell. apply nth_In. rewrite Hlen. exact Hi. }
  split; [|split; [|split]].
  - rewrite Hcol. apply impute_cell. rewrite Hlen'. exact Hi.
  - intros Hvalid. rewrite Hcol. apply impute_valid. exact Hvalid.
  - rewrite Forall_forall in Hdef. apply Hdef. exact Hin'.
  - intros Hno. apply impute_no_inf in Hno. rewrite <- Hcol in Hno.
    rewrite Forall_forall in Hno. apply Hno. exact Hin'.
Qed.

End FinalPass.

(* ------------------------------------------------------------------ *)
(** ** Splitting at any date *)
(* ------------------------------------------------------------------ *)

Section SplitAnyDate.

Lemma count_while_le_length (p : Z -> bool) (idx : list Z) :
  (count_while p idx <= length idx)%nat.
Proof.
  induction idx as [|x idx IH]; cbn [count_while length]; [lia|].
  destruct (p x); lia.
Qed.

Lemma count_while_none_below (d : Z) (idx : list Z) :
  Forall (fun y => (d <= y)%Z) idx -> count_while (fun x => (x <? d)%Z) idx = 0%nat.
Proof.
  intros H. destruct H as [|y idx Hy _]; [reflexivity|].
  cbn [count_while]. replace (y <? d)%Z with false by (symmetry; apply Z.ltb_ge; lia).
  reflexivity.
Qed.

Lemma filter_none_above (d : Z) (idx : list Z) :
  Forall (fun y => (d < y)%Z) idx -> filter (fun x => (x =? d)%Z) idx = [].
Proof.
  induction 1 as [|y idx Hy _ IH]; [reflexivity|].
  cbn [filter]. replace (y =? d)%Z with false by (symmetry; apply Z.eqb_neq; lia).
  exact IH.
Qed.

(** On an ascending index the two insertion points of a date are as far
    apart as the index has entries of that date. *)
Lemma searchsorted_gap (d : Z) (idx : list Z) :
  is_monotonic_increasing idx = true ->
  searchsorted_right idx d = (searchsorted_left idx d + rows_dated d idx)%nat.
Proof.
  unfold searchsorted_right, searchsorted_left, rows_dated.
  induction idx as [|x idx IH]; intros H; [reflexivity|].
  destruct (monotonic_head_le x idx H) as [Hmono Hall].
  specialize (IH Hmono). cbn [count_while filter].
  destruct (Z.compare_spec x d) as [Heq | Hlt | Hgt].
  - subst x. rewrite Z.leb_refl, Z.ltb_irrefl, Z.eqb_refl. cbn [length].
    rewrite IH, (count_while_none_below d idx Hall). lia.
  - replace (x <=? d)%Z with true by (symmetry; apply Z.leb_le; lia).
    replace (x <? d)%Z with true by (symmetry; apply Z.ltb_lt; lia).
    replace (x =? d)%Z with false by (symmetry; apply Z.eqb_neq; lia).
    rewrite IH. lia.
  - replace (x <=? d)%Z with false by (symmetry; apply Z.leb_gt; lia).
    replace (x <? d)%Z with false by (symmetry; apply Z.ltb_ge; lia).
    replace (x =? d)%Z with false by (symmetry; apply Z.eqb_neq; lia).
    rewrite filter_none_above; [reflexivity|].
    eapply Forall_impl; [|exact Hall]. cbn. intros z Hz. lia.
Qed.

Lemma rows_dated_absent (d : Z) (idx : list Z) :
  ~ In d idx -> rows_dated d idx = 0%nat.
Proof.
  unfold rows_dated. induction idx as [|x idx IH]; intros H; [reflexivity|].
  cbn [filter]. destruct (Z.eqb_spec x d) as [-> | Hne].
  - exfalso. apply H. left. reflexivity.
  - apply IH. intros Hin. apply H. right. exact Hin.
Qed.

Lemma nrows_take_rows (positions : list nat) (df : DataFrame) :
  nrows (take_rows positions df) = length positions.
Proof. unfold nrows. cbn [take_rows index]. apply length_map. Qed.

(** X9.  On a frame in date order the split returns for every cutoff date,
    in the index or not.  The rows of the cutoff date are the only rows in
    both parts: the parts together have as many rows as the frame plus the
    rows of that date, and for a date that is not in the index [train]
    followed by [test] is the frame.  On a frame that is not in date order
    the split raises [KeyError] whatever the date. *)
Theorem split_at_any_date :
  forall (df : DataFrame) (split_date : Z),
    (is_monotonic_increasing (index df) = true ->
     exists train test,
       split_train_test df split_date = Return (train, test) /\
       rows train = filter (fun r => (fst r <=? split_date)%Z) (rows df) /\
       rows test = filter (fun r => (split_date <=? fst r)%Z) (rows df) /\
       (nrows train + nrows test = nrows df + rows_dated split_date (index df))%nat /\
       (~ In split_date (index df) -> rows train ++ rows test = rows df)) /\
    (is_monotonic_increasing (index df) = false ->
     split_train_test df split_date = Raise (KeyError non_monotonic_msg)).
Proof.
  intros df split_date. split; intros Hmono.
  - unfold split_train_test, loc_until, loc_from. rewrite Hmono. cbn [bind].
    set (l := searchsorted_left (index df) split_date).
    set (r := searchsorted_right (index df) split_date).
    assert (Hgap : r = (l + rows_dated split_date (index df))%nat)
      by (apply searchsorted_gap; exact Hmono).
    assert (Hr : (r <= length (index df))%nat) by apply count_while_le_length.
    eexists. eexists. split; [reflexivity|].
    split; [|split; [|split]].
    + rewrite rows_take_rows, (filter_rows_positions (fun x => (x <=? split_date)%Z)).
      rewrite searchsorted_right_positions by exact Hmono. reflexivity.
    + rewrite rows_take_rows, (filter_rows_positions (fun x => (split_date <=? x)%Z)).
      rewrite searchsorted_left_positions by exact Hmono. reflexivity.
    + rewrite !nrows_take_rows, !length_seq. unfold nrows. lia.
    + intros Habsent. rewrite !rows_take_rows.
      rewrite (rows_dated_absent _ _ Habsent), Nat.add_0_r in Hgap.
      rewrite <- Hgap, <- map_app, <- seq_app.
      unfold rows, nrows. replace (r + (length (index df) - r))%nat
        with (length (index df)) by lia.
      reflexivity.
  - unfold split_train_test, loc_until. rewrite Hmono. reflexivity.
Qed.

End SplitAnyDate.

(* ------------------------------------------------------------------ *)
(** ** The baseline predictor: failures and provenance *)
(* ------------------------------------------------------------------ *)

Section BaselineProvenance.

Lemma last_in_list (x : num) (xs : list num) : In (last (x :: xs) NaN) (x :: xs).
Proof.
  revert x. induction xs as [|y ys IH]; intros x; [left; reflexivity|].
  right. apply (IH y).
Qed.

Lemma in_skipn_in (m : nat) (xs : list num) (x : num) : In x (skipn m xs) -> In x xs.
Proof.
  intros H. rewrite <- (firstn_skipn m xs). apply in_or_app. right. exact H.
Qed.

Lemma in_firstn_in (m : nat) (xs : list num) (x : num) : In x (firstn m xs) -> In x xs.
Proof.
  intros H. rewrite <- (firstn_skipn m xs). apply in_or_app. left. exact H.
Qed.

Lemma last_cells_in (k : nat) (xs : list num) (x : num) :
  In x (last_cells k xs) -> In x xs.
Proof.
  unfold last_cells. destruct (k =? 0)%nat; [auto|]. apply in_skipn_in.
Qed.

(** Whatever the predictor returns has the requested length and holds
    cells of the history only. *)
Lemma baseline_pred_from_history (X_train : DataFrame) (history pred : list num)
  (test_size : nat) :
  getcol "lag_1" X_train = Return history ->
  baseline_pred X_train test_size = Return pred ->
  length pred = test_size /\ Forall (fun x => In x history) pred.
Proof.
  intros Hcol. unfold baseline_pred. rewrite Hcol. cbn [bind].
  destruct (Nat.ltb_spec (length (last_cells test_size history)) test_size)
    as [Hlt | Hge].
  - unfold np_pad_edge.
    destruct (last_cells test_size history) as [|x xs] eqn:E.
    + destruct (Nat.eqb_spec (Nat.max 0 (test_size - length (@nil num))) 0)
        as [H0 | H0]; cbn [bind]; [|discriminate].
      cbn [length] in *. lia.
    + cbn [bind]. intros [= <-].
      match goal with
      | |- context [firstn test_size ?l] =>
          change l with ((x :: xs) ++ repeat (last (x :: xs) NaN)
                                        (test_size - length (x :: xs)))
      end.
      split.
      * rewrite length_firstn, length_app, repeat_length. lia.
      * rewrite Forall_forall. intros y Hy. apply in_firstn_in in Hy.
        apply (last_cells_in test_size). rewrite E.
        apply in_app_or in Hy as [Hy | Hy]; [exact Hy|].
        apply repeat_spec in Hy. subst y. apply last_in_list.
  - cbn [bind]. intros [= <-]. split.
    + rewrite length_firstn. lia.
    + rewrite Forall_forall. intros y Hy. apply in_firstn_in in Hy.
      apply (last_cells_in test_size). exact Hy.
Qed.

Lemma baseline_pred_returns (X_train : DataFrame) (history : list num)
  (test_size : nat) :
  getcol "lag_1" X_train = Return history -> history <> [] ->
  exists pred, baseline_pred X_train test_size = Return pred.
Proof.
  intros Hcol Hne. unfold baseline_pred. rewrite Hcol. cbn [bind].
  destruct (Nat.ltb_spec (length (last_cells test_size history)) test_size)
    as [Hlt | Hge]; [|cbn [bind]; eauto].
  unfold np_pad_edge.
  destruct (last_cells test_size history) as [|x xs] eqn:E; [|cbn [bind]; eauto].
  exfalso. cbn [length] in Hlt.
  rewrite last_cells_short in E; [contradiction | | exact Hlt].
  assert (H := last_cells_length test_size history). rewrite E in H.
  cbn [length] in H. destruct (Nat.eqb_spec test_size 0); lia.
Qed.

(** X10.  The baseline predictor raises [KeyError] on a frame without a
    [lag_1] column and [ValueError] on an empty history with a positive
    horizon (numpy cannot pad an empty array by its edge); with horizon 0
    an empty history gives an empty array.  Whatever it returns has the
    requested length and holds cells of the [lag_1] history only. *)
Theorem baseline_pred_edges :
  forall (X_train : DataFrame) (test_size : nat),
    (lookup "lag_1" (columns X_train) = None ->
     baseline_pred X_train test_size = Raise (KeyError "lag_1")) /\
    (getcol "lag_1" X_train = Return [] ->
     baseline_pred X_train test_size =
     if (test_size =? 0)%nat then Return []
     else Raise (ValueError "can't extend empty axis 0 using modes other than 'constant' or 'empty'")) /\
    (forall pred, baseline_pred X_train test_size = Return pred ->
       length pred = test_size /\
       Forall (fun x => In x (col X_train "lag_1")) pred).
Proof.
  intros X k. split; [|split].
  - intros H. unfold baseline_pred, getcol. rewrite H. reflexivity.
  - intros H. unfold baseline_pred. rewrite H. cbn [bind].
    unfold last_cells. cbn [length skipn]. rewrite Tauto.if_same.
    cbn [length].
    destruct k as [|k]; [reflexivity|].
    replace (0 <? S k)%nat with true by reflexivity.
    unfold np_pad_edge.
    replace (Nat.max 0 (S k - 0) =? 0)%nat with false by reflexivity.
    reflexivity.
  - intros pred H.
    destruct (getcol "lag_1" X) as [history | e] eqn:Hcol.
    + rewrite (getcol_col _ _ _ Hcol).
      apply (baseline_pred_from_history X history pred k Hcol H).
    + unfold baseline_pred in H. rewrite Hcol in H. discriminate.
Qed.

Lemma positions_where_in (p : Z -> bool) (idx : list Z) (i : nat) :
  In i (positions_where p idx) <-> (i < length idx)%nat /\ p (nth i idx 0%Z) = true.
Proof.
  unfold positions_where. rewrite filter_In, in_seq. split; intros [H1 H2]; split;
    try assumption; lia.
Qed.

Lemma col_take_rows (positions : list nat) (name : string) (df : DataFrame) :
  In name (column_names df) ->
  col (take_rows positions df) name = map (cell (col df name)) positions.
Proof.
  intros H. destruct (in_names_lookup name (columns df) H) as [v Hv].
  unfold col. rewrite lookup_take_rows, Hv. reflexivity.
Qed.

(** Row [i] of [lag_1] holds the sales of the row before, of the first row
    in row 0, or 0 in a table of one row. *)
Lemma lag_1_cell sales_raw oil holidays (i : nat) :
  let df := engineer_features sales_raw oil holidays in
  (i < nrows df)%nat ->
  cell (col df "lag_1") i =
  if (nrows df =? 1)%nat then Fin 0 else cell (col df "sales") (i - 1).
Proof.
  intros df Hi. unfold df in *. rewrite nrows_engineer_features in *.
  rewrite sales_column, col_engineer_features.
  set (daily := daily_table sales_raw oil) in *.
  change (col (derive_features daily holidays) "lag_1")
    with (shift 1 (sales_of_table daily)).
  rewrite sales_of_table_finite.
  assert (Hlen : length (map day_sales daily) = length daily) by apply length_map.
  rewrite <- Hlen in *.
  destruct (early_lag 1 i (map day_sales daily) Hi) as [Hearly Hshort].
  destruct (Nat.eqb_spec (length (map day_sales daily)) 1) as [H1 | H1].
  - apply Hshort. lia.
  - destruct i as [|i].
    + apply Hearly. lia.
    + apply imputed_lag_cell. lia.
Qed.

(** X11.  On the dashboard's frames the baseline prediction reads no sales
    of the test period: for a cutoff date of the feature table, it returns
    one value per test row, and every value is the sales total of a row
    dated at most the cutoff (or 0, when the table has a single row). *)
Theorem baseline_reads_train_sales :
  forall (sales_raw : list SaleRecord) (oil : list OilRecord)
         (holidays : list (option Z)) (split_date : Z),
    let df := engineer_features sales_raw oil holidays in
    In split_date (index df) ->
    exists X_train X_test pred,
      dashboard_frames df split_date = Return (X_train, X_test) /\
      baseline_pred X_train (nrows X_test) = Return pred /\
      length pred = nrows X_test /\
      Forall (fun x =>
                (exists i, (i < nrows df)%nat /\
                           (nth i (index df) 0 <= split_date)%Z /\
                           x = cell (col df "sales") i) \/
                (nrows df = 1%nat /\ x = Fin 0))
             pred.
Proof.
  intros sales_raw oil holidays split_date df Hin.
  assert (Hmono : is_monotonic_increasing (index df) = true)
    by apply feature_table_ascending.
  assert (Hnames : column_names df = table_columns) by reflexivity.
  set (r := searchsorted_right (index df) split_date).
  set (l := searchsorted_left (index df) split_date).
  set (train := take_rows (seq 0 r) df).
  set (test := take_rows (seq l (length (index df) - l)) df).
  assert (Hsplit : split_train_test df split_date = Return (train, test)).
  { unfold split_train_test, loc_until, loc_from. rewrite Hmono. reflexivity. }
  assert (Hsel : forall fr, column_names fr = column_names df ->
                 forall n, In n get_feature_columns -> In n (column_names fr)).
  { intros fr Hfr n Hn. rewrite Hfr, Hnames. apply feature_columns_in_table. exact Hn. }
  assert (Hcn : forall ps, column_names (take_rows ps df) = column_names df).
  { intros ps. unfold column_names, take_rows. cbn [columns].
    rewrite map_map. reflexivity. }
  destruct (select_columns_present get_feature_columns train (Hsel train (Hcn _)))
    as (c1 & Hc1 & Hf1 & Hl1).
  destruct (select_columns_present get_feature_columns test (Hsel test (Hcn _)))
    as (c2 & Hc2 & Hf2 & Hl2).
  assert (Hframes : dashboard_frames df split_date =
                    Return (mkDF (index train) c1, mkDF (index test) c2)).
  { unfold dashboard_frames, select. rewrite Hsplit. cbn [bind fst snd].
    rewrite Hc1. cbn [bind]. rewrite Hc2. reflexivity. }
  assert (Hpos : forall i, In i (seq 0 r) <->
                           (i < length (index df))%nat /\
                           (nth i (index df) 0 <=? split_date)%Z = true).
  { intros i. unfold r. rewrite <- searchsorted_right_positions by exact Hmono.
    apply (positions_where_in (fun x => (x <=? split_date)%Z)). }
  assert (Hhist : getcol "lag_1" (mkDF (index train) c1) =
                  Return (map (cell (col df "lag_1")) (seq 0 r))).
  { apply getcol_lookup. cbn [columns]. rewrite Hl1 by (cbn; auto 20).
    unfold train. rewrite col_take_rows; [reflexivity|].
    rewrite Hnames. cbn; auto 20. }
  assert (Hne : map (cell (col df "lag_1")) (seq 0 r) <> []).
  { apply (In_nth _ _ 0%Z) in Hin as (i & Hi & Hd).
    assert (Hir : In i (seq 0 r)).
    { apply Hpos. split; [exact Hi|]. rewrite Hd. apply Z.leb_refl. }
    intros E. apply (in_map (cell (col df "lag_1"))) in Hir.
    rewrite E in Hir. contradiction. }
  destruct (baseline_pred_returns _ _ (nrows (mkDF (index test) c2)) Hhist Hne)
    as [pred Hpred].
  destruct (baseline_pred_from_history _ _ _ _ Hhist Hpred) as [Hlen Hcells].
  exists (mkDF (index train) c1), (mkDF (index test) c2), pred.
  split; [exact Hframes|]. split; [exact Hpred|]. split; [exact Hlen|].
  eapply Forall_impl; [|exact Hcells]. cbn beta. intros x Hx.
  apply in_map_iff in Hx as (i & <- & Hi).
  apply Hpos in Hi as [Hi Hdate]. apply Z.leb_le in Hdate.
  fold (nrows df) in Hi.
  pose proof (lag_1_cell sales_raw oil holidays i Hi) as Hlag.
  cbv zeta in Hlag.
  change (engineer_features sales_raw oil holidays) with df in Hlag.
  rewrite Hlag.
  destruct (Nat.eqb_spec (nrows df) 1) as [H1 | H1]; [right; split; auto|].
  left. exists (i - 1)%nat. split; [lia|]. split; [|reflexivity].
  destruct i as [|i]; [exact Hdate|].
  replace (S i - 1)%nat with i by lia.
  assert (Hi' : In i (seq 0 r)).
  { apply in_seq. assert (In (S i) (seq 0 r)) as HS.
    { apply Hpos. split; [exact Hi | apply Z.leb_le; exact Hdate]. }
    apply in_seq in HS. lia. }
  apply Hpos in Hi' as [_ Hd']. apply Z.leb_le. exact Hd'.
Qed.

End BaselineProvenance.

Lemma baseline_reads_train_sales_witness :
  In 17168%Z (index (engineer_features three_days_sales three_days_oil [])) /\
  exists X_train X_test pred,
    dashboard_frames (engineer_features three_days_sales three_days_oil []) 17168 =
      Return (X_train, X_test) /\
    baseline_pred X_train (nrows X_test) = Return pred /\
    length pred = nrows X_test /\
    Forall (fun x =>
              (exists i,
                  (i < nrows (engineer_features three_days_sales three_days_oil []))%nat /\
                  (nth i (index (engineer_features three_days_sales three_days_oil [])) 0
                   <= 17168)%Z /\
                  x = cell (col (engineer_features three_days_sales three_days_oil []) "sales") i) \/
              (nrows (engineer_features three_days_sales three_days_oil []) = 1%nat /\
               x = Fin 0))
           pred.
Proof.
  assert (Hin : In 17168%Z (index (engineer_features three_days_sales three_days_oil [])))
    by (rewrite three_days_index; simpl; auto).
  split; [exact Hin|].
  apply (baseline_reads_train_sales three_days_sales three_days_oil [] 17168 Hin).
Defined.

(* ------------------------------------------------------------------ *)
(** ** Lags on a table with a missing day *)
(* ------------------------------------------------------------------ *)

Lemma lag_30_by_rows sales_raw oil holidays (i : nat) :
  (30 <= i < nrows (engineer_features sales_raw oil holidays))%nat ->
  cell (col (engineer_features sales_raw oil holidays) "lag_30") i =
  cell (col (engineer_features sales_raw oil holidays) "sales") (i - 30).
Proof.
  intros Hi. rewrite nrows_engineer_features in Hi.
  rewrite sales_column, col_engineer_features.
  change (col (derive_features (daily_table sales_raw oil) holidays) "lag_30")
    with (shift 30 (sales_of_table (daily_table sales_raw oil))).
  rewrite sales_of_table_finite. apply imputed_lag_cell.
  rewrite length_map. exact Hi.
Qed.

Lemma gap_year_dates :
  length (merged_dates gap_year_sales []) = 366%nat /\
  nth 0 (merged_dates gap_year_sales []) (0%Z, NaN) = (16801%Z, NaN) /\
  nth 335 (merged_dates gap_year_sales []) (0%Z, NaN) = (17136%Z, NaN) /\
  nth 336 (merged_dates gap_year_sales []) (0%Z, NaN) = (17137%Z, NaN) /\
  nth 365 (merged_dates gap_year_sales []) (0%Z, NaN) = (17167%Z, NaN).
Proof. vm_compute. repeat split; reflexivity. Qed.

Lemma gap_year_amounts :
  amounts_on 17136 gap_year_sales = [Some 1] /\
  amounts_on 17137 gap_year_sales = [Some 2].
Proof. vm_compute. split; reflexivity. Qed.

(** C4 on dates fails on a table with a missing day.  The table starts
    on 2016-01-01 and row 365 is 2017-01-01, with 366 days of history
    before it; the date 30 days before, 2016-12-02, is row 336 and sold 2.
    [lag_30] of 2017-01-01 is 1, the sales of row 335, which is
    2016-12-01. *)
Lemma lag_follows_rows_not_dates :
  nth 0 (index (engineer_features gap_year_sales [] [])) 0%Z = 16801%Z /\
  nth 365 (index (engineer_features gap_year_sales [] [])) 0%Z = 17167%Z /\
  (365 <= 17167 - 16801)%Z /\
  nth 336 (index (engineer_features gap_year_sales [] [])) 0%Z = (17167 - 30)%Z /\
  cell (col (engineer_features gap_year_sales [] []) "sales") 336 = Fin 2 /\
  nth 335 (index (engineer_features gap_year_sales [] [])) 0%Z = (17167 - 31)%Z /\
  cell (col (engineer_features gap_year_sales [] []) "sales") 335 = Fin 1 /\
  cell (col (engineer_features gap_year_sales [] []) "lag_30") 365 = Fin 1 /\
  cell (col (engineer_features gap_year_sales [] []) "lag_30") 365 <>
  cell (col (engineer_features gap_year_sales [] []) "sales") 336 /\
  ~ consecutive_days (index (engineer_features gap_year_sales [] [])).
Proof.
  destruct gap_year_dates as (Hlen & H0 & H335 & H336 & H365).
  destruct gap_year_amounts as (A335 & A336).
  assert (Hidx : forall j p, (j < 366)%nat ->
            nth j (merged_dates gap_year_sales []) (0%Z, NaN) = p ->
            nth j (index (engineer_features gap_year_sales [] [])) 0%Z = fst p).
  { intros j p Hj Hp. rewrite feature_table_index.
    rewrite (nth_map_in fst _ j (0%Z, NaN)) by (rewrite Hlen; exact Hj).
    rewrite Hp. reflexivity. }
  assert (Hsales : forall j p, (j < 366)%nat ->
            nth j (merged_dates gap_year_sales []) (0%Z, NaN) = p ->
            cell (col (engineer_features gap_year_sales [] []) "sales") j =
            Fin (sum_present (amounts_on (fst p) gap_year_sales))).
  { intros j p Hj Hp. rewrite feature_table_sales. unfold cell.
    rewrite (nth_map_in _ _ j (0%Z, NaN)) by (rewrite Hlen; exact Hj).
    rewrite Hp. reflexivity. }
  assert (S335 : cell (col (engineer_features gap_year_sales [] []) "sales") 335 = Fin 1).
  { rewrite (Hsales 335%nat _ ltac:(lia) H335). cbn [fst]. rewrite A335.
    unfold sum_present. cbn [fold_left]. f_equal. lra. }
  assert (S336 : cell (col (engineer_features gap_year_sales [] []) "sales") 336 = Fin 2).
  { rewrite (Hsales 336%nat _ ltac:(lia) H336). cbn [fst]. rewrite A336.
    unfold sum_present. cbn [fold_left]. f_equal. lra. }
  assert (Hlag : cell (col (engineer_features gap_year_sales [] []) "lag_30") 365 = Fin 1).
  { rewrite lag_30_by_rows by (rewrite nrows_merged, Hlen; lia).
    exact S335. }
  split; [exact (Hidx 0%nat _ ltac:(lia) H0)|].
  split; [exact (Hidx 365%nat _ ltac:(lia) H365)|].
  split; [lia|].
  split; [exact (Hidx 336%nat _ ltac:(lia) H336)|].
  split; [exact S336|].
  split; [exact (Hidx 335%nat _ ltac:(lia) H335)|].
  split; [exact S335|].
  split; [exact Hlag|].
  split.
  - rewrite Hlag, S336. intros E. injection E as E. lra.
  - intros Hc.
    assert (Hlen' : length (index (engineer_features gap_year_sales [] [])) = 366%nat).
    { rewrite feature_table_index, length_map. exact Hlen. }
    pose proof (consecutive_days_offset _ 365 30 Hc ltac:(rewrite Hlen'; lia)) as Hoff.
    replace (365 - 30)%nat with 335%nat in Hoff by lia.
    rewrite (Hidx 335%nat _ ltac:(lia) H335) in Hoff.
    rewrite (Hidx 365%nat _ ltac:(lia) H365) in Hoff.
    cbn [fst] in Hoff. lia.
Qed.
